(** * The book compiler agent: assembly and build pipeline

    A shallow embedding of [compiler_agent.py] (class [CompilerAgent]) and of
    the requests of [github_agent.py] (class [GitHubAgent]).

    Python text is a list of characters (code points below 256); positions
    returned by [str.find] are integers with [-1] for "not found", and slices
    follow Python's clamping rules.  The process state (local file system,
    current directory, commands run, requests sent, log) is threaded
    explicitly; exceptions are values. *)

From Stdlib Require Import List Ascii ZArith Lia Bool Arith.
From Stdlib Require String DecimalString DecimalPos.
Import String.StringSyntax.
Delimit Scope string_scope with string.
From Stdlib Require Import Permutation Sorted.
Import ListNotations.


(** ** Python strings *)

Module PyStr.

Definition str := list ascii.

Definition lit (s : String.string) : str := String.list_ascii_of_string s.
Arguments lit s%_string.

Definition nl : ascii := "010"%char.

Definition ascii_eqb (a b : ascii) : bool := Ascii.eqb a b.

Fixpoint str_eqb (a b : str) : bool :=
  match a, b with
  | [], [] => true
  | x :: a', y :: b' => ascii_eqb x y && str_eqb a' b'
  | _, _ => false
  end.

(** [s.startswith(p)] *)
Fixpoint startswith (p s : str) : bool :=
  match p, s with
  | [], _ => true
  | _ :: _, [] => false
  | x :: p', y :: s' => ascii_eqb x y && startswith p' s'
  end.

(** [s.endswith(p)] *)
Definition endswith (p s : str) : bool := startswith (rev p) (rev s).

(** First index at which [needle] occurs in [s]. *)
Fixpoint find_nat (needle s : str) : option nat :=
  if startswith needle s then Some 0
  else match s with
       | [] => None
       | _ :: t => option_map S (find_nat needle t)
       end.

(** Index normalisation of slices and of the [start] argument of [find]. *)
Definition norm_index (len : nat) (i : Z) : nat :=
  if (i <? 0)%Z then Z.to_nat (Z.max 0 (i + Z.of_nat len))
  else Nat.min (Z.to_nat i) len.

(** [s.find(needle)] *)
Definition find (needle s : str) : Z :=
  match find_nat needle s with
  | Some i => Z.of_nat i
  | None => (-1)%Z
  end.

(** [s.find(needle, start)] *)
Definition find_start (needle s : str) (start : Z) : Z :=
  if (Z.of_nat (length s) <? start)%Z then (-1)%Z
  else
    let st := norm_index (length s) start in
    match find_nat needle (skipn st s) with
    | Some i => Z.of_nat (st + i)
    | None => (-1)%Z
    end.

(** [s[:j]], [s[i:]] and [s[i:j]] *)
Definition slice_to (s : str) (j : Z) : str :=
  firstn (norm_index (length s) j) s.

Definition slice_from (s : str) (i : Z) : str :=
  skipn (norm_index (length s) i) s.

Definition slice (s : str) (i j : Z) : str :=
  let a := norm_index (length s) i in
  let b := norm_index (length s) j in
  firstn (b - a) (skipn a s).

(** [c.isspace()] on code points below 256 *)
Definition is_space (c : ascii) : bool :=
  let n := nat_of_ascii c in
  ((9 <=? n) && (n <=? 13)) || ((28 <=? n) && (n <=? 32))
  || (n =? 133) || (n =? 160).

Fixpoint lstrip (s : str) : str :=
  match s with
  | [] => []
  | c :: t => if is_space c then lstrip t else s
  end.

Definition rstrip (s : str) : str := rev (lstrip (rev s)).

(** [s.strip()] *)
Definition strip (s : str) : str := rstrip (lstrip s).

(** [\d] on code points below 256 *)
Definition is_digit (c : ascii) : bool :=
  let n := nat_of_ascii c in (48 <=? n) && (n <=? 57).

(** Longest run of digits at the head of [s], and what follows it. *)
Fixpoint span_digits (s : str) : str * str :=
  match s with
  | [] => ([], [])
  | c :: t =>
      if is_digit c then let (d, r) := span_digits t in (c :: d, r)
      else ([], s)
  end.

(** [int(s)] for a string of decimal digits *)
Definition int_of_digits (s : str) : Z :=
  fold_left (fun acc c => (10 * acc + Z.of_nat (nat_of_ascii c - 48))%Z) s 0%Z.

(** Strip a literal prefix. *)
Fixpoint strip_prefix (p s : str) : option str :=
  match p, s with
  | [], _ => Some s
  | _ :: _, [] => None
  | x :: p', y :: s' => if ascii_eqb x y then strip_prefix p' s' else None
  end.

(** Lexicographic order on strings by code point, as Python's [<=]. *)
Fixpoint str_leb (a b : str) : bool :=
  match a, b with
  | [], _ => true
  | _ :: _, [] => false
  | x :: a', y :: b' =>
      if (nat_of_ascii x <? nat_of_ascii y) then true
      else if (nat_of_ascii y <? nat_of_ascii x) then false
      else str_leb a' b'
  end.

(** What a file opened in text mode gives for the stored text [s]: with
    universal newlines, [\r\n] and a lone [\r] are read as [\n]. *)
Definition cr : ascii := "013"%char.

Fixpoint universal_newlines (s : str) : str :=
  match s with
  | [] => []
  | c :: t =>
      if ascii_eqb c cr then
        match t with
        | l :: _ => if ascii_eqb l nl then universal_newlines t
                    else nl :: universal_newlines t
        | [] => [nl]
        end
      else c :: universal_newlines t
  end.

End PyStr.

Import PyStr.

(** ** Regular expressions of the default configuration *)

Module Regex.

(** A match of [prefix(\d+)suffix] at the head of [s]: the captured digits
    and the text after the match.  The digit run is taken greedily; giving
    digits back never helps because the suffix does not start with a digit. *)
Definition match_digits_between (prefix suffix s : str) : option (str * str) :=
  match strip_prefix prefix s with
  | None => None
  | Some s1 =>
      let (d, s2) := span_digits s1 in
      match d with
      | [] => None
      | _ :: _ =>
          match strip_prefix suffix s2 with
          | None => None
          | Some rest => Some (d, rest)
          end
      end
  end.

(** [re.match(r"chapter(\d+)\.tex", file_name)]: group 1 *)
Definition match_chapter_file (file_name : str) : option str :=
  option_map fst (match_digits_between (lit "chapter") (lit ".tex") file_name).

(** The include pattern [\\include{chapters/chapter(\d+)}] at the head of [s]. *)
Definition match_include (s : str) : option (str * str) :=
  match_digits_between (lit "\include{chapters/chapter") (lit "}") s.

(** [re.sub(include_pattern, "", s)]: the scan restarts after each match. *)
Fixpoint sub_include_fuel (fuel : nat) (s : str) : str :=
  match fuel with
  | 0 => s
  | S f =>
      match s with
      | [] => []
      | c :: t =>
          match match_include s with
          | Some (_, rest) => sub_include_fuel f rest
          | None => c :: sub_include_fuel f t
          end
      end
  end.

Definition sub_include (s : str) : str := sub_include_fuel (length s) s.

(** [re.findall(include_pattern, s)]: the list of group-1 captures. *)
Fixpoint findall_include_fuel (fuel : nat) (s : str) : list str :=
  match fuel with
  | 0 => []
  | S f =>
      match s with
      | [] => []
      | _ :: t =>
          match match_include s with
          | Some (d, rest) => d :: findall_include_fuel f rest
          | None => findall_include_fuel f t
          end
      end
  end.

Definition findall_include (s : str) : list str :=
  findall_include_fuel (length s) s.

End Regex.

Import Regex.

(** ** The document assembler: the text transformation of [update_main_file] *)

Module Assembler.

Definition BEGIN_DOC : str := lit "\begin{document}".
Definition END_DOC : str := lit "\end{document}".
Definition TOC : str := lit "\tableofcontents".

(** Tuple order of [(chapter_num, chapter_path)], as [list.sort] uses it. *)
Definition chapter_leb (a b : Z * str) : bool :=
  if (fst a <? fst b)%Z then true
  else if (fst b <? fst a)%Z then false
  else str_leb (snd a) (snd b).

Fixpoint insert_sorted (x : Z * str) (l : list (Z * str)) : list (Z * str) :=
  match l with
  | [] => [x]
  | y :: t => if chapter_leb x y then x :: l else y :: insert_sorted x t
  end.

(** [available_chapters.sort()] *)
Definition sort_chapters (l : list (Z * str)) : list (Z * str) :=
  fold_right insert_sorted [] l.

(** The loop over [os.listdir(chapters_dir)]. *)
Definition scan_chapters (listing : list str) : list (Z * str) :=
  flat_map
    (fun file_name =>
       match match_chapter_file file_name with
       | Some g => [(int_of_digits g, lit "chapters/" ++ file_name)]
       | None => []
       end)
    listing.

Definition available_chapters (listing : list str) : list (Z * str) :=
  sort_chapters (scan_chapters listing).

(** One directive of the generated block. *)
Definition include_line (chapter_path : str) : str :=
  let p := if endswith (lit ".tex") chapter_path
           then slice_to chapter_path (-4)
           else chapter_path in
  lit "\include{" ++ p ++ lit "}" ++ [nl].

Definition INCLUDES_HEADER : str :=
  [nl; nl] ++ lit "% Generated chapter includes" ++ [nl].

(** The loop building [chapter_includes]. *)
Definition chapter_includes (chapters : list (Z * str)) : str :=
  fold_left (fun acc ch => acc ++ include_line (snd ch)) chapters INCLUDES_HEADER.

(** The split of the body at the table of contents:
    [(frontmatter, doc_content)]. *)
Definition split_frontmatter (doc_content : str) : str * str :=
  let toc_pos := find TOC doc_content in
  if (toc_pos =? -1)%Z then ([], doc_content)
  else
    let nl_pos := find_start [nl] doc_content toc_pos in
    let nl_pos := if (nl_pos =? -1)%Z then Z.of_nat (length doc_content)
                  else nl_pos in
    (slice_to doc_content (nl_pos + 1), slice_from doc_content (nl_pos + 1)).

(** From the markers' search to [new_content]; [None] is the early
    [return False]. *)
Definition rebuild (content : str) (chapters : list (Z * str)) : option str :=
  let doc_start := find BEGIN_DOC content in
  let doc_end := find END_DOC content in
  if (doc_start =? -1)%Z || (doc_end =? -1)%Z then None
  else
    let blen := Z.of_nat (length BEGIN_DOC) in
    let preamble := slice_to content (doc_start + blen) in
    let doc_content := slice content (doc_start + blen) doc_end in
    let (frontmatter, doc_content) := split_frontmatter doc_content in
    let doc_content := sub_include doc_content in
    let includes := chapter_includes chapters in
    Some (preamble ++ [nl] ++ frontmatter ++ [nl] ++ includes ++ [nl]
            ++ strip doc_content ++ [nl] ++ END_DOC ++ [nl]).

(** The text written back for a main file [content] and a directory listing. *)
Definition assemble (content : str) (listing : list str) : option str :=
  rebuild content (available_chapters listing).

End Assembler.

Import Assembler.


(** ** Paths ([os.path] on POSIX) *)

Module Path.

Definition sep : ascii := "/"%char.

(** [os.path.join(a, b)] *)
Definition join (a b : str) : str :=
  if startswith [sep] b then b
  else if match a with [] => true | _ :: _ => endswith [sep] a end then a ++ b
  else a ++ [sep] ++ b.

(** Split after the last [c]: the head ends with that [c] and is empty when
    [c] does not occur. *)
Fixpoint rsplit_at (c : ascii) (s : str) : str * str :=
  match s with
  | [] => ([], [])
  | x :: t =>
      let (h, tl) := rsplit_at c t in
      match h with
      | [] => if ascii_eqb x c then ([x], tl) else ([], x :: tl)
      | _ :: _ => (x :: h, tl)
      end
  end.

Fixpoint drop_leading (c : ascii) (s : str) : str :=
  match s with
  | [] => []
  | x :: t => if ascii_eqb x c then drop_leading c t else s
  end.

(** [os.path.basename(p)] *)
Definition basename (p : str) : str := snd (rsplit_at sep p).

(** [os.path.dirname(p)] *)
Definition dirname (p : str) : str :=
  let head := fst (rsplit_at sep p) in
  match drop_leading sep head with
  | [] => head
  | _ :: _ => rev (drop_leading sep (rev head))
  end.

(** [os.path.splitext(p)] *)
Definition splitext (p : str) : str * str :=
  let (head, name) := rsplit_at sep p in
  let (stem_dot, ext) := rsplit_at "."%char name in
  match stem_dot with
  | [] => (p, [])
  | _ :: _ =>
      let stem := removelast stem_dot in
      match drop_leading "."%char stem with
      | [] => (p, [])
      | _ :: _ => (head ++ stem, "."%char :: ext)
      end
  end.

End Path.

(** ** The local file system *)

Module FileSys.

Record FS := { files : list (str * str); dirs : list str }.

Fixpoint lookup (p : str) (l : list (str * str)) : option str :=
  match l with
  | [] => None
  | (q, c) :: t => if str_eqb p q then Some c else lookup p t
  end.

(** Writing keeps the position of an existing entry; a new entry goes last. *)
Fixpoint store_file (p c : str) (l : list (str * str)) : list (str * str) :=
  match l with
  | [] => [(p, c)]
  | (q, d) :: t => if str_eqb p q then (p, c) :: t else (q, d) :: store_file p c t
  end.

Definition is_dir (fs : FS) (d : str) : bool := existsb (str_eqb d) (dirs fs).

Definition is_file (fs : FS) (p : str) : bool :=
  match lookup p (files fs) with Some _ => true | None => false end.

(** [os.path.exists(p)] *)
Definition path_exists (fs : FS) (p : str) : bool := is_file fs p || is_dir fs p.

Definition add_dir (d : str) (fs : FS) : FS :=
  if is_dir fs d then fs else {| files := files fs; dirs := dirs fs ++ [d] |}.

Definition put_file (p c : str) (fs : FS) : FS :=
  {| files := store_file p c (files fs); dirs := dirs fs |}.

(** The entries directly below [d], files first. *)
Definition entries (fs : FS) (d : str) : list str :=
  map Path.basename
    (filter (fun p => str_eqb (Path.dirname p) d) (map fst (files fs) ++ dirs fs)).

Definition below (d p : str) : bool :=
  str_eqb p d || startswith (d ++ [Path.sep]) p.

(** What [shutil.rmtree(d)] leaves of a file system in which [d] is a
    directory. *)
Definition remove_tree (d : str) (fs : FS) : FS :=
  {| files := filter (fun e => negb (below d (fst e))) (files fs);
     dirs := filter (fun p => negb (below d p)) (dirs fs) |}.

End FileSys.

Import FileSys.

(** ** Values exchanged with the store, exceptions, and the process state *)

Module Sys.

#[local] Unset Elimination Schemes.
Inductive Json :=
| JNull
| JBool (b : bool)
| JNum (n : Z)
| JStr (s : str)
| JArr (l : list Json)
| JObj (kv : list (str * Json)).
#[local] Set Elimination Schemes.

(** Python exceptions, all subclasses of [Exception]:
    [requests.exceptions.HTTPError] with the response's status code, and any
    other one with its class name; both carry the text of [str(e)].
    [KeyboardInterrupt] and [SystemExit], which [except Exception] lets
    through, are not modelled: the statements are about runs that are not
    interrupted. *)
Inductive exn :=
| HTTPError (status : Z) (msg : str)
| Error (kind : str) (msg : str).

Definition exn_str (e : exn) : str :=
  match e with
  | HTTPError _ m => m
  | Error _ m => m
  end.

Inductive result (A : Type) :=
| Ok (a : A)
| Raise (e : exn).

Arguments Ok {A} a.
Arguments Raise {A} e.

Inductive level := INFO | WARNING | ERROR.

Record Request := {
  req_method : str;
  req_url : str;
  req_json : option Json;
  req_params : list (str * str)
}.

(** What [requests.request] returns: the status code, the
    [X-RateLimit-Remaining] header when present, and the parsed body when the
    response has content. *)
Record Response := {
  status_code : Z;
  rate_limit_remaining : option Z;
  body : option Json;
  error_text : str                  (* the text of the error [raise_for_status] raises *)
}.

(** What [subprocess.run(..., capture_output=True, text=True)] returns. *)
Record CompletedProcess := {
  returncode : Z;
  stdout : str;
  stderr : str
}.

(** The configuration, with the types of [load_config]'s defaults.  The two
    patterns stay at their defaults, see [Regex]. *)
Record Config := {
  repo_owner : str;
  repo_name : str;
  agent_name : str;
  main_file : str;
  output_branch : str;
  build_command : str;
  bibtex_command : str;
  run_bibtex : bool;
  latex_runs : Z
}.

(** The world outside the program text: the store behind the HTTP API, the
    codecs, the shell, the temporary-directory allocator and [str.format]. *)
Class Platform := {
  Store : Type;
  (** [requests.request(method, url, headers, json, params)] *)
  http : Request -> Store -> Response * Store;
  (** [base64.b64decode(s).decode("utf-8")] *)
  b64decode_utf8 : str -> result str;
  (** [base64.b64encode(s.encode("utf-8")).decode("utf-8")] *)
  b64encode_utf8 : str -> str;
  (** [subprocess.run(cmd, shell=True, ...)] started in directory [cwd]: it
      raises, or returns a completed process and leaves a file system. *)
  run_shell : str -> str -> FS -> result CompletedProcess * FS;
  (** the directory of temporary files and the name [mkdtemp] picks *)
  tmpdir : str;
  tmp_suffix : FS -> str;
  (** [template.format] with keyword arguments *)
  format : str -> list (str * str) -> result str
}.

Section Agent.

Context {PF : Platform}.
Variable cfg : Config.

Record State := {
  work_dir : option str;            (* self.work_dir *)
  fs : FS;
  cwd : str;
  store : Store;
  commands : list str;              (* every command given to the shell *)
  requests : list Request;          (* every request sent to the store *)
  log : list (level * str)
}.

(** Computations: a result or an exception, and the state left behind. *)
Definition M (A : Type) : Type := State -> result A * State.

Definition ret {A} (a : A) : M A := fun st => (Ok a, st).

Definition raise {A} (e : exn) : M A := fun st => (Raise e, st).

Definition bind {A B} (m : M A) (k : A -> M B) : M B :=
  fun st =>
    match m st with
    | (Ok a, st') => k a st'
    | (Raise e, st') => (Raise e, st')
    end.

(** [try: m  except Exception as e: h e] *)
Definition try_except {A} (m : M A) (h : exn -> M A) : M A :=
  fun st =>
    match m st with
    | (Ok a, st') => (Ok a, st')
    | (Raise e, st') => h e st'
    end.

Definition lift {A} (r : result A) : M A := fun st => (r, st).

Definition get {A} (proj : State -> A) : M A := fun st => (Ok (proj st), st).

Definition modify (f : State -> State) : M unit := fun st => (Ok tt, f st).

Fixpoint for_each {A} (l : list A) (body : A -> M unit) : M unit :=
  match l with
  | [] => ret tt
  | x :: t => bind (body x) (fun _ => for_each t body)
  end.

Notation "x <- m ;; k" := (bind m (fun x => k))
  (at level 100, m at next level, right associativity).
Notation "m ;;; k" := (bind m (fun _ => k))
  (at level 100, right associativity).

(** *** Primitives of the runtime *)

Definition add_log (lv : level) (msg : str) (st : State) : State :=
  {| work_dir := work_dir st; fs := fs st; cwd := cwd st; store := store st;
     commands := commands st; requests := requests st;
     log := log st ++ [(lv, msg)] |}.

Definition set_fs (f : FS) (st : State) : State :=
  {| work_dir := work_dir st; fs := f; cwd := cwd st; store := store st;
     commands := commands st; requests := requests st; log := log st |}.

Definition set_cwd (d : str) (st : State) : State :=
  {| work_dir := work_dir st; fs := fs st; cwd := d; store := store st;
     commands := commands st; requests := requests st; log := log st |}.

Definition set_work_dir (w : option str) (st : State) : State :=
  {| work_dir := w; fs := fs st; cwd := cwd st; store := store st;
     commands := commands st; requests := requests st; log := log st |}.

Definition sent (rq : Request) (s : Store) (st : State) : State :=
  {| work_dir := work_dir st; fs := fs st; cwd := cwd st; store := s;
     commands := commands st; requests := requests st ++ [rq]; log := log st |}.

Definition ran (cmd : str) (f : FS) (st : State) : State :=
  {| work_dir := work_dir st; fs := f; cwd := cwd st; store := store st;
     commands := commands st ++ [cmd]; requests := requests st; log := log st |}.

(** [logger.info], [logger.warning], [logger.error] *)
Definition logger (lv : level) (msg : str) : M unit := modify (add_log lv msg).

(** The value of [self.work_dir] when it is truthy. *)
Definition truthy_dir (w : option str) : option str :=
  match w with
  | Some (c :: t) => Some (c :: t)
  | _ => None
  end.

(** The value of a fetched text when it is truthy. *)
Definition truthy_text (c : option str) : option str := truthy_dir c.

(** [os.makedirs(d, exist_ok=True)] *)
Definition makedirs (d : str) : M unit :=
  fun st =>
    match d with
    | [] => (Raise (Error (lit "FileNotFoundError") (lit "No such file or directory: ''")), st)
    | _ :: _ =>
        if is_file (fs st) d
        then (Raise (Error (lit "FileExistsError") (lit "File exists: " ++ d)), st)
        else (Ok tt, set_fs (add_dir d (fs st)) st)
    end.

(** [with open(p, 'w') as f: f.write(c)]; on POSIX the text is written as
    it is *)
Definition write_text (p c : str) : M unit :=
  fun st =>
    if is_dir (fs st) p
    then (Raise (Error (lit "IsADirectoryError") (lit "Is a directory: " ++ p)), st)
    else if is_dir (fs st) (Path.dirname p)
    then (Ok tt, set_fs (put_file p c (fs st)) st)
    else (Raise (Error (lit "FileNotFoundError") (lit "No such file or directory: " ++ p)), st).

(** [with open(p, 'r') as f: f.read()]: text mode, with universal newlines *)
Definition read_text (p : str) : M str :=
  fun st =>
    match lookup p (files (fs st)) with
    | Some c => (Ok (universal_newlines c), st)
    | None => (Raise (Error (lit "FileNotFoundError") (lit "No such file or directory: " ++ p)), st)
    end.

(** [with open(p, 'rb') as f: f.read()]: the bytes as they are *)
Definition read_bytes (p : str) : M str :=
  fun st =>
    match lookup p (files (fs st)) with
    | Some c => (Ok c, st)
    | None => (Raise (Error (lit "FileNotFoundError") (lit "No such file or directory: " ++ p)), st)
    end.

(** [os.listdir(d)] *)
Definition listdir (d : str) : M (list str) :=
  fun st =>
    if is_dir (fs st) d then (Ok (entries (fs st) d), st)
    else (Raise (Error (lit "NotADirectoryError") (lit "Not a directory: " ++ d)), st).

(** [os.chdir(d)] *)
Definition chdir (d : str) : M unit :=
  fun st =>
    if is_dir (fs st) d then (Ok tt, set_cwd d st)
    else (Raise (Error (lit "FileNotFoundError") (lit "No such file or directory: " ++ d)), st).

(** [subprocess.run(cmd, shell=True, capture_output=True, text=True)] *)
Definition subprocess_run (cmd : str) : M CompletedProcess :=
  fun st =>
    let (r, f) := run_shell cmd (cwd st) (fs st) in
    (r, ran cmd f st).

(** [str(n)] for an integer *)
Definition str_of_Z (n : Z) : str :=
  lit (DecimalString.NilZero.string_of_int (Z.to_int n)).

(** [range(n)] *)
Definition range (n : Z) : list Z := map Z.of_nat (seq 0 (Z.to_nat n)).

(** *** [GitHubAgent] *)

Definition base_url : str :=
  lit "https://api.github.com/repos/" ++ repo_owner cfg ++ lit "/" ++ repo_name cfg.

Definition _make_request (method endpoint : str) (data : option Json)
    (params : list (str * str)) : M (option Json) :=
  fun st =>
    let rq := {| req_method := method; req_url := base_url ++ endpoint;
                 req_json := data; req_params := params |} in
    let (response, s) := http rq (store st) in
    let st1 := sent rq s st in
    let st2 :=
      if (status_code response =? 403)%Z
         && match rate_limit_remaining response with
            | Some r => (r =? 0)%Z
            | None => false
            end
      then add_log WARNING (lit "GitHub API rate limit reached!") st1
      else st1 in
    if (400 <=? status_code response)%Z && (status_code response <? 600)%Z
    then (Raise (HTTPError (status_code response) (error_text response)), st2)
    else (Ok (body response), st2).

Fixpoint lookup_key (k : str) (kv : list (str * Json)) : option Json :=
  match kv with
  | [] => None
  | (q, v) :: t => if str_eqb k q then Some v else lookup_key k t
  end.

(** [value[key]] for a string key *)
Definition getitem (value : option Json) (key : str) : M Json :=
  match value with
  | Some (JObj kv) =>
      match lookup_key key kv with
      | Some v => ret v
      | None => raise (Error (lit "KeyError") key)
      end
  | _ => raise (Error (lit "TypeError") (lit "object is not subscriptable by a string"))
  end.

(** [base64.b64decode(value).decode("utf-8")] *)
Definition decode_content (value : Json) : M str :=
  match value with
  | JStr s => lift (b64decode_utf8 s)
  | _ => raise (Error (lit "TypeError") (lit "argument should be a bytes-like object or ASCII string"))
  end.

Definition get_file_content (file_path branch : str) : M (option str) :=
  try_except
    (response <- _make_request (lit "GET") (lit "/contents/" ++ file_path) None
                   [(lit "ref", branch)] ;;
     encoded <- getitem response (lit "content") ;;
     content <- decode_content encoded ;;
     logger INFO (lit "Retrieved " ++ file_path ++ lit " from " ++ branch) ;;;
     ret (Some content))
    (fun e =>
       match e with
       | HTTPError status _ =>
           if (status =? 404)%Z
           then logger WARNING (lit "File " ++ file_path ++ lit " not found on branch " ++ branch) ;;;
                ret None
           else raise e
       | Error _ _ => raise e
       end).

(** What a caller hands to [create_or_update_file] as [content]. *)
Inductive payload :=
| Text (s : str)
| Bytes (b : str).

Definition lower_char (c : ascii) : ascii :=
  let n := nat_of_ascii c in
  if ((65 <=? n) && (n <=? 90)) || ((192 <=? n) && (n <=? 222) && negb (n =? 215))
  then ascii_of_nat (n + 32) else c.

(** [s.lower()] *)
Definition lower (s : str) : str := map lower_char s.

Definition truthy_json (v : option Json) : bool :=
  match v with
  | None | Some JNull | Some (JBool false) | Some (JStr []) | Some (JArr [])
  | Some (JObj []) => false
  | Some (JNum n) => negb (n =? 0)%Z
  | Some _ => true
  end.

Definition create_or_update_file (file_path : str) (content : payload)
    (commit_message branch : str) (update : bool) : M (option Json) :=
  encoded_content <-
    match content with
    | Text s => ret (b64encode_utf8 s)
    | Bytes _ => raise (Error (lit "AttributeError")
                          (lit "'bytes' object has no attribute 'encode'"))
    end ;;
  let data :=
    [(lit "message", JStr commit_message);
     (lit "content", JStr encoded_content);
     (lit "branch", JStr branch);
     (lit "committer",
      JObj [(lit "name", JStr (agent_name cfg));
            (lit "email", JStr (lower (agent_name cfg) ++ lit "@example.com"))])] in
  data <-
    (if update then
       file_info <- _make_request (lit "GET") (lit "/contents/" ++ file_path) None
                      [(lit "ref", branch)] ;;
       if truthy_json file_info
       then sha <- getitem file_info (lit "sha") ;; ret (data ++ [(lit "sha", sha)])
       else ret data
     else ret data) ;;
  response <- _make_request (lit "PUT") (lit "/contents/" ++ file_path)
                (Some (JObj data)) [] ;;
  logger INFO ((if update then lit "Updated" else lit "Created") ++ lit " "
               ++ file_path ++ lit " on " ++ branch) ;;;
  ret response.

(** The items a [for] loop over a decoded JSON value visits. *)
Definition iterate (v : option Json) : M (list Json) :=
  match v with
  | Some (JArr l) => ret l
  | Some (JObj kv) => ret (map (fun e => JStr (fst e)) kv)
  | Some (JStr s) => ret (map (fun c => JStr [c]) s)
  | _ => raise (Error (lit "TypeError") (lit "object is not iterable"))
  end.

Fixpoint map_m {A B} (f : A -> M B) (l : list A) : M (list B) :=
  match l with
  | [] => ret []
  | x :: t => y <- f x ;; ys <- map_m f t ;; ret (y :: ys)
  end.

Definition list_branches : M (list Json) :=
  branches <- _make_request (lit "GET") (lit "/branches") None [] ;;
  items <- iterate branches ;;
  map_m (fun branch => getitem (Some branch) (lit "name")) items.

Definition create_branch (branch_name base_branch : str) : M (option Json) :=
  base_ref <- _make_request (lit "GET") (lit "/git/ref/heads/" ++ base_branch) None [] ;;
  object <- getitem base_ref (lit "object") ;;
  base_sha <- getitem (Some object) (lit "sha") ;;
  let data := JObj [(lit "ref", JStr (lit "refs/heads/" ++ branch_name));
                    (lit "sha", base_sha)] in
  try_except
    (response <- _make_request (lit "POST") (lit "/git/refs") (Some data) [] ;;
     logger INFO (lit "Created branch " ++ branch_name ++ lit " from " ++ base_branch) ;;;
     ret response)
    (fun e =>
       match e with
       | HTTPError status _ =>
           if (status =? 422)%Z
           then logger WARNING (lit "Branch " ++ branch_name ++ lit " already exists") ;;;
                ret None
           else raise e
       | Error _ _ => raise e
       end).

(** *** [CompilerAgent] *)

Definition setup_working_directory : M str :=
  d <- get (fun st => Path.join tmpdir (lit "mathbook_compiler_" ++ tmp_suffix (fs st))) ;;
  modify (fun st => set_work_dir (Some d) (set_fs (add_dir d (fs st)) st)) ;;;
  logger INFO (lit "Created working directory: " ++ d) ;;;
  ret d.

(** The working directory is the directory [mkdtemp] made; [shutil.rmtree]
    on a path that names a regular file raises, which is not modelled. *)
Definition cleanup_working_directory : M unit :=
  w <- get work_dir ;;
  match truthy_dir w with
  | None => ret tt
  | Some d =>
      present <- get (fun st => path_exists (fs st) d) ;;
      if present
      then modify (fun st => set_work_dir None (set_fs (remove_tree d (fs st)) st)) ;;;
           logger INFO (lit "Cleaned up working directory")
      else ret tt
  end.

(** The working directory as the code uses it after its guard; an unset one
    makes [os.path.join] raise. *)
Definition the_work_dir : M str :=
  w <- get work_dir ;;
  match w with
  | Some d => ret d
  | None => raise (Error (lit "TypeError") (lit "expected str, bytes or os.PathLike object, not NoneType"))
  end.

(** Fetch one file and save it below the working directory when it has
    content; [on_missing] is the [else] branch. *)
Definition download_file (branch : str) (on_missing : str -> M unit)
    (file_path : str) : M unit :=
  content <- get_file_content file_path branch ;;
  match truthy_text content with
  | Some c =>
      d <- the_work_dir ;;
      let full_path := Path.join d file_path in
      makedirs (Path.dirname full_path) ;;;
      write_text full_path c ;;;
      logger INFO (lit "Downloaded " ++ file_path)
  | None => on_missing file_path
  end.

Definition download_all_chapters (branch : str) : M unit :=
  for_each (map (fun n => Z.of_nat n) (seq 1 20))
    (fun chapter_num =>
       download_file branch (fun _ => ret tt)
         (lit "chapters/chapter" ++ str_of_Z chapter_num ++ lit ".tex")).

Definition download_figures (branch : str) : M unit :=
  logger INFO (lit "Figure downloading would be implemented here") ;;;
  d <- the_work_dir ;;
  makedirs (Path.join d (lit "figures")).

Definition standard_files : list str :=
  [lit "preamble.tex"; lit "macros/algebra.tex"; lit "macros/analysis.tex";
   lit "bibliography.bib"].

Definition with_tex (include : str) : str :=
  if endswith (lit ".tex") include then include else include ++ lit ".tex".

Definition download_repository_files (branch : str) : M bool :=
  w <- get work_dir ;;
  (match truthy_dir w with
   | None => d <- setup_working_directory ;; ret tt
   | Some _ => ret tt
   end) ;;;
  try_except
    (let main_file_path := main_file cfg in
     main_content <- get_file_content main_file_path branch ;;
     match truthy_text main_content with
     | None =>
         logger ERROR (lit "Main file " ++ main_file_path ++ lit " not found") ;;;
         ret false
     | Some main_content =>
         d <- the_work_dir ;;
         makedirs (Path.dirname (Path.join d main_file_path)) ;;;
         write_text (Path.join d main_file_path) main_content ;;;
         let includes := findall_include main_content in
         let files_to_download := standard_files ++ map with_tex includes in
         for_each files_to_download
           (download_file branch
              (fun file_path =>
                 logger WARNING (lit "File " ++ file_path ++ lit " not found, skipping"))) ;;;
         download_all_chapters branch ;;;
         download_figures branch ;;;
         ret true
     end)
    (fun e =>
       logger ERROR (lit "Error downloading files: " ++ exn_str e) ;;;
       ret false).

Definition update_main_file : M bool :=
  w <- get work_dir ;;
  match truthy_dir w with
  | None => logger ERROR (lit "Working directory not set up") ;;; ret false
  | Some d =>
      try_except
        (let main_file_path := Path.join d (main_file cfg) in
         content <- read_text main_file_path ;;
         let chapters_dir := Path.join d (lit "chapters") in
         present <- get (fun st => path_exists (fs st) chapters_dir) ;;
         listing <- (if present then listdir chapters_dir else ret []) ;;
         let available := available_chapters listing in
         match rebuild content available with
         | None =>
             logger ERROR (lit "Could not find document environment in main file") ;;;
             ret false
         | Some new_content =>
             write_text main_file_path new_content ;;;
             logger INFO (lit "Updated main file to include "
                          ++ str_of_Z (Z.of_nat (length available)) ++ lit " chapters") ;;;
             ret true
         end)
        (fun e =>
           logger ERROR (lit "Error updating main file: " ++ exn_str e) ;;;
           ret false)
  end.

(** One pass after the first: its log line, the command, and the warning on
    a non-zero exit status. *)
Definition resolution_pass (build_command : str) (i : Z) : M unit :=
  logger INFO (lit "Running LaTeX pass " ++ str_of_Z (i + 2) ++ lit "/"
               ++ str_of_Z (latex_runs cfg + 1)) ;;;
  result <- subprocess_run build_command ;;
  if (returncode result =? 0)%Z then ret tt
  else logger WARNING (lit "LaTeX pass " ++ str_of_Z (i + 2) ++ lit " had issues: "
                       ++ stderr result).

(** The base name of the main file without its extension. *)
Definition main_name (d : str) : str :=
  fst (Path.splitext (Path.basename (Path.join d (main_file cfg)))).

(** The expected artifact. *)
Definition pdf_path (d : str) : str := Path.join d (main_name d ++ lit ".pdf").

(** The command lines, from their templates. *)
Definition build_line (d : str) : result str :=
  format (build_command cfg)
    [(lit "main_file", Path.basename (Path.join d (main_file cfg)));
     (lit "main_name", main_name d)].

Definition bibtex_line (d : str) : result str :=
  format (bibtex_command cfg) [(lit "main_name", main_name d)].

(** The end of the [try] block: the check for the PDF and both returns. *)
Definition terminal_check (d original_dir : str) : M (bool * option str) :=
  present <- get (fun st => path_exists (fs st) (pdf_path d)) ;;
  if present
  then logger INFO (lit "Successfully compiled PDF: " ++ pdf_path d) ;;;
       chdir original_dir ;;;
       ret (true, Some (pdf_path d))
  else logger ERROR (lit "PDF file not found at " ++ pdf_path d) ;;;
       chdir original_dir ;;;
       ret (false, None).

(** The [except Exception] block. *)
Definition compilation_failed (original_dir : str) (e : exn) : M (bool * option str) :=
  logger ERROR (lit "Error during compilation: " ++ exn_str e) ;;;
  try_except (chdir original_dir) (fun _ => ret tt) ;;;
  ret (false, None).

(** [original_dir] is read before the [try] here, since the handler needs
    it.  In the source [os.getcwd()] is the third statement of the [try]
    block and raises when the directory the process is in has been removed;
    the statements on [compile_book] that depend on it are made for a
    process whose directory is on disk. *)
Definition compile_book : M (bool * option str) :=
  w <- get work_dir ;;
  match truthy_dir w with
  | None => logger ERROR (lit "Working directory not set up") ;;; ret (false, None)
  | Some d =>
      original_dir <- get cwd ;;
      try_except
        (chdir d ;;;
         build_command <- lift (build_line d) ;;
         logger INFO (lit "Running first LaTeX pass: " ++ build_command) ;;;
         result <- subprocess_run build_command ;;
         (if (returncode result =? 0)%Z then ret tt
          else logger ERROR (lit "LaTeX compilation failed: " ++ stderr result)) ;;;
         (if run_bibtex cfg then
            bibtex_command <- lift (bibtex_line d) ;;
            logger INFO (lit "Running BibTeX: " ++ bibtex_command) ;;;
            result <- subprocess_run bibtex_command ;;
            if (returncode result =? 0)%Z then ret tt
            else logger WARNING (lit "BibTeX run had issues: " ++ stderr result)
          else ret tt) ;;;
         for_each (range (latex_runs cfg)) (resolution_pass build_command) ;;;
         terminal_check d original_dir)
        (compilation_failed original_dir)
  end.

Definition is_branch (name : str) (b : Json) : bool :=
  match b with
  | JStr s => str_eqb name s
  | _ => false
  end.

Definition upload_compiled_book (pdf_path : str) : M bool :=
  try_except
    (let output_branch := output_branch cfg in
     branches <- list_branches ;;
     (if existsb (is_branch output_branch) branches then ret tt
      else logger INFO (lit "Creating new branch: " ++ output_branch) ;;;
           _ <- create_branch output_branch (lit "main") ;; ret tt) ;;;
     pdf_content <- read_bytes pdf_path ;;
     logger WARNING (lit "Binary file upload not fully implemented in GitHubAgent") ;;;
     logger INFO (lit "Would upload " ++ pdf_path
                  ++ lit " to the repository (not implemented)") ;;;
     ret true)
    (fun e =>
       logger ERROR (lit "Error uploading compiled book: " ++ exn_str e) ;;;
       ret false).

(** The [except Exception] block of [process_book]. *)
Definition processing_failed (e : exn) : M bool :=
  logger ERROR (lit "Error processing book: " ++ exn_str e) ;;;
  cleanup_working_directory ;;; ret false.

Definition process_book (branch : str) : M bool :=
  try_except
    (_ <- setup_working_directory ;;
     downloaded <- download_repository_files branch ;;
     if negb downloaded
     then logger ERROR (lit "Failed to download repository files") ;;;
          cleanup_working_directory ;;; ret false
     else
       updated <- update_main_file ;;
       if negb updated
       then logger ERROR (lit "Failed to update main file") ;;;
            cleanup_working_directory ;;; ret false
       else
         compiled <- compile_book ;;
         let (success, pdf_path) := compiled in
         match (if success then truthy_text pdf_path else None) with
         | None =>
             logger ERROR (lit "Failed to compile the book") ;;;
             cleanup_working_directory ;;; ret false
         | Some pdf_path =>
             uploaded <- upload_compiled_book pdf_path ;;
             if negb uploaded
             then logger ERROR (lit "Failed to upload compiled book") ;;;
                  cleanup_working_directory ;;; ret false
             else logger INFO (lit "Book processing completed successfully") ;;;
                  cleanup_working_directory ;;; ret true
         end)
    processing_failed.

(** The exit code of the command line. *)
Definition main (branch : str) : M Z :=
  success <- process_book branch ;;
  ret (if success then 0%Z else 1%Z).

(** *** Pull requests and review comments ([GitHubAgent]) *)

Definition hex_digit (n : nat) : ascii :=
  if n <? 10 then ascii_of_nat (48 + n) else ascii_of_nat (87 + n).

(** [c.isprintable()] on code points below 256 *)
Definition is_printable (c : ascii) : bool :=
  let n := nat_of_ascii c in
  ((32 <=? n) && (n <=? 126)) || ((161 <=? n) && negb (n =? 173)).

(** One character of [repr(s)], inside the quotes [q]. *)
Definition repr_char (q c : ascii) : str :=
  let n := nat_of_ascii c in
  if ascii_eqb c q || (n =? 92) then ["\"%char; c]
  else if n =? 9 then lit "\t"
  else if n =? 10 then lit "\n"
  else if n =? 13 then lit "\r"
  else if is_printable c then [c]
  else ["\"%char; "x"%char; hex_digit (n / 16); hex_digit (n mod 16)].

(** [repr(s)] for a string: double quotes only when [s] has a single quote
    and no double quote. *)
Definition repr_str (s : str) : str :=
  let dq := ascii_of_nat 34 in
  let q := if existsb (ascii_eqb "'"%char) s && negb (existsb (ascii_eqb dq) s)
           then dq else "'"%char in
  q :: flat_map (repr_char q) s ++ [q].

(** [", ".join(items)] *)
Fixpoint join_comma (items : list str) : str :=
  match items with
  | [] => []
  | [x] => x
  | x :: t => x ++ lit ", " ++ join_comma t
  end.

(** [repr(v)] of a decoded JSON value (numbers are integers here). *)
Fixpoint py_repr (v : Json) : str :=
  match v with
  | JNull => lit "None"
  | JBool true => lit "True"
  | JBool false => lit "False"
  | JNum n => str_of_Z n
  | JStr s => repr_str s
  | JArr l => lit "[" ++ join_comma (map py_repr l) ++ lit "]"
  | JObj kv =>
      lit "{" ++ join_comma (map (fun e => repr_str (fst e) ++ lit ": " ++ py_repr (snd e)) kv)
        ++ lit "}"
  end.

(** [str(v)], as an f-string formats [v] *)
Definition py_str (v : Json) : str :=
  match v with
  | JStr s => s
  | _ => py_repr v
  end.

Definition create_pull_request (title body head_branch base_branch : str)
    : M (option Json) :=
  let data := JObj [(lit "title", JStr title); (lit "body", JStr body);
                    (lit "head", JStr head_branch); (lit "base", JStr base_branch)] in
  response <- _make_request (lit "POST") (lit "/pulls") (Some data) [] ;;
  pr_number <- getitem response (lit "number") ;;
  logger INFO (lit "Created PR #" ++ py_str pr_number ++ lit ": " ++ title) ;;;
  ret response.

Definition comment_on_pull_request (pr_number : Z) (comment : str) : M (option Json) :=
  let data := JObj [(lit "body", JStr comment)] in
  response <- _make_request (lit "POST")
                (lit "/issues/" ++ str_of_Z pr_number ++ lit "/comments") (Some data) [] ;;
  logger INFO (lit "Added comment to PR #" ++ str_of_Z pr_number) ;;;
  ret response.

Definition get_pull_request_comments (pr_number : Z) : M (option Json) :=
  _make_request (lit "GET") (lit "/issues/" ++ str_of_Z pr_number ++ lit "/comments")
    None [].

(** [line_number] is [None] or an integer; [if line_number:] takes neither
    [None] nor [0]. *)
Definition create_file_comment (pr_number : Z) (file_path comment : str)
    (line_number : option Z) : M (option Json) :=
  pr_info <- _make_request (lit "GET") (lit "/pulls/" ++ str_of_Z pr_number) None [] ;;
  head <- getitem pr_info (lit "head") ;;
  commit_id <- getitem (Some head) (lit "sha") ;;
  let data := [(lit "body", JStr comment); (lit "path", JStr file_path);
               (lit "commit_id", commit_id)] in
  let data :=
    match line_number with
    | Some l => if (l =? 0)%Z then data
                else data ++ [(lit "line", JNum l); (lit "side", JStr (lit "RIGHT"))]
    | None => data
    end in
  response <- _make_request (lit "POST")
                (lit "/pulls/" ++ str_of_Z pr_number ++ lit "/comments")
                (Some (JObj data)) [] ;;
  logger INFO (lit "Added comment to " ++ file_path ++ lit " in PR #"
               ++ str_of_Z pr_number) ;;;
  ret response.

End Agent.

Notation "x <- m ;; k" := (bind m (fun x => k))
  (at level 100, m at next level, right associativity).
Notation "m ;;; k" := (bind m (fun _ => k))
  (at level 100, right associativity).

End Sys.

Import Sys.

(** ** A small platform to run the model on

    A store that holds text files and branch names behind the HTTP API, a
    shell that writes the PDF and still exits with status 1, and a
    formatter for the two fields of the command templates. *)

Module Mock.

(** [template.format] with keyword arguments, for templates whose fields
    are plain names:
    [{name}] stands for the value of [name], and the doubled braces for one
    brace.  Conversions, format specifications, attributes and indices are
    not supported. *)
Fixpoint replace_fields (fuel : nat) (kw : list (str * str)) (t : str) : result str :=
  match fuel with
  | 0 => Ok t
  | S f =>
      let continue (prefix rest : str) :=
        match replace_fields f kw rest with
        | Ok o => Ok (prefix ++ o)
        | Raise e => Raise e
        end in
      match t with
      | [] => Ok []
      | c :: r =>
          if ascii_eqb c "{"%char then
            match r with
            | [] => Raise (Error (lit "ValueError")
                             (lit "Single '{' encountered in format string"))
            | c2 :: r2 =>
                if ascii_eqb c2 "{"%char then continue [c] r2
                else
                  match find_nat (lit "}") r with
                  | None => Raise (Error (lit "ValueError")
                                     (lit "expected '}' before end of string"))
                  | Some i =>
                      match firstn i r with
                      | [] => Raise (Error (lit "IndexError")
                                       (lit "Replacement index 0 out of range for positional args tuple"))
                      | name =>
                          match lookup name kw with
                          | None => Raise (Error (lit "KeyError") name)
                          | Some v => continue v (skipn (S i) r)
                          end
                      end
                  end
            end
          else if ascii_eqb c "}"%char then
            match r with
            | c2 :: r2 =>
                if ascii_eqb c2 "}"%char then continue [c] r2
                else Raise (Error (lit "ValueError")
                              (lit "Single '}' encountered in format string"))
            | [] => Raise (Error (lit "ValueError")
                             (lit "Single '}' encountered in format string"))
            end
          else continue [c] r
      end
  end.

Record Repo := { repo_files : list (str * str); repo_branches : list str }.

Definition api : str := lit "https://api.github.com/repos/o/r".

Definition reply (code : Z) (b : option Json) : Response :=
  {| status_code := code; rate_limit_remaining := None; body := b;
     error_text := str_of_Z code ++ lit " error" |}.

Definition serve (rq : Request) (s : Repo) : Response * Repo :=
  match strip_prefix (api ++ lit "/contents/") (req_url rq) with
  | Some p =>
      if str_eqb (req_method rq) (lit "GET") then
        match lookup p (repo_files s) with
        | Some c => (reply 200 (Some (JObj [(lit "content", JStr c)])), s)
        | None => (reply 404 None, s)
        end
      else (reply 201 (Some (JObj [])),
            {| repo_files := repo_files s ++ [(p, lit "uploaded")];
               repo_branches := repo_branches s |})
  | None =>
      if str_eqb (req_url rq) (api ++ lit "/branches") then
        (reply 200 (Some (JArr (map (fun b => JObj [(lit "name", JStr b)])
                                  (repo_branches s)))), s)
      else if startswith (api ++ lit "/git/ref/heads/") (req_url rq) then
        (reply 200 (Some (JObj [(lit "object", JObj [(lit "sha", JStr (lit "5ha"))])])), s)
      else if str_eqb (req_url rq) (api ++ lit "/git/refs") then
        match req_json rq with
        | Some (JObj [(_, JStr ref); _]) =>
            match strip_prefix (lit "refs/heads/") ref with
            | Some b =>
                if existsb (str_eqb b) (repo_branches s)
                then (reply 422 None, s)
                else (reply 201 (Some (JObj [])),
                      {| repo_files := repo_files s;
                         repo_branches := repo_branches s ++ [b] |})
            | None => (reply 400 None, s)
            end
        | _ => (reply 400 None, s)
        end
      else (reply 404 None, s)
  end.

(** A compiler that complains and still writes [main.pdf]. *)
Definition noisy_pdflatex (cmd dir : str) (f : FS) : result CompletedProcess * FS :=
  (Ok {| returncode := 1; stdout := []; stderr := lit "undefined references" |},
   put_file (Path.join dir (lit "main.pdf")) (lit "%PDF-1.5") f).

(** A compiler that exits with status 0 and writes nothing. *)
Definition silent_pdflatex (cmd dir : str) (f : FS) : result CompletedProcess * FS :=
  (Ok {| returncode := 0; stdout := []; stderr := [] |}, f).

(** A compiler that writes [main.pdf], exits with status 0 and removes the
    directory [/home/u]. *)
Definition uprooting_pdflatex (cmd dir : str) (f : FS) : result CompletedProcess * FS :=
  (Ok {| returncode := 0; stdout := []; stderr := [] |},
   remove_tree (lit "/home/u") (put_file (Path.join dir (lit "main.pdf")) (lit "%PDF-1.5") f)).

(** A shell that cannot start the command. *)
Definition broken_shell (cmd dir : str) (f : FS) : result CompletedProcess * FS :=
  (Raise (Error (lit "OSError") (lit "Cannot allocate memory")), f).

Definition platform (shell : str -> str -> FS -> result CompletedProcess * FS) : Platform :=
  {| Store := Repo;
     http := serve;
     b64decode_utf8 := fun s => Ok s;
     b64encode_utf8 := fun s => s;
     run_shell := shell;
     tmpdir := lit "/tmp";
     tmp_suffix := fun _ => lit "k3x9";
     format := fun t kw => replace_fields (length t) kw t |}.

(** The configuration [load_config] falls back to, with [latex_runs] and
    [run_bibtex] left open. *)
Definition config (bib : bool) (runs : Z) : Config :=
  {| repo_owner := lit "o"; repo_name := lit "r"; agent_name := lit "CompilerAgent";
     main_file := lit "main.tex"; output_branch := lit "compiled-output";
     build_command := lit "pdflatex -interaction=nonstopmode {main_file}";
     bibtex_command := lit "bibtex {main_name}";
     run_bibtex := bib; latex_runs := runs |}.

(** A process in [/home/u] before any work, facing a given repository. *)
Definition fresh (r : Repo) : @State (platform noisy_pdflatex) :=
  @Build_State (platform noisy_pdflatex) None
    {| files := []; dirs := [lit "/home/u"] |} (lit "/home/u") r [] [] [].

(** The same process with a working directory holding [main.tex]. *)
Definition staged (shell : str -> str -> FS -> result CompletedProcess * FS)
    (content : str) : @State (platform shell) :=
  @Build_State (platform shell) (Some (lit "/tmp/w"))
    {| files := [(lit "/tmp/w/main.tex", content)];
       dirs := [lit "/home/u"; lit "/tmp/w"] |}
    (lit "/home/u")
    {| repo_files := []; repo_branches := [lit "main"] |} [] [] [].

(** The process after a build: [main.pdf] is in the working directory, and
    the repository has the given branches. *)
Definition built (branches : list str) : @State (platform noisy_pdflatex) :=
  @Build_State (platform noisy_pdflatex) (Some (lit "/tmp/w"))
    {| files := [(lit "/tmp/w/main.pdf", lit "%PDF-1.5")];
       dirs := [lit "/home/u"; lit "/tmp/w"] |}
    (lit "/home/u")
    {| repo_files := []; repo_branches := branches |} [] [] [].

(** A working directory that holds [main.tex] and the given files of
    [chapters]; the compiler writes nothing. *)
Definition drafted (content : str) (names : list str) : @State (platform silent_pdflatex) :=
  @Build_State (platform silent_pdflatex) (Some (lit "/tmp/w"))
    {| files := (lit "/tmp/w/main.tex", content)
                  :: map (fun n => (lit "/tmp/w/chapters/" ++ n, lit "\chapter{Draft}")) names;
       dirs := [lit "/home/u"; lit "/tmp/w"; lit "/tmp/w/chapters"] |}
    (lit "/home/u")
    {| repo_files := []; repo_branches := [lit "main"] |} [] [] [].

End Mock.

Import PyStr Regex Assembler FileSys.

(** * Vocabulary of the statements

    Predicates and texts the theorems are stated with. *)

(** Joining a directory and a relative path appends the path to a prefix
    that depends on the directory alone. *)
Definition join_prefix (d : str) : str :=
  if match d with [] => true | _ :: _ => endswith [Path.sep] d end
  then d else d ++ [Path.sep].


Definition is_chapter_file (file_name : str) : bool :=
  match match_chapter_file file_name with Some _ => true | None => false end.

Definition backslash : ascii := "\"%char.

Definition COMMENT : str := lit "% Generated chapter includes".

(** A chapter path [chapters/chapter<digits>.tex]. *)
Definition is_canonical (p : str) : bool :=
  match strip_prefix (lit "chapters/chapter") p with
  | Some r =>
      let (d, r') := span_digits r in
      match d with [] => false | _ :: _ => str_eqb r' (lit ".tex") end
  | None => false
  end.

Definition canonical (chapters : list (Z * str)) : bool :=
  forallb (fun ch => is_canonical (snd ch)) chapters.

(** The directive without its newline. *)
Definition directive (digits : str) : str :=
  lit "\include{chapters/chapter" ++ digits ++ lit "}".

(** The front matter of a second run. *)
Definition second_front (front : str) : str :=
  match front with
  | [] => []
  | _ :: _ => nl :: front ++ (if endswith [nl] front then [] else [nl])
  end.

(** The body of a second run over [n] chapters. *)
Definition second_body (n : nat) (kept : str) : str :=
  COMMENT ++ match kept with
             | [] => []
             | _ :: _ => repeat nl (n + 2) ++ kept
             end.

(** The output of [rebuild] from its parts. *)
Definition document (preamble front block kept : str) : str :=
  preamble ++ [nl] ++ front ++ [nl] ++ block ++ [nl] ++ kept ++ [nl] ++ END_DOC ++ [nl].

(** A path that is relative and is not the main file. *)
Definition aside (p : str) : Prop :=
  startswith [Path.sep] p = false /\ p <> lit "main.tex".

(** Requests that write a file to the store. *)
Definition is_write (rq : Request) : bool := str_eqb (req_method rq) (lit "PUT").

(** The commands of a build whose working directory is [d], in order. *)
Definition pass_commands (cfg : Config) (bc bib : str) : list str :=
  bc :: (if run_bibtex cfg then [bib] else []) ++ repeat bc (Z.to_nat (latex_runs cfg)).

(** The request [create_branch] sends to create [refs/heads/name] at [sha]. *)
Definition create_ref_request (cfg : Config) (name : str) (sha : Json) : Request :=
  {| req_method := lit "POST";
     req_url := base_url cfg ++ lit "/git/refs";
     req_json := Some (JObj [(lit "ref", JStr (lit "refs/heads/" ++ name));
                             (lit "sha", sha)]);
     req_params := [] |}.

(** The text [m] has neither carriage return nor newline. *)
Definition no_line_break (m : str) : bool :=
  forallb (fun c => negb (ascii_eqb c cr || ascii_eqb c nl)) m.

(** The number of places at which [needle] occurs in [s]. *)
Fixpoint occurrences (needle s : str) : nat :=
  (if startswith needle s then 1 else 0)
  + match s with
    | [] => 0
    | _ :: t => occurrences needle t
    end.

(** The text made of the given lines, each ended by a newline. *)
Definition unlines (ls : list str) : str := concat (map (fun l => l ++ [nl]) ls).

(** The request [_make_request] builds for a method and an endpoint. *)
Definition api_request (cfg : Config) (method endpoint : str) (data : option Json)
    (params : list (str * str)) : Request :=
  {| req_method := method; req_url := base_url cfg ++ endpoint;
     req_json := data; req_params := params |}.

(** The status codes for which [raise_for_status] raises. *)
Definition is_error (status : Z) : bool := (400 <=? status)%Z && (status <? 600)%Z.

(** The request that reads a file of a branch. *)
Definition content_request (cfg : Config) (file_path branch : str) : Request :=
  api_request cfg (lit "GET") (lit "/contents/" ++ file_path) None [(lit "ref", branch)].

Section Vocabulary.

Context {PF : Platform}.


(** [m], started where [P] holds, ends with a result and a state that
    satisfy [Q]. *)
Definition hoare {A} (P : State -> Prop) (m : M A)
    (Q : result A -> State -> Prop) : Prop :=
  forall st, P st -> Q (fst (m st)) (snd (m st)).

(** An invariant of the state that [m] keeps on every outcome. *)
Definition stable {A} (I : State -> Prop) (m : M A) : Prop :=
  forall st, I st -> I (snd (m st)).

(** Which parts of the state an invariant does not look at. *)
Record ignores_log (I : State -> Prop) : Prop :=
  { ig_log : forall lv msg st, I st -> I (add_log lv msg st) }.

Record ignores_fs (I : State -> Prop) : Prop :=
  { ig_fs : forall f st, I st -> I (set_fs f st) }.

Record ignores_cwd (I : State -> Prop) : Prop :=
  { ig_cwd : forall d st, I st -> I (set_cwd d st) }.

Record ignores_work_dir (I : State -> Prop) : Prop :=
  { ig_wd : forall w st, I st -> I (set_work_dir w st) }.

Record ignores_requests (I : State -> Prop) : Prop :=
  { ig_sent : forall rq s st, I st -> I (sent rq s st) }.

Record ignores_commands (I : State -> Prop) : Prop :=
  { ig_ran : forall cmd f st, I st -> I (ran cmd f st) }.

(** Every command handed to the shell comes back with an exit status. *)
Definition shell_returns : Prop :=
  forall cmd dir f, exists cp, fst (run_shell cmd dir f) = Ok cp.

(** The invariant "the shell has been given exactly [cs] so far". *)
Definition ran_only (cs : list str) (st : State) : Prop := commands st = cs.

(** The working directory is [d] and its [main.tex] holds [content]. *)
Definition holds_main (d content : str) (st : State) : Prop :=
  work_dir st = Some d
  /\ lookup (Path.join d (lit "main.tex")) (files (fs st)) = Some content.

(** Since the state [st0], no request wrote a file. *)
Definition no_write_since (st0 st : State) : Prop :=
  exists new, requests st = requests st0 ++ new /\ forallb (fun rq => negb (is_write rq)) new = true.

End Vocabulary.

#[local] Arguments lit : simpl never.
#[local] Arguments ascii_eqb : simpl never.

(** * Strings *)

Lemma ascii_eqb_eq a b : ascii_eqb a b = true <-> a = b.
Proof. unfold ascii_eqb. apply Ascii.eqb_eq. Qed.

Lemma ascii_eqb_refl a : ascii_eqb a a = true.
Proof. apply ascii_eqb_eq; reflexivity. Qed.

Lemma str_eqb_eq a b : str_eqb a b = true <-> a = b.
Proof.
  revert b; induction a as [| x a IH]; intros [| y b]; simpl;
    try (split; [discriminate | discriminate]); try tauto.
  rewrite andb_true_iff, ascii_eqb_eq, IH. split.
  - intros [-> ->]; reflexivity.
  - intros H; inversion H; auto.
Qed.

Lemma str_eqb_refl a : str_eqb a a = true.
Proof. apply str_eqb_eq; reflexivity. Qed.

Lemma str_eqb_neq a b : a <> b -> str_eqb a b = false.
Proof.
  intros H. destruct (str_eqb a b) eqn:E; [| reflexivity].
  apply str_eqb_eq in E. contradiction.
Qed.

Lemma startswith_app p s : startswith p (p ++ s) = true.
Proof. induction p; simpl; [reflexivity |]. rewrite ascii_eqb_refl; assumption. Qed.

Lemma startswith_split p s : startswith p s = true -> exists t, s = p ++ t.
Proof.
  revert s; induction p as [| x p IH]; intros s H; simpl in *.
  - exists s; reflexivity.
  - destruct s as [| y s]; [discriminate |].
    apply andb_true_iff in H as [Hx Hp]. apply ascii_eqb_eq in Hx; subst y.
    destruct (IH s Hp) as [t ->]. exists t; reflexivity.
Qed.

(** * The local file system *)

Lemma lookup_store_same p c l : lookup p (store_file p c l) = Some c.
Proof.
  induction l as [| [q d] t IH]; simpl.
  - rewrite str_eqb_refl; reflexivity.
  - destruct (str_eqb p q) eqn:E; simpl; rewrite ?str_eqb_refl, ?E; auto.
Qed.

Lemma lookup_store_other p q c l :
  p <> q -> lookup q (store_file p c l) = lookup q l.
Proof.
  intros Hpq. induction l as [| [r d] t IH]; simpl.
  - rewrite (str_eqb_neq _ _ (not_eq_sym Hpq)); reflexivity.
  - destruct (str_eqb p r) eqn:E; simpl.
    + apply str_eqb_eq in E; subst r.
      rewrite (str_eqb_neq _ _ (not_eq_sym Hpq)); reflexivity.
    + destruct (str_eqb q r); auto.
Qed.

Lemma files_add_dir d f : files (add_dir d f) = files f.
Proof. unfold add_dir. destruct (is_dir f d); reflexivity. Qed.

Lemma join_relative d p :
  startswith [Path.sep] p = false -> Path.join d p = join_prefix d ++ p.
Proof.
  intros H. unfold Path.join, join_prefix. rewrite H.
  destruct (match d with [] => true | _ :: _ => endswith [Path.sep] d end);
    [reflexivity |].
  rewrite <- app_assoc. reflexivity.
Qed.

Lemma join_relative_inj d p q :
  startswith [Path.sep] p = false -> startswith [Path.sep] q = false ->
  Path.join d p = Path.join d q -> p = q.
Proof.
  intros Hp Hq. rewrite (join_relative d p Hp), (join_relative d q Hq).
  apply app_inv_head.
Qed.


(** * The order on chapters and the sort *)

Section ChapterOrder.


Lemma str_leb_refl a : str_leb a a = true.
Proof.
  induction a as [| x a IH]; simpl; [reflexivity |].
  rewrite Nat.ltb_irrefl. exact IH.
Qed.














End ChapterOrder.

Section Directives.



Lemma chapter_includes_from acc (chapters : list (Z * str)) :
  fold_left (fun acc ch => acc ++ include_line (snd ch)) chapters acc
  = acc ++ concat (map (fun ch => include_line (snd ch)) chapters).
Proof.
  revert acc; induction chapters as [| ch t IH]; intros acc; simpl.
  - rewrite app_nil_r; reflexivity.
  - rewrite IH, <- app_assoc. reflexivity.
Qed.

Lemma chapter_includes_lines chapters :
  chapter_includes chapters
  = INCLUDES_HEADER ++ concat (map (fun ch => include_line (snd ch)) chapters).
Proof. apply chapter_includes_from. Qed.

End Directives.

(** * Searching and slicing *)

Section Find.

Lemma startswith_iff p s : startswith p s = true <-> exists t, s = p ++ t.
Proof.
  split; [apply startswith_split |].
  intros [t ->]. apply startswith_app.
Qed.

(** An occurrence is found, at its position or before. *)
Lemma find_nat_occurrence n a b :
  exists i, find_nat n (a ++ n ++ b) = Some i /\ i <= length a.
Proof.
  induction a as [| x a (i & Hi & Hle)]; simpl.
  - exists 0. split; [| lia].
    destruct (n ++ b) eqn:E; simpl; rewrite <- ?E, startswith_app; reflexivity.
  - destruct (startswith n (x :: a ++ n ++ b)).
    + exists 0. split; [reflexivity | lia].
    + exists (S i). rewrite Hi. split; [reflexivity | lia].
Qed.

(** What is found is an occurrence. *)
Lemma find_nat_sound n s i :
  find_nat n s = Some i -> exists a b, s = a ++ n ++ b /\ length a = i.
Proof.
  revert i; induction s as [| x s IH]; intros i; simpl.
  - destruct (startswith n []) eqn:E; [| discriminate].
    intros H; injection H as <-.
    apply startswith_split in E as [t E]. exists [], t. split; [exact E | reflexivity].
  - destruct (startswith n (x :: s)) eqn:E.
    + intros H; injection H as <-.
      apply startswith_split in E as [t E]. exists [], t. split; [exact E | reflexivity].
    + destruct (find_nat n s) as [j |]; simpl; [| discriminate].
      intros H; injection H as <-.
      destruct (IH j eq_refl) as (a & b & -> & Ha).
      exists (x :: a), b. split; [reflexivity | simpl; lia].
Qed.

(** It is the first one. *)
Lemma find_nat_first n s i a b :
  find_nat n s = Some i -> s = a ++ n ++ b -> i <= length a.
Proof.
  intros Hf ->. destruct (find_nat_occurrence n a b) as (j & Hj & Hle).
  congruence.
Qed.

Lemma find_nat_of_first n a b :
  (forall a' b', a ++ n ++ b = a' ++ n ++ b' -> length a <= length a') ->
  find_nat n (a ++ n ++ b) = Some (length a).
Proof.
  intros Hmin. destruct (find_nat_occurrence n a b) as (i & Hi & Hle).
  destruct (find_nat_sound _ _ _ Hi) as (a' & b' & E & Ha').
  specialize (Hmin a' b' E). rewrite Hi. f_equal; lia.
Qed.

Lemma find_nat_None n s a b : find_nat n s = None -> s <> a ++ n ++ b.
Proof.
  intros Hf ->. destruct (find_nat_occurrence n a b) as (i & Hi & _). congruence.
Qed.

(** [startswith] looks at no more of the text than the prefix is long. *)
Lemma startswith_short n u b :
  length n <= length u -> startswith n (u ++ b) = startswith n u.
Proof.
  revert u; induction n as [| x n IH]; intros [| y u] H; simpl in *;
    try reflexivity; try lia.
  rewrite IH by lia. reflexivity.
Qed.

(** The first occurrence stays the first one when the text after it changes. *)
Lemma find_nat_tail n a b c :
  find_nat n (a ++ n ++ b) = Some (length a) ->
  find_nat n (a ++ n ++ c) = Some (length a).
Proof.
  induction a as [| x a IH]; simpl.
  - intros _. destruct (n ++ c) eqn:E; simpl; rewrite <- ?E, startswith_app; reflexivity.
  - change (x :: a ++ n ++ b) with ((x :: a) ++ n ++ b).
    change (x :: a ++ n ++ c) with ((x :: a) ++ n ++ c).
    rewrite !app_assoc.
    rewrite (startswith_short n ((x :: a) ++ n) b), (startswith_short n ((x :: a) ++ n) c)
      by (rewrite length_app; lia).
    rewrite <- !app_assoc.
    destruct (startswith n ((x :: a) ++ n)); [discriminate |].
    destruct (find_nat n (a ++ n ++ b)) as [j |]; simpl; [| discriminate].
    intros H; injection H as ->. rewrite IH by reflexivity. reflexivity.
Qed.

(** Nothing is found in a stretch of text that ends before the first
    occurrence does. *)
Lemma find_nat_before n s i u v w :
  n <> [] ->
  find_nat n s = Some i ->
  s = u ++ v ++ w ->
  length u + length v <= i ->
  find_nat n v = None.
Proof.
  intros Hn Hf Hs Hlen.
  destruct (find_nat n v) as [j |] eqn:Ev; [| reflexivity].
  exfalso. destruct (find_nat_sound _ _ _ Ev) as (a & b & -> & Ha).
  assert (E : s = (u ++ a) ++ n ++ (b ++ w)).
  { rewrite Hs, <- !app_assoc. reflexivity. }
  pose proof (find_nat_first _ _ _ _ _ Hf E) as Hle.
  rewrite !length_app in *. destruct n; [contradiction | simpl in *; lia].
Qed.

Lemma find_minus_one n s : find n s = (-1)%Z <-> find_nat n s = None.
Proof.
  unfold find. destruct (find_nat n s); split; intros H; try reflexivity;
    try discriminate; lia.
Qed.

Lemma find_of_nat n s i : find n s = Z.of_nat i <-> find_nat n s = Some i.
Proof.
  unfold find. destruct (find_nat n s) as [j |]; split; intros H.
  - f_equal; lia.
  - injection H as ->; reflexivity.
  - lia.
  - discriminate.
Qed.

(** A needle without newline lies in one line. *)
Lemma startswith_line n u y :
  ~ In nl n -> startswith n (u ++ nl :: y) = startswith n u.
Proof.
  revert u; induction n as [| x n IH]; intros u Hn; simpl; [reflexivity |].
  destruct u as [| z u]; simpl.
  - destruct (ascii_eqb x nl) eqn:E; [| reflexivity].
    apply ascii_eqb_eq in E. exfalso. apply Hn. left. exact E.
  - rewrite IH; [reflexivity |]. intros H; apply Hn; right; exact H.
Qed.

Lemma find_nat_lines n x y :
  n <> [] -> ~ In nl n ->
  find_nat n (x ++ nl :: y)
  = match find_nat n x with
    | Some i => Some i
    | None => option_map (fun j => length x + 1 + j) (find_nat n y)
    end.
Proof.
  intros Hne Hn. induction x as [| c x IH].
  - change ([] ++ nl :: y) with (nl :: y).
    change (find_nat n (nl :: y))
      with (if startswith n (nl :: y) then Some 0
            else option_map S (find_nat n y)).
    pose proof (startswith_line n [] y Hn) as H.
    change ([] ++ nl :: y) with (nl :: y) in H. rewrite H.
    destruct n as [| c n]; [contradiction |]. simpl.
    destruct (find_nat (c :: n) y); reflexivity.
  - change (find_nat n ((c :: x) ++ nl :: y))
      with (if startswith n ((c :: x) ++ nl :: y) then Some 0
            else option_map S (find_nat n (x ++ nl :: y))).
    change (find_nat n (c :: x))
      with (if startswith n (c :: x) then Some 0
            else option_map S (find_nat n x)).
    pose proof (startswith_line n (c :: x) y Hn) as H. rewrite H.
    destruct (startswith n (c :: x)); [reflexivity |].
    rewrite IH. destruct (find_nat n x); simpl; [reflexivity |].
    destruct (find_nat n y); reflexivity.
Qed.

(** A needle whose first character is not in the text is not found. *)
Lemma find_nat_absent c n s : ~ In c s -> find_nat (c :: n) s = None.
Proof.
  induction s as [| x s IH]; intros H; simpl; [reflexivity |].
  destruct (ascii_eqb c x) eqn:E.
  - apply ascii_eqb_eq in E. exfalso. apply H. left. symmetry; exact E.
  - simpl. rewrite IH; [reflexivity |]. intros Hs; apply H; right; exact Hs.
Qed.

(** The first occurrence of a character. *)
Lemma find_nat_char c b t :
  ~ In c b -> find_nat [c] (b ++ c :: t) = Some (length b).
Proof.
  induction b as [| x b IH]; intros H; simpl.
  - rewrite ascii_eqb_refl. reflexivity.
  - destruct (ascii_eqb c x) eqn:E.
    + apply ascii_eqb_eq in E. exfalso. apply H. left. symmetry; exact E.
    + simpl. rewrite IH; [reflexivity |]. intros Hs; apply H; right; exact Hs.
Qed.

(** A text has a first newline or none. *)
Lemma first_newline t :
  (exists b c, t = b ++ nl :: c /\ ~ In nl b) \/ ~ In nl t.
Proof.
  induction t as [| x t [(b & c & -> & Hb) | Hn]].
  - right. intros [].
  - destruct (ascii_dec x nl) as [-> | Hx].
    + left. exists [], (b ++ nl :: c). split; [reflexivity | intros []].
    + left. exists (x :: b), c. split; [reflexivity |].
      intros [H | H]; [apply Hx; exact H | apply Hb; exact H].
  - destruct (ascii_dec x nl) as [-> | Hx].
    + left. exists [], t. split; [reflexivity | intros []].
    + right. intros [H | H]; [apply Hx; exact H | apply Hn; exact H].
Qed.

(** Slices at positions inside the text. *)
Lemma norm_index_of_nat len k : norm_index len (Z.of_nat k) = Nat.min k len.
Proof.
  unfold norm_index. destruct (Z.of_nat k <? 0)%Z eqn:E.
  - apply Z.ltb_lt in E. lia.
  - rewrite Nat2Z.id. reflexivity.
Qed.

Lemma skipn_length_app (a b : str) : skipn (length a) (a ++ b) = b.
Proof. induction a; simpl; auto. Qed.

Lemma firstn_length_app (a b : str) : firstn (length a) (a ++ b) = a.
Proof. induction a; simpl; [reflexivity | f_equal; assumption]. Qed.

Lemma slice_to_app a b : slice_to (a ++ b) (Z.of_nat (length a)) = a.
Proof.
  unfold slice_to. rewrite norm_index_of_nat, length_app.
  replace (Nat.min (length a) (length a + length b)) with (length a) by lia.
  apply firstn_length_app.
Qed.

Lemma slice_from_app a b : slice_from (a ++ b) (Z.of_nat (length a)) = b.
Proof.
  unfold slice_from. rewrite norm_index_of_nat, length_app.
  replace (Nat.min (length a) (length a + length b)) with (length a) by lia.
  apply skipn_length_app.
Qed.

Lemma slice_app a b c :
  slice (a ++ b ++ c) (Z.of_nat (length a)) (Z.of_nat (length a + length b)) = b.
Proof.
  unfold slice. rewrite !norm_index_of_nat, !length_app.
  replace (Nat.min (length a) (length a + (length b + length c))) with (length a) by lia.
  replace (Nat.min (length a + length b) (length a + (length b + length c)))
    with (length a + length b) by lia.
  rewrite skipn_length_app.
  replace (length a + length b - length a) with (length b) by lia.
  apply firstn_length_app.
Qed.

End Find.


(** * Reading in text mode *)

Section Newlines.

Lemma no_line_break_head x m :
  no_line_break (x :: m) = true ->
  ascii_eqb x cr = false /\ ascii_eqb x nl = false /\ no_line_break m = true.
Proof.
  unfold no_line_break. cbn [forallb]. intros H.
  apply andb_true_iff in H as [Hx Hm]. apply negb_true_iff, orb_false_iff in Hx.
  tauto.
Qed.

Lemma universal_newlines_cons c t :
  ascii_eqb c cr = false -> universal_newlines (c :: t) = c :: universal_newlines t.
Proof. intros H. cbn [universal_newlines]. rewrite H. reflexivity. Qed.

(** What is read starts with a text without line break exactly when what is
    stored does. *)
Lemma startswith_universal m s :
  no_line_break m = true ->
  m <> [] ->
  startswith m (universal_newlines s) = startswith m s.
Proof.
  assert (H : forall m s, no_line_break m = true ->
                          startswith m (universal_newlines s) = startswith m s
                          \/ m = []).
  2:{ intros Hm Hne. destruct (H m s Hm); [assumption | contradiction]. }
  clear m s. induction m as [| x m IH]; intros s Hm; [right; reflexivity |].
  left. apply no_line_break_head in Hm as (Hcr & Hnl & Hm).
  destruct s as [| c t]; [reflexivity |].
  destruct (ascii_eqb c cr) eqn:Ec.
  - apply ascii_eqb_eq in Ec. subst c.
    cbn [startswith]. rewrite Hcr. cbn [andb].
    cbn [universal_newlines]. rewrite ascii_eqb_refl.
    destruct t as [| l t']; [cbn [startswith]; rewrite Hnl; reflexivity |].
    destruct (ascii_eqb l nl) eqn:El.
    + apply ascii_eqb_eq in El. subst l.
      rewrite universal_newlines_cons by reflexivity.
      cbn [startswith]. rewrite Hnl. reflexivity.
    + cbn [startswith]. rewrite Hnl. reflexivity.
  - rewrite universal_newlines_cons by exact Ec. cbn [startswith].
    destruct (IH t Hm) as [-> | ->]; [reflexivity |].
    destruct (universal_newlines t), t; reflexivity.
Qed.

(** Reading in text mode brings no occurrence of a text without line break
    into being. *)
Lemma find_nat_universal m s :
  no_line_break m = true ->
  m <> [] ->
  find_nat m s = None ->
  find_nat m (universal_newlines s) = None.
Proof.
  intros Hm Hne. induction s as [| c t IH]; [intros H; exact H |].
  intros H.
  assert (Hs : startswith m (c :: t) = false /\ find_nat m t = None).
  { cbn [find_nat] in H. destruct (startswith m (c :: t)); [discriminate |].
    destruct (find_nat m t); [discriminate | split; reflexivity]. }
  destruct Hs as [Hs Ht]. specialize (IH Ht).
  destruct m as [| x m']; [contradiction |].
  destruct (no_line_break_head _ _ Hm) as (Hcr & Hnl & _).
  destruct (ascii_eqb c cr) eqn:Ec.
  - cbn [universal_newlines]. rewrite Ec.
    destruct t as [| l t']; [cbn [find_nat startswith]; rewrite Hnl; reflexivity |].
    destruct (ascii_eqb l nl); [exact IH |].
    cbn [find_nat]. cbn [startswith]. rewrite Hnl. cbn [andb].
    rewrite IH. reflexivity.
  - pose proof (startswith_universal (x :: m') (c :: t) Hm Hne) as Hu.
    rewrite universal_newlines_cons in Hu |- * by exact Ec.
    cbn [find_nat]. rewrite Hu, Hs, IH. reflexivity.
Qed.

Lemma find_universal_marker marker s :
  marker = BEGIN_DOC \/ marker = END_DOC ->
  find marker s = (-1)%Z -> find marker (universal_newlines s) = (-1)%Z.
Proof.
  intros Hm H. apply find_minus_one. apply find_minus_one in H.
  destruct Hm as [-> | ->]; apply find_nat_universal; try exact H;
    try reflexivity; discriminate.
Qed.

End Newlines.

(** * The front matter split *)

Section FrontMatter.

Lemma TOC_no_newline : ~ In nl TOC.
Proof. vm_compute. intuition discriminate. Qed.

Lemma END_no_newline : ~ In nl END_DOC.
Proof. vm_compute. intuition discriminate. Qed.

Lemma split_frontmatter_none body :
  find_nat TOC body = None -> split_frontmatter body = ([], body).
Proof.
  intros H. unfold split_frontmatter.
  rewrite (proj2 (find_minus_one TOC body) H). reflexivity.
Qed.

Lemma of_nat_not_minus_one n : (Z.of_nat n =? -1)%Z = false.
Proof. apply Z.eqb_neq. lia. Qed.

(** With a newline after the marker, the front matter runs through the
    first such newline. *)
Lemma split_frontmatter_line a b c :
  find_nat TOC (a ++ TOC ++ b ++ nl :: c) = Some (length a) ->
  ~ In nl b ->
  split_frontmatter (a ++ TOC ++ b ++ nl :: c) = (a ++ TOC ++ b ++ [nl], c).
Proof.
  intros Hf Hb. unfold split_frontmatter.
  rewrite (proj2 (find_of_nat _ _ _) Hf), of_nat_not_minus_one.
  unfold find_start.
  replace (Z.of_nat (length (a ++ TOC ++ b ++ nl :: c)) <? Z.of_nat (length a))%Z
    with false by (symmetry; apply Z.ltb_ge; rewrite length_app; lia).
  rewrite norm_index_of_nat.
  replace (Nat.min (length a) (length (a ++ TOC ++ b ++ nl :: c))) with (length a)
    by (rewrite length_app; lia).
  rewrite skipn_length_app.
  replace (TOC ++ b ++ nl :: c) with ((TOC ++ b) ++ nl :: c)
    by (rewrite <- app_assoc; reflexivity).
  rewrite find_nat_char.
  2:{ intros H. apply in_app_or in H as [H | H];
        [exact (TOC_no_newline H) | exact (Hb H)]. }
  rewrite of_nat_not_minus_one.
  replace (Z.of_nat (length a + length (TOC ++ b)) + 1)%Z
    with (Z.of_nat (length (a ++ TOC ++ b ++ [nl])))
    by (rewrite !length_app; simpl; lia).
  replace (a ++ (TOC ++ b) ++ nl :: c) with ((a ++ TOC ++ b ++ [nl]) ++ c)
    by (rewrite <- !app_assoc; reflexivity).
  rewrite slice_to_app, slice_from_app. reflexivity.
Qed.

(** Without one, the whole body is front matter. *)
Lemma split_frontmatter_last a b :
  find_nat TOC (a ++ TOC ++ b) = Some (length a) ->
  ~ In nl b ->
  split_frontmatter (a ++ TOC ++ b) = (a ++ TOC ++ b, []).
Proof.
  intros Hf Hb. unfold split_frontmatter.
  rewrite (proj2 (find_of_nat _ _ _) Hf), of_nat_not_minus_one.
  unfold find_start.
  replace (Z.of_nat (length (a ++ TOC ++ b)) <? Z.of_nat (length a))%Z
    with false by (symmetry; apply Z.ltb_ge; rewrite length_app; lia).
  rewrite norm_index_of_nat.
  replace (Nat.min (length a) (length (a ++ TOC ++ b))) with (length a)
    by (rewrite length_app; lia).
  rewrite skipn_length_app.
  rewrite find_nat_absent.
  2:{ intros H. apply in_app_or in H as [H | H];
        [exact (TOC_no_newline H) | exact (Hb H)]. }
  change ((-1 =? -1)%Z) with true. cbv iota.
  replace (Z.of_nat (length (a ++ TOC ++ b)) + 1)%Z
    with (Z.of_nat (S (length (a ++ TOC ++ b)))) by lia.
  unfold slice_to, slice_from. rewrite norm_index_of_nat.
  replace (Nat.min (S (length (a ++ TOC ++ b))) (length (a ++ TOC ++ b)))
    with (length (a ++ TOC ++ b)) by lia.
  rewrite firstn_all, skipn_all. reflexivity.
Qed.

(** The two parts make up the body, in every case. *)
Lemma split_frontmatter_parts body :
  body = fst (split_frontmatter body) ++ snd (split_frontmatter body).
Proof.
  destruct (find_nat TOC body) as [i |] eqn:E.
  - destruct (find_nat_sound _ _ _ E) as (a & t & -> & <-).
    destruct (first_newline t) as [(b & c & -> & Hb) | Hn].
    + rewrite (split_frontmatter_line a b c E Hb). cbn [fst snd].
      rewrite <- !app_assoc. reflexivity.
    + rewrite (split_frontmatter_last a t E Hn). cbn [fst snd].
      rewrite app_nil_r. reflexivity.
  - rewrite (split_frontmatter_none body E). reflexivity.
Qed.

End FrontMatter.

(** * The include pattern *)

Section IncludePattern.

Lemma strip_prefix_sound p s r : strip_prefix p s = Some r -> s = p ++ r.
Proof.
  revert s; induction p as [| x p IH]; intros [| y s]; simpl;
    try discriminate; try (intros H; injection H as <-; reflexivity).
  destruct (ascii_eqb x y) eqn:E; [| discriminate].
  apply ascii_eqb_eq in E; subst y. intros H. rewrite (IH _ H). reflexivity.
Qed.

Lemma strip_prefix_app p r : strip_prefix p (p ++ r) = Some r.
Proof.
  induction p as [| x p IH]; simpl; [destruct r; reflexivity |].
  rewrite ascii_eqb_refl. exact IH.
Qed.

Lemma span_digits_sound s d r :
  span_digits s = (d, r) -> s = d ++ r /\ forallb is_digit d = true.
Proof.
  revert d r; induction s as [| c s IH]; intros d r; simpl.
  - intros H; injection H as <- <-. split; reflexivity.
  - destruct (is_digit c) eqn:E.
    + destruct (span_digits s) as [d' r'].
      intros H; injection H as <- <-.
      destruct (IH d' r' eq_refl) as [-> Hd]. split; [reflexivity |].
      simpl. rewrite E. exact Hd.
    + intros H; injection H as <- <-. split; reflexivity.
Qed.

Lemma span_digits_app d r :
  forallb is_digit d = true ->
  match r with [] => True | c :: _ => is_digit c = false end ->
  span_digits (d ++ r) = (d, r).
Proof.
  intros Hd Hr. induction d as [| c d IH]; simpl in *.
  - destruct r as [| c r]; [reflexivity |]. simpl. rewrite Hr. reflexivity.
  - apply andb_true_iff in Hd as [Hc Hd]. rewrite Hc, (IH Hd). reflexivity.
Qed.

Lemma strip_prefix_line p x y :
  ~ In nl p ->
  strip_prefix p (x ++ nl :: y) = option_map (fun r => r ++ nl :: y) (strip_prefix p x).
Proof.
  revert x; induction p as [| c p IH]; intros x Hp; simpl.
  - destruct x; reflexivity.
  - destruct x as [| z x]; simpl.
    + destruct (ascii_eqb c nl) eqn:E; [| reflexivity].
      apply ascii_eqb_eq in E. exfalso. apply Hp. left. exact E.
    + destruct (ascii_eqb c z); [| reflexivity].
      apply IH. intros H; apply Hp; right; exact H.
Qed.

Lemma span_digits_line x y :
  span_digits (x ++ nl :: y) = (fst (span_digits x), snd (span_digits x) ++ nl :: y).
Proof.
  induction x as [| c x IH]; simpl.
  - reflexivity.
  - destruct (is_digit c); [| reflexivity].
    rewrite IH. destruct (span_digits x); reflexivity.
Qed.

Lemma match_digits_between_line p q x y :
  ~ In nl p -> ~ In nl q ->
  match_digits_between p q (x ++ nl :: y)
  = option_map (fun dr => (fst dr, snd dr ++ nl :: y)) (match_digits_between p q x).
Proof.
  intros Hp Hq. unfold match_digits_between.
  rewrite (strip_prefix_line p x y Hp).
  destruct (strip_prefix p x) as [s1 |]; simpl; [| reflexivity].
  rewrite span_digits_line. destruct (span_digits s1) as [d s2]; simpl.
  destruct d as [| c d]; [reflexivity |].
  rewrite (strip_prefix_line q s2 y Hq).
  destruct (strip_prefix q s2); reflexivity.
Qed.

Lemma match_include_line x y :
  match_include (x ++ nl :: y)
  = option_map (fun dr => (fst dr, snd dr ++ nl :: y)) (match_include x).
Proof.
  apply match_digits_between_line; vm_compute; intuition discriminate.
Qed.

Lemma match_digits_between_shorter p q s d r :
  match_digits_between p q s = Some (d, r) ->
  length s = length p + length d + length q + length r /\ d <> [].
Proof.
  unfold match_digits_between.
  destruct (strip_prefix p s) as [s1 |] eqn:E1; [| discriminate].
  destruct (span_digits s1) as [d' s2] eqn:E2.
  destruct d' as [| c d']; [discriminate |].
  destruct (strip_prefix q s2) as [rest |] eqn:E3; [| discriminate].
  intros H; injection H as <- <-.
  apply strip_prefix_sound in E1, E3. apply span_digits_sound in E2 as [E2 _].
  subst. rewrite !length_app. split; [lia | discriminate].
Qed.

Lemma match_include_shorter s d r :
  match_include s = Some (d, r) -> length r < length s.
Proof.
  intros H. apply match_digits_between_shorter in H as [H _].
  rewrite H. simpl. lia.
Qed.

Lemma sub_include_fuel_any f1 f2 s :
  length s <= f1 -> length s <= f2 ->
  sub_include_fuel f1 s = sub_include_fuel f2 s.
Proof.
  revert f2 s; induction f1 as [| f1 IH]; intros f2 s H1 H2.
  - destruct s; [| simpl in H1; lia]. destruct f2; reflexivity.
  - destruct f2 as [| f2]; [destruct s; [reflexivity | simpl in H2; lia] |].
    destruct s as [| c t]; [reflexivity |]. simpl.
    destruct (match_include (c :: t)) as [[d r] |] eqn:E.
    + apply match_include_shorter in E. simpl in *. apply IH; lia.
    + f_equal. simpl in *. apply IH; lia.
Qed.

Lemma sub_include_nil : sub_include [] = [].
Proof. reflexivity. Qed.

Lemma sub_include_cons c t :
  sub_include (c :: t)
  = match match_include (c :: t) with
    | Some (_, rest) => sub_include rest
    | None => c :: sub_include t
    end.
Proof.
  unfold sub_include. simpl.
  destruct (match_include (c :: t)) as [[d r] |] eqn:E.
  - apply match_include_shorter in E. simpl in E. apply sub_include_fuel_any; lia.
  - reflexivity.
Qed.

(** The substitution works line by line. *)
Lemma sub_include_line x y :
  sub_include (x ++ nl :: y) = sub_include x ++ nl :: sub_include y.
Proof.
  remember (length x) as n eqn:Hn. revert x Hn.
  induction n as [n IH] using lt_wf_ind. intros x Hn.
  destruct x as [| c t].
  - change ([] ++ nl :: y) with (nl :: y). rewrite sub_include_cons. reflexivity.
  - change ((c :: t) ++ nl :: y) with (c :: (t ++ nl :: y)).
    rewrite !sub_include_cons.
    change (c :: (t ++ nl :: y)) with ((c :: t) ++ nl :: y).
    rewrite match_include_line.
    destruct (match_include (c :: t)) as [[d r] |] eqn:E; simpl.
    + apply match_include_shorter in E.
      apply (IH (length r)); [subst n; exact E | reflexivity].
    + f_equal. apply (IH (length t)); [subst n; simpl; lia | reflexivity].
Qed.

(** Text without a backslash has no directive. *)
Lemma sub_include_plain s : ~ In backslash s -> sub_include s = s.
Proof.
  induction s as [| c t IH]; intros H; [reflexivity |].
  rewrite sub_include_cons.
  assert (E : match_include (c :: t) = None).
  { unfold match_include, match_digits_between.
    change (lit "\include{chapters/chapter")
      with (backslash :: lit "include{chapters/chapter").
    simpl. destruct (ascii_eqb backslash c) eqn:Ec; [| reflexivity].
    apply ascii_eqb_eq in Ec. exfalso. apply H. left. symmetry. exact Ec. }
  rewrite E. f_equal. apply IH. intros Ht; apply H; right; exact Ht.
Qed.

End IncludePattern.

(** * Stripping white space *)

Section Strip.

Lemma lstrip_spaces ws s : forallb is_space ws = true -> lstrip (ws ++ s) = lstrip s.
Proof.
  induction ws as [| c ws IH]; simpl; [reflexivity |].
  intros H. apply andb_true_iff in H as [Hc Hws]. rewrite Hc. exact (IH Hws).
Qed.

Lemma lstrip_head c t : is_space c = false -> lstrip (c :: t) = c :: t.
Proof. intros H. simpl. rewrite H. reflexivity. Qed.

Lemma lstrip_idem s : lstrip (lstrip s) = lstrip s.
Proof.
  induction s as [| c s IH]; simpl; [reflexivity |].
  destruct (is_space c) eqn:E; [exact IH | simpl; rewrite E; reflexivity].
Qed.

Lemma lstrip_length s : length (lstrip s) <= length s.
Proof.
  induction s as [| c s IH]; simpl; [lia |].
  destruct (is_space c); simpl; lia.
Qed.

Lemma forallb_rev {A} (f : A -> bool) l : forallb f (rev l) = forallb f l.
Proof.
  induction l as [| x l IH]; simpl; [reflexivity |].
  rewrite forallb_app, IH. simpl. rewrite andb_true_r. apply andb_comm.
Qed.

Lemma rstrip_spaces s ws : forallb is_space ws = true -> rstrip (s ++ ws) = rstrip s.
Proof.
  intros H. unfold rstrip. rewrite rev_app_distr, lstrip_spaces; [reflexivity |].
  rewrite forallb_rev. exact H.
Qed.

Lemma rstrip_last s c : is_space c = false -> rstrip (s ++ [c]) = s ++ [c].
Proof.
  intros H. unfold rstrip. rewrite rev_app_distr. simpl.
  rewrite H. simpl. rewrite rev_involutive. reflexivity.
Qed.

Lemma rstrip_idem s : rstrip (rstrip s) = rstrip s.
Proof. unfold rstrip. rewrite rev_involutive, lstrip_idem. reflexivity. Qed.

Lemma rstrip_strip s : rstrip (strip s) = strip s.
Proof. unfold strip. apply rstrip_idem. Qed.

(** A text that [rstrip] leaves alone is empty or ends with a non-space. *)
Lemma rstrip_fixed s :
  rstrip s = s -> s = [] \/ exists s' c, s = s' ++ [c] /\ is_space c = false.
Proof.
  intros H. destruct (rev s) as [| c r] eqn:E.
  - left. apply (f_equal (@rev ascii)) in E. rewrite rev_involutive in E. exact E.
  - right. exists (rev r), c.
    assert (Hs : s = rev r ++ [c]).
    { apply (f_equal (@rev ascii)) in E. rewrite rev_involutive in E. exact E. }
    split; [exact Hs |].
    destruct (is_space c) eqn:Ec; [| reflexivity].
    exfalso. unfold rstrip in H. rewrite E in H. simpl in H. rewrite Ec in H.
    apply (f_equal (@length ascii)) in H.
    rewrite length_rev, Hs, length_app, length_rev in H. simpl in H.
    pose proof (lstrip_length r). lia.
Qed.

Lemma forallb_repeat_nl k : forallb is_space (repeat nl k) = true.
Proof. induction k; simpl; [reflexivity | exact IHk]. Qed.

End Strip.

(** * The generated block *)

Section Block.

Lemma header_lines : INCLUDES_HEADER = nl :: nl :: COMMENT ++ [nl].
Proof. reflexivity. Qed.

Lemma is_canonical_sound p :
  is_canonical p = true ->
  exists d, d <> [] /\ forallb is_digit d = true
            /\ p = lit "chapters/chapter" ++ d ++ lit ".tex".
Proof.
  unfold is_canonical.
  destruct (strip_prefix _ p) as [r |] eqn:E1; [| discriminate].
  destruct (span_digits r) as [d r'] eqn:E2.
  destruct d as [| c d]; [discriminate |].
  intros E3. apply str_eqb_eq in E3. subst r'.
  apply strip_prefix_sound in E1. apply span_digits_sound in E2 as [-> Hd].
  exists (c :: d). split; [discriminate |]. split; [exact Hd | exact E1].
Qed.

Lemma endswith_app p s : endswith p (s ++ p) = true.
Proof. unfold endswith. rewrite rev_app_distr. apply startswith_app. Qed.

Lemma include_line_canonical d :
  include_line (lit "chapters/chapter" ++ d ++ lit ".tex") = directive d ++ [nl].
Proof.
  unfold include_line.
  replace (lit "chapters/chapter" ++ d ++ lit ".tex")
    with ((lit "chapters/chapter" ++ d) ++ lit ".tex")
    by (rewrite <- app_assoc; reflexivity).
  rewrite endswith_app.
  unfold slice_to, norm_index. change ((-4 <? 0)%Z) with true. cbv iota.
  replace (Z.to_nat (Z.max 0 (-4 + Z.of_nat (length ((lit "chapters/chapter" ++ d) ++ lit ".tex")))))
    with (length (lit "chapters/chapter" ++ d))
    by (rewrite (length_app (lit "chapters/chapter" ++ d)); simpl length; lia).
  rewrite firstn_length_app. unfold directive.
  rewrite <- !app_assoc. reflexivity.
Qed.

Lemma digits_no_backslash d : forallb is_digit d = true -> ~ In backslash d.
Proof.
  intros Hd H. rewrite forallb_forall in Hd. specialize (Hd _ H). discriminate.
Qed.

Lemma directive_tail_no_backslash d :
  forallb is_digit d = true ->
  ~ In backslash (lit "include{chapters/chapter" ++ d ++ lit "}").
Proof.
  intros Hd H. apply in_app_or in H as [H | H].
  - revert H. vm_compute. intuition discriminate.
  - apply in_app_or in H as [H | H]; [exact (digits_no_backslash d Hd H) |].
    revert H. vm_compute. intuition discriminate.
Qed.

(** Neither marker occurs in a directive. *)
Lemma no_marker_in_directive marker d :
  marker = TOC \/ marker = END_DOC ->
  forallb is_digit d = true ->
  find_nat marker (directive d) = None.
Proof.
  intros Hm Hd.
  change (directive d)
    with (backslash :: lit "include{chapters/chapter" ++ d ++ lit "}").
  pose proof (directive_tail_no_backslash d Hd) as Hb.
  change (lit "include{chapters/chapter" ++ d ++ lit "}")
    with ("i"%char :: lit "nclude{chapters/chapter" ++ d ++ lit "}") in *.
  destruct Hm as [-> | ->].
  - change TOC with (backslash :: "t"%char :: lit "ableofcontents").
    change (find_nat ?n (backslash :: ?t))
      with (if startswith n (backslash :: t) then Some 0
            else option_map S (find_nat n t)).
    change (startswith (backslash :: "t"%char :: lit "ableofcontents")
              (backslash :: "i"%char :: lit "nclude{chapters/chapter" ++ d ++ lit "}"))
      with false.
    cbv iota. rewrite find_nat_absent; [reflexivity | exact Hb].
  - change END_DOC with (backslash :: "e"%char :: lit "nd{document}").
    change (find_nat ?n (backslash :: ?t))
      with (if startswith n (backslash :: t) then Some 0
            else option_map S (find_nat n t)).
    change (startswith (backslash :: "e"%char :: lit "nd{document}")
              (backslash :: "i"%char :: lit "nclude{chapters/chapter" ++ d ++ lit "}"))
      with false.
    cbv iota. rewrite find_nat_absent; [reflexivity | exact Hb].
Qed.

Lemma marker_nonempty marker :
  marker = TOC \/ marker = END_DOC -> marker <> [] /\ ~ In nl marker.
Proof.
  intros [-> | ->]; (split; [discriminate |]);
    [exact TOC_no_newline | exact END_no_newline].
Qed.

Lemma find_nat_nil marker : marker <> [] -> find_nat marker [] = None.
Proof. destruct marker; [contradiction | reflexivity]. Qed.

(** The lines of the directives of canonical chapters. *)
Lemma lines_canonical chapters :
  canonical chapters = true ->
  exists ds,
    length ds = length chapters
    /\ Forall (fun d => forallb is_digit d = true /\ d <> []) ds
    /\ concat (map (fun ch : Z * str => include_line (snd ch)) chapters)
       = concat (map (fun d => directive d ++ [nl]) ds).
Proof.
  unfold canonical. induction chapters as [| ch t IH]; intros Hc.
  - exists []. repeat split. constructor.
  - cbn [forallb] in Hc. apply andb_true_iff in Hc as [Hch Ht].
    destruct (IH Ht) as (ds & Hlen & Hds & E).
    destruct (is_canonical_sound _ Hch) as (d & Hne & Hd & Hp).
    exists (d :: ds). split; [simpl; lia |]. split; [constructor; auto |].
    cbn [map concat]. rewrite Hp, include_line_canonical, E. reflexivity.
Qed.

Lemma block_lines chapters :
  canonical chapters = true ->
  exists ds,
    length ds = length chapters
    /\ Forall (fun d => forallb is_digit d = true /\ d <> []) ds
    /\ chapter_includes chapters
       = INCLUDES_HEADER ++ concat (map (fun d => directive d ++ [nl]) ds).
Proof.
  intros Hc. destruct (lines_canonical chapters Hc) as (ds & Hlen & Hds & E).
  exists ds. split; [exact Hlen |]. split; [exact Hds |].
  rewrite chapter_includes_lines, E. reflexivity.
Qed.

Lemma no_marker_in_lines marker ds :
  marker = TOC \/ marker = END_DOC ->
  Forall (fun d => forallb is_digit d = true /\ d <> []) ds ->
  find_nat marker (concat (map (fun d => directive d ++ [nl]) ds)) = None.
Proof.
  intros Hm Hds. destruct (marker_nonempty marker Hm) as [Hne Hnl].
  induction Hds as [| d ds [Hd _] _ IH]; cbn [map concat].
  - apply find_nat_nil, Hne.
  - rewrite <- app_assoc. change ([nl] ++ ?x) with (nl :: x).
    rewrite (find_nat_lines marker _ _ Hne Hnl).
    rewrite (no_marker_in_directive marker d Hm Hd), IH. reflexivity.
Qed.

Lemma no_backslash_in_comment : ~ In backslash COMMENT.
Proof. vm_compute. intuition discriminate. Qed.

Lemma no_marker_in_block marker chapters :
  marker = TOC \/ marker = END_DOC ->
  canonical chapters = true ->
  find_nat marker (chapter_includes chapters) = None.
Proof.
  intros Hm Hc. destruct (marker_nonempty marker Hm) as [Hne Hnl].
  destruct (block_lines chapters Hc) as (ds & _ & Hds & ->).
  rewrite header_lines.
  change ((nl :: nl :: COMMENT ++ [nl]) ++ ?x)
    with ([] ++ nl :: ([] ++ nl :: ((COMMENT ++ [nl]) ++ x))).
  rewrite <- app_assoc. change ([nl] ++ ?x) with (nl :: x).
  rewrite !(find_nat_lines marker _ _ Hne Hnl).
  rewrite (find_nat_nil marker Hne).
  assert (Hcm : find_nat marker COMMENT = None).
  { destruct Hm as [-> | ->]; apply find_nat_absent, no_backslash_in_comment. }
  rewrite Hcm, (no_marker_in_lines marker ds Hm Hds). reflexivity.
Qed.

(** [re.sub] removes a directive whole. *)
Lemma sub_include_directive d :
  forallb is_digit d = true -> d <> [] -> sub_include (directive d) = [].
Proof.
  intros Hd Hne.
  assert (E : match_include (directive d) = Some (d, [])).
  { unfold match_include, match_digits_between, directive.
    rewrite strip_prefix_app.
    rewrite (span_digits_app d (lit "}") Hd) by reflexivity.
    destruct d; [contradiction | reflexivity]. }
  change (directive d)
    with (backslash :: lit "include{chapters/chapter" ++ d ++ lit "}") in *.
  rewrite sub_include_cons, E. reflexivity.
Qed.

Lemma sub_include_lines ds :
  Forall (fun d => forallb is_digit d = true /\ d <> []) ds ->
  sub_include (concat (map (fun d => directive d ++ [nl]) ds)) = repeat nl (length ds).
Proof.
  induction 1 as [| d ds [Hd Hne] _ IH]; cbn [map concat]; [reflexivity |].
  rewrite <- app_assoc. change ([nl] ++ ?x) with (nl :: x).
  rewrite sub_include_line, (sub_include_directive d Hd Hne), IH. reflexivity.
Qed.

(** Of a generated block, [re.sub] keeps the header and one newline for each
    directive. *)
Lemma sub_include_block chapters :
  canonical chapters = true ->
  sub_include (chapter_includes chapters)
  = INCLUDES_HEADER ++ repeat nl (length chapters).
Proof.
  intros Hc. destruct (block_lines chapters Hc) as (ds & Hlen & Hds & ->).
  rewrite header_lines.
  change ((nl :: nl :: COMMENT ++ [nl]) ++ ?x)
    with ([] ++ nl :: ([] ++ nl :: ((COMMENT ++ [nl]) ++ x))).
  rewrite <- app_assoc. change ([nl] ++ ?x) with (nl :: x).
  rewrite !sub_include_line, sub_include_nil.
  rewrite (sub_include_plain COMMENT no_backslash_in_comment).
  rewrite (sub_include_lines ds Hds), Hlen.
  cbn [app]. rewrite <- app_assoc. reflexivity.
Qed.

End Block.

(** * The rebuilt document *)

Section Rebuild.

Lemma rebuild_decomposed pre body post chapters :
  find_nat BEGIN_DOC (pre ++ BEGIN_DOC ++ body ++ END_DOC ++ post) = Some (length pre) ->
  find_nat END_DOC (pre ++ BEGIN_DOC ++ body ++ END_DOC ++ post)
  = Some (length (pre ++ BEGIN_DOC ++ body)) ->
  rebuild (pre ++ BEGIN_DOC ++ body ++ END_DOC ++ post) chapters
  = Some (document (pre ++ BEGIN_DOC) (fst (split_frontmatter body))
            (chapter_includes chapters)
            (strip (sub_include (snd (split_frontmatter body))))).
Proof.
  intros Hb He. unfold rebuild.
  rewrite (proj2 (find_of_nat _ _ _) Hb), (proj2 (find_of_nat _ _ _) He).
  rewrite !of_nat_not_minus_one. cbn [orb].
  replace (Z.of_nat (length pre) + Z.of_nat (length BEGIN_DOC))%Z
    with (Z.of_nat (length (pre ++ BEGIN_DOC))) by (rewrite length_app; lia).
  replace (pre ++ BEGIN_DOC ++ body ++ END_DOC ++ post)
    with ((pre ++ BEGIN_DOC) ++ body ++ END_DOC ++ post)
    by (rewrite <- app_assoc; reflexivity).
  replace (length (pre ++ BEGIN_DOC ++ body))
    with (length (pre ++ BEGIN_DOC) + length body)
    by (rewrite !length_app; lia).
  rewrite slice_app.
  replace ((pre ++ BEGIN_DOC) ++ body ++ END_DOC ++ post)
    with ((pre ++ BEGIN_DOC) ++ (body ++ END_DOC ++ post)) by reflexivity.
  rewrite slice_to_app.
  destruct (split_frontmatter body) as [front rest]. reflexivity.
Qed.

Lemma BEGIN_nonempty : BEGIN_DOC <> [].
Proof. discriminate. Qed.

Lemma END_nonempty : END_DOC <> [].
Proof. discriminate. Qed.

(** C5, as the code has it.  The output starts with the text through the
    begin-document marker, verbatim, then a newline, then the front matter
    of the body verbatim (nothing without a table-of-contents marker, and
    otherwise the body through the first newline after the first marker, or
    all of it); the body is the front matter followed by the rest, of which
    the directives are removed.  The output ends with the end-document line:
    the text after the marker is not copied and has no influence. *)
Theorem rebuild_keeps_preamble_and_front_matter pre body post chapters :
  let content := pre ++ BEGIN_DOC ++ body ++ END_DOC ++ post in
  let front := fst (split_frontmatter body) in
  let rest := snd (split_frontmatter body) in
  find BEGIN_DOC content = Z.of_nat (length pre) ->
  find END_DOC content = Z.of_nat (length (pre ++ BEGIN_DOC ++ body)) ->
  rebuild content chapters
  = Some (pre ++ BEGIN_DOC ++ [nl] ++ front ++ [nl] ++ chapter_includes chapters
            ++ [nl] ++ strip (sub_include rest) ++ [nl] ++ END_DOC ++ [nl])
  /\ body = front ++ rest
  /\ (find TOC body = (-1)%Z -> front = [])
  /\ (forall a t, body = a ++ TOC ++ t -> find TOC body = Z.of_nat (length a) ->
      (forall b c, t = b ++ nl :: c -> ~ In nl b -> front = a ++ TOC ++ b ++ [nl])
      /\ (~ In nl t -> front = body))
  /\ (forall closing,
         rebuild (pre ++ BEGIN_DOC ++ body ++ END_DOC ++ closing) chapters
         = rebuild content chapters).
Proof.
  intros content front rest Hb He.
  apply find_of_nat in Hb, He.
  split; [| split; [| split; [| split]]].
  - unfold content. rewrite (rebuild_decomposed pre body post chapters Hb He).
    unfold document. rewrite <- !app_assoc. reflexivity.
  - apply split_frontmatter_parts.
  - intros H. apply find_minus_one in H. unfold front.
    rewrite (split_frontmatter_none body H). reflexivity.
  - intros a t -> Ha. apply find_of_nat in Ha. split.
    + intros b c -> Hn. unfold front.
      rewrite (split_frontmatter_line a b c Ha Hn). reflexivity.
    + intros Hn. unfold front. rewrite (split_frontmatter_last a t Ha Hn). reflexivity.
  - intros closing. unfold content.
    rewrite (rebuild_decomposed pre body post chapters Hb He).
    apply rebuild_decomposed.
    + exact (find_nat_tail BEGIN_DOC pre _ _ Hb).
    + replace (pre ++ BEGIN_DOC ++ body ++ END_DOC ++ closing)
        with ((pre ++ BEGIN_DOC ++ body) ++ END_DOC ++ closing)
        by (rewrite <- !app_assoc; reflexivity).
      apply (find_nat_tail END_DOC _ post).
      rewrite <- !app_assoc. exact He.
Qed.

End Rebuild.

(** * A second run on the output of the first *)

Section SecondRun.

Lemma repeat_nl_snoc k : repeat nl k ++ [nl] = nl :: repeat nl k.
Proof. symmetry. apply repeat_cons. Qed.

Lemma COMMENT_head : exists c t, COMMENT = c :: t /\ is_space c = false.
Proof. eexists; eexists. split; reflexivity. Qed.

Lemma COMMENT_last : exists s c, COMMENT = s ++ [c] /\ is_space c = false.
Proof.
  exists (lit "% Generated chapter include"), "s"%char. split; reflexivity.
Qed.

(** What [strip] leaves of the body of a second run. *)
Lemma strip_second_body k m kept :
  rstrip kept = kept ->
  strip (repeat nl k ++ COMMENT ++ repeat nl m ++ kept ++ [nl])
  = COMMENT ++ match kept with [] => [] | _ :: _ => repeat nl m ++ kept end.
Proof.
  intros Hk. unfold strip.
  rewrite (lstrip_spaces _ _ (forallb_repeat_nl k)).
  destruct COMMENT_head as (c & t & Ec & Hc).
  assert (Hl : forall x, lstrip (COMMENT ++ x) = COMMENT ++ x).
  { intros x. rewrite Ec. apply (lstrip_head c (t ++ x) Hc). }
  rewrite Hl.
  replace (COMMENT ++ repeat nl m ++ kept ++ [nl])
    with ((COMMENT ++ repeat nl m ++ kept) ++ [nl])
    by (rewrite <- !app_assoc; reflexivity).
  rewrite (rstrip_spaces _ [nl] eq_refl).
  destruct (rstrip_fixed kept Hk) as [-> | (s' & x & -> & Hx)].
  - rewrite app_nil_r.
    rewrite (rstrip_spaces _ _ (forallb_repeat_nl m)).
    destruct COMMENT_last as (s & y & Es & Hy).
    rewrite app_nil_r, Es. apply rstrip_last, Hy.
  - replace (COMMENT ++ repeat nl m ++ s' ++ [x])
      with ((COMMENT ++ repeat nl m ++ s') ++ [x])
      by (rewrite <- !app_assoc; reflexivity).
    rewrite (rstrip_last _ x Hx).
    destruct (s' ++ [x]) eqn:E; [destruct s'; discriminate |].
    rewrite <- E, <- !app_assoc. reflexivity.
Qed.

Lemma block_then_body n kept :
  ((nl :: nl :: COMMENT ++ [nl]) ++ repeat nl n) ++ nl :: kept ++ [nl]
  = repeat nl 2 ++ COMMENT ++ repeat nl (n + 2) ++ kept ++ [nl].
Proof.
  cbn [repeat app]. rewrite <- !app_assoc. cbn [app]. do 2 f_equal.
  apply f_equal.
  replace (n + 2) with (1 + (n + 1)) by lia. rewrite !repeat_app.
  cbn [repeat app]. rewrite <- !app_assoc. reflexivity.
Qed.

Lemma endswith_newline_false a t :
  ~ In nl t -> t <> [] -> endswith [nl] (a ++ t) = false.
Proof.
  intros Hn Hne. unfold endswith. rewrite rev_app_distr.
  destruct (rev t) as [| c r] eqn:E.
  - exfalso. apply Hne. apply (f_equal (@rev ascii)) in E.
    rewrite rev_involutive in E. exact E.
  - assert (Hc : c <> nl).
    { intros ->. apply Hn. apply in_rev. rewrite E. left. reflexivity. }
    cbn [rev app startswith].
    destruct (ascii_eqb nl c) eqn:Ec; [| reflexivity].
    apply ascii_eqb_eq in Ec. congruence.
Qed.

Lemma find_nat_skip_newline marker s :
  marker = TOC \/ marker = END_DOC ->
  find_nat marker (nl :: s) = option_map S (find_nat marker s).
Proof. intros [-> | ->]; reflexivity. Qed.

(** The split of the body of the second run: the front matter gains a
    newline in front, and the body keeps the comment of the first block. *)
Lemma second_split body chapters :
  let front := fst (split_frontmatter body) in
  let kept := strip (sub_include (snd (split_frontmatter body))) in
  let body2 := nl :: front ++ nl :: chapter_includes chapters ++ nl :: kept ++ [nl] in
  canonical chapters = true ->
  sub_include kept = kept ->
  find_nat TOC kept = None ->
  fst (split_frontmatter body2) = second_front front
  /\ strip (sub_include (snd (split_frontmatter body2)))
     = second_body (length chapters) kept.
Proof.
  intros front kept body2 Hc Hsub Htoc.
  assert (Hrk : rstrip kept = kept) by apply rstrip_strip.
  pose proof (sub_include_block chapters Hc) as HK.
  rewrite header_lines in HK.
  destruct (marker_nonempty TOC (or_introl eq_refl)) as [Hne Hnl].
  destruct (find_nat TOC body) as [i |] eqn:E.
  - destruct (find_nat_sound _ _ _ E) as (a & t & -> & <-).
    destruct (first_newline t) as [(b & c & -> & Hb) | Hn].
    + (* a newline follows the marker *)
      pose proof (split_frontmatter_line a b c E Hb) as Hs.
      assert (Hf : front = a ++ TOC ++ b ++ [nl]) by (unfold front; rewrite Hs; reflexivity).
      assert (E2 : find_nat TOC ((nl :: a) ++ TOC ++ b ++ nl ::
                                   (nl :: chapter_includes chapters ++ nl :: kept ++ [nl]))
                   = Some (length (nl :: a))).
      { cbn [app length]. rewrite (find_nat_skip_newline TOC _ (or_introl eq_refl)).
        rewrite (find_nat_tail TOC a _ _ E). reflexivity. }
      pose proof (split_frontmatter_line (nl :: a) b _ E2 Hb) as Hs2.
      assert (Hb2 : body2 = (nl :: a) ++ TOC ++ b ++ nl ::
                              (nl :: chapter_includes chapters ++ nl :: kept ++ [nl])).
      { unfold body2. rewrite Hf. cbn [app]. rewrite <- !app_assoc. reflexivity. }
      rewrite Hb2, Hs2. cbn [fst snd]. split.
      * rewrite Hf. unfold second_front.
        destruct (a ++ TOC ++ b ++ [nl]) eqn:Ea; [destruct a; discriminate |].
        rewrite <- Ea.
        replace (a ++ TOC ++ b ++ [nl]) with ((a ++ TOC ++ b) ++ [nl])
          by (rewrite <- !app_assoc; reflexivity).
        rewrite endswith_app, app_nil_r. rewrite <- !app_assoc. reflexivity.
      * change (nl :: chapter_includes chapters ++ nl :: kept ++ [nl])
          with ([] ++ nl :: (chapter_includes chapters ++ nl :: (kept ++ nl :: []))).
        rewrite !sub_include_line, sub_include_nil, HK, Hsub.
        rewrite block_then_body.
        change ([] ++ nl :: repeat nl 2 ++ ?x) with (repeat nl 3 ++ x).
        apply (strip_second_body 3 (length chapters + 2) kept Hrk).
    + (* the marker's line is the last one *)
      pose proof (split_frontmatter_last a t E Hn) as Hs.
      assert (Hf : front = a ++ TOC ++ t) by (unfold front; rewrite Hs; reflexivity).
      assert (Hk : kept = []) by (unfold kept; rewrite Hs; reflexivity).
      assert (E2 : find_nat TOC ((nl :: a) ++ TOC ++ t ++ nl ::
                                   (chapter_includes chapters ++ nl :: kept ++ [nl]))
                   = Some (length (nl :: a))).
      { cbn [app length]. rewrite (find_nat_skip_newline TOC _ (or_introl eq_refl)).
        rewrite (find_nat_tail TOC a _ _ E). reflexivity. }
      pose proof (split_frontmatter_line (nl :: a) t _ E2 Hn) as Hs2.
      assert (Hb2 : body2 = (nl :: a) ++ TOC ++ t ++ nl ::
                              (chapter_includes chapters ++ nl :: kept ++ [nl])).
      { unfold body2. rewrite Hf. cbn [app]. rewrite <- !app_assoc. reflexivity. }
      rewrite Hb2, Hs2. cbn [fst snd]. split.
      * rewrite Hf. unfold second_front.
        destruct (a ++ TOC ++ t) eqn:Ea; [destruct a; discriminate |].
        rewrite <- Ea.
        rewrite (endswith_newline_false a (TOC ++ t)).
        -- rewrite <- !app_assoc. reflexivity.
        -- intros H. apply in_app_or in H as [H | H]; [exact (Hnl H) | exact (Hn H)].
        -- discriminate.
      * change (chapter_includes chapters ++ nl :: kept ++ [nl])
          with (chapter_includes chapters ++ nl :: (kept ++ nl :: [])).
        rewrite !sub_include_line, sub_include_nil, HK, Hsub.
        rewrite block_then_body.
        apply (strip_second_body 2 (length chapters + 2) kept Hrk).
  - (* no table of contents *)
    pose proof (split_frontmatter_none body E) as Hs.
    assert (Hf : front = []) by (unfold front; rewrite Hs; reflexivity).
    assert (E2 : find_nat TOC body2 = None).
    { unfold body2. rewrite Hf.
      change (nl :: [] ++ nl :: chapter_includes chapters ++ nl :: kept ++ [nl])
        with ([] ++ nl :: ([] ++ nl :: (chapter_includes chapters
                                          ++ nl :: (kept ++ nl :: [])))).
      rewrite !(find_nat_lines TOC _ _ Hne Hnl).
      rewrite (find_nat_nil TOC Hne), Htoc.
      rewrite (no_marker_in_block TOC chapters (or_introl eq_refl) Hc). reflexivity. }
    rewrite (split_frontmatter_none body2 E2). cbn [fst snd]. split.
    + rewrite Hf. reflexivity.
    + unfold body2. rewrite Hf.
      change (nl :: [] ++ nl :: chapter_includes chapters ++ nl :: kept ++ [nl])
        with ([] ++ nl :: ([] ++ nl :: (chapter_includes chapters
                                          ++ nl :: (kept ++ nl :: [])))).
      rewrite !sub_include_line, sub_include_nil, HK, Hsub.
      rewrite block_then_body.
      change ([] ++ nl :: [] ++ nl :: repeat nl 2 ++ ?x) with (repeat nl 4 ++ x).
      apply (strip_second_body 4 (length chapters + 2) kept Hrk).
Qed.

End SecondRun.

Section SecondRunTheorem.

Lemma second_front_longer front : length front <= length (second_front front).
Proof.
  unfold second_front. destruct front as [| c t]; [simpl; lia |].
  cbn [length]. rewrite length_app. cbn [length]. lia.
Qed.

Lemma second_body_longer n kept : length kept < length (second_body n kept).
Proof.
  unfold second_body. rewrite length_app.
  assert (H : length COMMENT = 28) by reflexivity. rewrite H.
  destruct kept as [| c t]; [simpl; lia |].
  rewrite length_app. lia.
Qed.

(** C1, as the code has it.  A second run on the output of the first
    succeeds and writes the preamble and one block of directives again, the
    directives of the first block being removed from the body; but the
    output is not the same text: front matter that is not empty has a
    newline more in front (and behind, when it did not end with one), and
    the body is now the comment line of the first block, followed, when the
    body was not empty, by [n + 2] newlines for [n] chapters (which makes
    [n + 1] empty lines) and the body.  The output grows with every run. *)
Theorem second_run_keeps_one_block pre body post chapters :
  let content := pre ++ BEGIN_DOC ++ body ++ END_DOC ++ post in
  let front := fst (split_frontmatter body) in
  let kept := strip (sub_include (snd (split_frontmatter body))) in
  let block := chapter_includes chapters in
  let first := document (pre ++ BEGIN_DOC) front block kept in
  let second := document (pre ++ BEGIN_DOC) (second_front front) block
                  (second_body (length chapters) kept) in
  find BEGIN_DOC content = Z.of_nat (length pre) ->
  find END_DOC content = Z.of_nat (length (pre ++ BEGIN_DOC ++ body)) ->
  canonical chapters = true ->
  sub_include kept = kept ->
  find TOC kept = (-1)%Z ->
  find END_DOC kept = (-1)%Z ->
  rebuild content chapters = Some first
  /\ rebuild first chapters = Some second
  /\ length first < length second.
Proof.
  intros content front kept block first second Hb He Hc Hsub Htoc Hend.
  apply find_of_nat in Hb, He. apply find_minus_one in Htoc, Hend.
  split; [exact (rebuild_decomposed pre body post chapters Hb He) |].
  split.
  - set (body2 := nl :: front ++ nl :: block ++ nl :: kept ++ [nl]).
    assert (E1 : first = pre ++ BEGIN_DOC ++ body2 ++ END_DOC ++ [nl]).
    { unfold first, document, body2.
      repeat (rewrite <- ?app_assoc; progress cbn [app]).
      rewrite <- ?app_assoc. reflexivity. }
    assert (Hb2 : find_nat BEGIN_DOC (pre ++ BEGIN_DOC ++ body2 ++ END_DOC ++ [nl])
                  = Some (length pre)).
    { exact (find_nat_tail BEGIN_DOC pre _ _ Hb). }
    destruct (marker_nonempty END_DOC (or_intror eq_refl)) as [Hne Hnl].
    assert (Hp : find_nat END_DOC (pre ++ BEGIN_DOC) = None).
    { apply (find_nat_before END_DOC content _ [] (pre ++ BEGIN_DOC)
               (body ++ END_DOC ++ post) Hne He).
      - unfold content. cbn [app]. rewrite <- !app_assoc. reflexivity.
      - rewrite !length_app. simpl. lia. }
    assert (Hfr : find_nat END_DOC front = None).
    { apply (find_nat_before END_DOC content _ (pre ++ BEGIN_DOC) front
               (snd (split_frontmatter body) ++ END_DOC ++ post) Hne He).
      - unfold content, front.
        rewrite (split_frontmatter_parts body) at 1.
        rewrite <- !app_assoc. reflexivity.
      - pose proof (f_equal (@length _) (split_frontmatter_parts body)) as HL.
        rewrite length_app in HL. fold front in HL. rewrite !length_app. lia. }
    assert (He2 : find_nat END_DOC (pre ++ BEGIN_DOC ++ body2 ++ END_DOC ++ [nl])
                  = Some (length (pre ++ BEGIN_DOC ++ body2))).
    { replace (pre ++ BEGIN_DOC ++ body2 ++ END_DOC ++ [nl])
        with ((pre ++ BEGIN_DOC)
                ++ nl :: (front ++ nl :: (block ++ nl :: (kept ++ nl :: (END_DOC ++ [nl])))))
        by (unfold body2; repeat (rewrite <- ?app_assoc; progress cbn [app]);
            rewrite <- ?app_assoc; reflexivity).
      rewrite !(find_nat_lines END_DOC _ _ Hne Hnl).
      rewrite Hp, Hfr, Hend.
      unfold block. rewrite (no_marker_in_block END_DOC chapters (or_intror eq_refl) Hc).
      change (find_nat END_DOC END_DOC) with (Some 0).
      cbn [option_map]. f_equal. unfold body2, block.
      repeat (rewrite ?length_app; progress cbn [length]).
      rewrite ?length_app. lia. }
    rewrite E1, (rebuild_decomposed pre body2 [nl] chapters Hb2 He2).
    destruct (second_split body chapters Hc Hsub Htoc) as [Hf Hk].
    fold front kept block body2 in Hf, Hk. rewrite Hf, Hk. reflexivity.
  - unfold first, second, document. rewrite !length_app.
    pose proof (second_front_longer front).
    pose proof (second_body_longer (length chapters) kept). lia.
Qed.

End SecondRunTheorem.


(** * Chapter numbers *)

Section ChapterNumbers.








End ChapterNumbers.

Section DirectiveOrder.


End DirectiveOrder.

(** * Further properties of the assembler's text functions *)

Section ChapterFiles.

(** X1.  [re.match] anchors the pattern at the start of the file name only:
    a directory entry is taken as a chapter exactly when it starts with
    [chapter], one or more digits and [.tex]; what follows is not looked at,
    and stays in the path that is listed. *)
Theorem chapter_file_names name :
  (is_chapter_file name = true
   <-> exists digits rest,
         name = lit "chapter" ++ digits ++ lit ".tex" ++ rest
         /\ digits <> [] /\ forallb is_digit digits = true)
  /\ (forall digits rest,
        name = lit "chapter" ++ digits ++ lit ".tex" ++ rest ->
        digits <> [] -> forallb is_digit digits = true ->
        scan_chapters [name] = [(int_of_digits digits, lit "chapters/" ++ name)]).
Proof.
  assert (Hm : forall digits rest,
             digits <> [] -> forallb is_digit digits = true ->
             match_chapter_file (lit "chapter" ++ digits ++ lit ".tex" ++ rest)
             = Some digits).
  { intros digits rest Hne Hd.
    unfold match_chapter_file, match_digits_between.
    rewrite strip_prefix_app.
    rewrite (span_digits_app digits (lit ".tex" ++ rest) Hd) by reflexivity.
    destruct digits as [| c t]; [contradiction |].
    rewrite strip_prefix_app. reflexivity. }
  split; [split |].
  - unfold is_chapter_file, match_chapter_file, match_digits_between.
    destruct (strip_prefix (lit "chapter") name) as [s1 |] eqn:E1; [| discriminate].
    apply strip_prefix_sound in E1.
    destruct (span_digits s1) as [d s2] eqn:E2.
    apply span_digits_sound in E2 as [E2 Hd].
    destruct d as [| c t]; [discriminate |].
    destruct (strip_prefix (lit ".tex") s2) as [rest |] eqn:E3; [| discriminate].
    apply strip_prefix_sound in E3. intros _.
    exists (c :: t), rest. subst. split; [reflexivity | split; [discriminate | exact Hd]].
  - intros (digits & rest & -> & Hne & Hd).
    unfold is_chapter_file. rewrite (Hm digits rest Hne Hd). reflexivity.
  - intros digits rest -> Hne Hd. unfold scan_chapters. cbn [flat_map].
    rewrite (Hm digits rest Hne Hd). reflexivity.
Qed.

End ChapterFiles.

Section Markers.

Lemma slice_backwards s i j : j <= i -> slice s (Z.of_nat i) (Z.of_nat j) = [].
Proof.
  intros H. unfold slice. rewrite !norm_index_of_nat.
  replace (Nat.min j (length s) - Nat.min i (length s)) with 0 by lia.
  reflexivity.
Qed.

(** X2.  The two markers are searched for independently.  When the first
    end-document marker comes before the first begin-document marker, the
    body is empty: the output is the text through the begin marker, the
    directive block and the end line; the text after the begin marker is
    lost. *)
Theorem rebuild_with_end_marker_first a b c chapters :
  let content := a ++ END_DOC ++ b ++ BEGIN_DOC ++ c in
  find END_DOC content = Z.of_nat (length a) ->
  find BEGIN_DOC content = Z.of_nat (length (a ++ END_DOC ++ b)) ->
  rebuild content chapters
  = Some (document (a ++ END_DOC ++ b ++ BEGIN_DOC) [] (chapter_includes chapters) []).
Proof.
  intros content He Hb. unfold rebuild. rewrite He, Hb.
  rewrite !of_nat_not_minus_one. cbn [orb].
  rewrite <- Nat2Z.inj_add.
  replace (slice_to content (Z.of_nat (length (a ++ END_DOC ++ b) + length BEGIN_DOC)))
    with (a ++ END_DOC ++ b ++ BEGIN_DOC).
  2:{ unfold content.
      replace (a ++ END_DOC ++ b ++ BEGIN_DOC ++ c)
        with ((a ++ END_DOC ++ b ++ BEGIN_DOC) ++ c)
        by (rewrite <- !app_assoc; reflexivity).
      replace (length (a ++ END_DOC ++ b) + length BEGIN_DOC)
        with (length (a ++ END_DOC ++ b ++ BEGIN_DOC))
        by (rewrite !length_app; lia).
      rewrite slice_to_app. reflexivity. }
  rewrite slice_backwards by (rewrite !length_app; lia).
  reflexivity.
Qed.

End Markers.

Section Removal.

Lemma sub_include_fuel_length f s : length (sub_include_fuel f s) <= length s.
Proof.
  revert s; induction f as [| f IH]; intros s; simpl; [lia |].
  destruct s as [| c t]; [simpl; lia |].
  destruct (match_include (c :: t)) as [[d rest] |] eqn:E.
  - apply match_include_shorter in E. specialize (IH rest). lia.
  - specialize (IH t). simpl. lia.
Qed.

Lemma sub_include_fuel_fixed f s :
  length s <= f ->
  (findall_include_fuel f s = [] <-> sub_include_fuel f s = s).
Proof.
  revert s; induction f as [| f IH]; intros s Hlen.
  - destruct s; [| simpl in Hlen; lia]. simpl. tauto.
  - destruct s as [| c t]; [simpl; tauto |].
    cbn [findall_include_fuel sub_include_fuel].
    destruct (match_include (c :: t)) as [[d rest] |] eqn:E.
    + split; [discriminate |]. intros H. exfalso.
      pose proof (sub_include_fuel_length f rest) as Hl.
      apply match_include_shorter in E. rewrite H in Hl. lia.
    + simpl in Hlen. specialize (IH t ltac:(lia)). split.
      * intros H. f_equal. apply IH, H.
      * intros H. injection H as H. apply IH, H.
Qed.

(** X3.  The removal of the directives changes a body exactly when
    [re.findall] finds a directive in it: a body without directive is
    written back as it is, and never grows. *)
Theorem sub_include_changes_only_directives s :
  (sub_include s = s <-> findall_include s = [])
  /\ length (sub_include s) <= length s.
Proof.
  split.
  - symmetry. apply sub_include_fuel_fixed. lia.
  - apply sub_include_fuel_length.
Qed.

End Removal.

(** * Reasoning about computations *)

Section Reasoning.

Context {PF : Platform}.

Lemma hoare_conseq {A} (P P' : State -> Prop) (m : M A)
    (Q Q' : result A -> State -> Prop) :
  hoare P' m Q' ->
  (forall st, P st -> P' st) ->
  (forall r st, Q' r st -> Q r st) ->
  hoare P m Q.
Proof. unfold hoare; auto. Qed.

Lemma hoare_ret {A} (P : State -> Prop) (a : A) (Q : result A -> State -> Prop) :
  (forall st, P st -> Q (Ok a) st) -> hoare P (ret a) Q.
Proof. unfold hoare, ret; simpl; auto. Qed.

Lemma hoare_bind {A B} (P : State -> Prop) (m : M A) (k : A -> M B)
    (R : result A -> State -> Prop) (Q : result B -> State -> Prop) :
  hoare P m R ->
  (forall a, hoare (R (Ok a)) (k a) Q) ->
  (forall e st, R (Raise e) st -> Q (Raise e) st) ->
  hoare P (bind m k) Q.
Proof.
  unfold hoare, bind; intros Hm Hk He st HP.
  specialize (Hm st HP). destruct (m st) as [[a | e] st']; simpl in *.
  - apply Hk, Hm.
  - apply He, Hm.
Qed.

Lemma hoare_try_except {A} (P : State -> Prop) (m : M A) (h : exn -> M A)
    (R : result A -> State -> Prop) (Q : result A -> State -> Prop) :
  hoare P m R ->
  (forall a st, R (Ok a) st -> Q (Ok a) st) ->
  (forall e, hoare (R (Raise e)) (h e) Q) ->
  hoare P (try_except m h) Q.
Proof.
  unfold hoare, try_except; intros Hm Hok Hh st HP.
  specialize (Hm st HP). destruct (m st) as [[a | e] st']; simpl in *.
  - apply Hok, Hm.
  - apply Hh, Hm.
Qed.

Lemma stable_hoare {A} (I : State -> Prop) (m : M A) :
  stable I m -> hoare I m (fun _ st => I st).
Proof. unfold stable, hoare; auto. Qed.

Lemma stable_ret {A} I (a : A) : stable I (ret a).
Proof. unfold stable, ret; auto. Qed.

Lemma stable_raise {A} I e : stable I (@raise _ A e).
Proof. unfold stable, raise; auto. Qed.

Lemma stable_lift {A} I (r : result A) : stable I (lift r).
Proof. unfold stable, lift; auto. Qed.

Lemma stable_get {A} I (proj : State -> A) : stable I (get proj).
Proof. unfold stable, get; auto. Qed.

Lemma stable_bind {A B} I (m : M A) (k : A -> M B) :
  stable I m -> (forall a, stable I (k a)) -> stable I (bind m k).
Proof.
  unfold stable, bind; intros Hm Hk st HI.
  specialize (Hm st HI). destruct (m st) as [[a | e] st']; simpl in *; auto.
Qed.

Lemma stable_try_except {A} I (m : M A) (h : exn -> M A) :
  stable I m -> (forall e, stable I (h e)) -> stable I (try_except m h).
Proof.
  unfold stable, try_except; intros Hm Hh st HI.
  specialize (Hm st HI). destruct (m st) as [[a | e] st']; simpl in *; auto.
Qed.

Lemma stable_for_each {A} I (l : list A) (body : A -> M unit) :
  (forall x, stable I (body x)) -> stable I (for_each l body).
Proof.
  intros Hb; induction l as [| x t IH]; simpl.
  - apply stable_ret.
  - apply stable_bind; auto.
Qed.

Lemma stable_map_m {A B} I (f : A -> M B) (l : list A) :
  (forall x, stable I (f x)) -> stable I (map_m f l).
Proof.
  intros Hf; induction l as [| x t IH]; simpl.
  - apply stable_ret.
  - apply stable_bind; auto. intros y. apply stable_bind; auto.
    intros ys. apply stable_ret.
Qed.

Section Stable.

Variable cfg : Config.
Variable I : State -> Prop.

Lemma stable_logger lv msg : ignores_log I -> stable I (logger lv msg).
Proof. intros [H] st HI; simpl; auto. Qed.

Lemma stable_makedirs d : ignores_fs I -> stable I (makedirs d).
Proof.
  intros [H] st HI; unfold makedirs.
  destruct d; simpl; auto. destruct (is_file _ _); simpl; auto.
Qed.

Lemma stable_write_text p c : ignores_fs I -> stable I (write_text p c).
Proof.
  intros [H] st HI; unfold write_text.
  destruct (is_dir _ p); simpl; auto. destruct (is_dir _ _); simpl; auto.
Qed.

Lemma stable_read_text p : stable I (read_text p).
Proof. intros st HI; unfold read_text. destruct (lookup _ _); simpl; auto. Qed.

Lemma stable_read_bytes p : stable I (read_bytes p).
Proof. intros st HI; unfold read_bytes. destruct (lookup _ _); simpl; auto. Qed.

Lemma stable_listdir d : stable I (listdir d).
Proof. intros st HI; unfold listdir. destruct (is_dir _ _); simpl; auto. Qed.

Lemma stable_chdir d : ignores_cwd I -> stable I (chdir d).
Proof. intros [H] st HI; unfold chdir. destruct (is_dir _ _); simpl; auto. Qed.

Lemma stable_subprocess_run cmd : ignores_commands I -> stable I (subprocess_run cmd).
Proof.
  intros [H] st HI; unfold subprocess_run.
  destruct (run_shell _ _ _); simpl; auto.
Qed.

Lemma stable_make_request method endpoint data params :
  ignores_requests I -> ignores_log I ->
  stable I (_make_request cfg method endpoint data params).
Proof.
  intros [H] [L] st HI; unfold _make_request.
  destruct (http _ _) as [response s].
  destruct (_ && _); destruct (_ && _); simpl; auto.
Qed.

Lemma stable_getitem v k : stable I (getitem v k).
Proof.
  unfold getitem. destruct v as [[| | | | |kv]|];
    try apply stable_raise.
  destruct (lookup_key k kv); [apply stable_ret | apply stable_raise].
Qed.

Lemma stable_decode_content v : stable I (decode_content v).
Proof.
  unfold decode_content. destruct v; try apply stable_raise. apply stable_lift.
Qed.

Lemma stable_iterate v : stable I (iterate v).
Proof.
  unfold iterate. destruct v as [[| | | | |]|];
    try apply stable_raise; apply stable_ret.
Qed.

End Stable.

(** *** Stepping through a computation *)

Lemma bind_ok {A B} {m : M A} (k : A -> M B) {st a st'} :
  m st = (Ok a, st') -> bind m k st = k a st'.
Proof. unfold bind; intros ->; reflexivity. Qed.

Lemma bind_raise {A B} {m : M A} (k : A -> M B) {st e st'} :
  m st = (Raise e, st') -> bind m k st = (Raise e, st').
Proof. unfold bind; intros ->; reflexivity. Qed.

Lemma try_bind_ok {A B} {m : M A} (k : A -> M B) (h : exn -> M B) {st a st'} :
  m st = (Ok a, st') -> try_except (bind m k) h st = try_except (k a) h st'.
Proof. unfold try_except, bind; intros ->; reflexivity. Qed.

Lemma try_bind_raise {A B} {m : M A} (k : A -> M B) (h : exn -> M B) {st e st'} :
  m st = (Raise e, st') -> try_except (bind m k) h st = h e st'.
Proof. unfold try_except, bind; intros ->; reflexivity. Qed.

(** *** The build passes *)

Section Passes.

Variable cfg : Config.
Hypothesis Hshell : shell_returns.

Lemma subprocess_run_returns cmd st :
  exists cp f, subprocess_run cmd st = (Ok cp, ran cmd f st).
Proof.
  unfold subprocess_run. destruct (Hshell cmd (cwd st) (fs st)) as [cp Hcp].
  destruct (run_shell cmd (cwd st) (fs st)) as [r f]; simpl in Hcp; subst r.
  exists cp, f; reflexivity.
Qed.

Lemma resolution_pass_runs bc i st :
  exists st', resolution_pass cfg bc i st = (Ok tt, st')
    /\ commands st' = commands st ++ [bc]
    /\ cwd st' = cwd st /\ work_dir st' = work_dir st.
Proof.
  unfold resolution_pass.
  destruct (subprocess_run_returns bc
              (add_log INFO (lit "Running LaTeX pass " ++ str_of_Z (i + 2) ++ lit "/"
                               ++ str_of_Z (latex_runs cfg + 1)) st))
    as (cp & f & Hrun).
  unfold bind at 1. unfold logger, modify at 1.
  rewrite (bind_ok _ Hrun).
  destruct (returncode cp =? 0)%Z; simpl; eexists; repeat split; reflexivity.
Qed.

Lemma resolution_passes_run bc l st :
  exists st', for_each l (resolution_pass cfg bc) st = (Ok tt, st')
    /\ commands st' = commands st ++ repeat bc (length l)
    /\ cwd st' = cwd st /\ work_dir st' = work_dir st.
Proof.
  revert st; induction l as [| i t IH]; intros st; simpl.
  - exists st. rewrite app_nil_r. repeat split; reflexivity.
  - destruct (resolution_pass_runs bc i st) as (st1 & H1 & Hc1 & Hd1 & Hw1).
    destruct (IH st1) as (st2 & H2 & Hc2 & Hd2 & Hw2).
    exists st2. rewrite (bind_ok _ H1), H2.
    repeat split; try congruence.
    rewrite Hc2, Hc1, <- app_assoc. reflexivity.
Qed.

End Passes.


Section CompileBook.

Variable cfg : Config.

Lemma length_range n : length (range n) = Z.to_nat n.
Proof. unfold range. rewrite length_map, length_seq. reflexivity. Qed.

(** With a working directory, well-formed templates and a shell that
    returns, [compile_book] reaches its terminal check after having run
    exactly the configured passes. *)
Lemma compile_book_reaches_check st d bc bib :
  truthy_dir (work_dir st) = Some d ->
  is_dir (fs st) d = true ->
  build_line cfg d = Ok bc ->
  (run_bibtex cfg = true -> bibtex_line cfg d = Ok bib) ->
  shell_returns ->
  exists st2,
    compile_book cfg st
    = try_except (terminal_check cfg d (cwd st)) (compilation_failed (cwd st)) st2
    /\ commands st2 = commands st ++ pass_commands cfg bc bib
    /\ cwd st2 = d.
Proof.
  intros Hwd Hdir Hbc Hbib Hshell.
  unfold compile_book.
  unfold bind at 1, get at 1. rewrite Hwd.
  unfold bind at 1, get at 1.
  assert (Hcd : chdir d st = (Ok tt, set_cwd d st)).
  { unfold chdir. rewrite Hdir. reflexivity. }
  rewrite (try_bind_ok _ _ Hcd).
  assert (Hl : lift (build_line cfg d) (set_cwd d st) = (Ok bc, set_cwd d st)).
  { unfold lift. rewrite Hbc. reflexivity. }
  rewrite (try_bind_ok _ _ Hl).
  set (st1 := add_log INFO (lit "Running first LaTeX pass: " ++ bc) (set_cwd d st)).
  assert (Hlog : logger INFO (lit "Running first LaTeX pass: " ++ bc) (set_cwd d st)
                 = (Ok tt, st1)) by reflexivity.
  rewrite (try_bind_ok _ _ Hlog).
  destruct (subprocess_run_returns Hshell bc st1) as (cp & f & Hrun).
  rewrite (try_bind_ok _ _ Hrun).
  assert (Hwarn : exists st3,
             (if (returncode cp =? 0)%Z then ret tt
              else logger ERROR (lit "LaTeX compilation failed: " ++ stderr cp))
               (ran bc f st1) = (Ok tt, st3)
             /\ commands st3 = commands st ++ [bc] /\ cwd st3 = d).
  { destruct (returncode cp =? 0)%Z; eexists; repeat split; reflexivity. }
  destruct Hwarn as (st3 & Hw & Hc3 & Hd3).
  rewrite (try_bind_ok _ _ Hw).
  assert (Hb : exists st4,
             (if run_bibtex cfg
              then bibtex_command <- lift (bibtex_line cfg d) ;;
                   logger INFO (lit "Running BibTeX: " ++ bibtex_command) ;;;
                   result <- subprocess_run bibtex_command ;;
                   if (returncode result =? 0)%Z then ret tt
                   else logger WARNING (lit "BibTeX run had issues: " ++ stderr result)
              else ret tt) st3 = (Ok tt, st4)
             /\ commands st4 = commands st3 ++ (if run_bibtex cfg then [bib] else [])
             /\ cwd st4 = d).
  { destruct (run_bibtex cfg).
    - specialize (Hbib eq_refl).
      unfold bind at 1, lift at 1. rewrite Hbib.
      unfold bind at 1, logger at 1, modify at 1.
      destruct (subprocess_run_returns Hshell bib
                  (add_log INFO (lit "Running BibTeX: " ++ bib) st3))
        as (cp2 & f2 & Hrun2).
      rewrite (bind_ok _ Hrun2).
      destruct (returncode cp2 =? 0)%Z; eexists; repeat split; simpl; auto.
    - exists st3. rewrite app_nil_r. repeat split; auto. }
  destruct Hb as (st4 & Hb4 & Hc4 & Hd4).
  rewrite (try_bind_ok _ _ Hb4).
  destruct (resolution_passes_run cfg Hshell bc (range (latex_runs cfg)) st4)
    as (st5 & H5 & Hc5 & Hd5 & _).
  rewrite (try_bind_ok _ _ H5).
  exists st5. split; [reflexivity |]. split; [| congruence].
  rewrite Hc5, Hc4, Hc3, length_range. unfold pass_commands.
  rewrite <- !app_assoc. reflexivity.
Qed.

(** The terminal check and the handler leave the file system and the list
    of commands alone. *)
Lemma finish_frame d orig st2 :
  let r := try_except (terminal_check cfg d orig) (compilation_failed orig) st2 in
  fs (snd r) = fs st2 /\ commands (snd r) = commands st2.
Proof.
  unfold terminal_check, compilation_failed, try_except, bind, get, logger,
    modify, chdir, ret; simpl.
  destruct (path_exists (fs st2) (pdf_path cfg d)); simpl;
    destruct (is_dir (fs st2) orig) eqn:E; simpl; rewrite ?E; simpl; auto.
Qed.


End CompileBook.

Section BuildClaims.

Variable cfg : Config.


(** C6, as the code has it.  When the working directory is set and is on
    disk, the process is in a directory that is on disk, the command
    template can be filled in and the shell starts every command, the pass
    transitions are unconditional: with the bibliography pass disabled and
    [k] resolution passes configured, [compile_book] hands the build command
    to the shell exactly [k + 1] times, the first pass and then the [k]
    resolution passes, whatever exit status each pass returns. *)
Theorem compile_book_pass_sequence st d bc k :
  run_bibtex cfg = false ->
  latex_runs cfg = Z.of_nat k ->
  truthy_dir (work_dir st) = Some d ->
  is_dir (fs st) d = true ->
  is_dir (fs st) (cwd st) = true ->
  build_line cfg d = Ok bc ->
  shell_returns ->
  commands (snd (compile_book cfg st)) = commands st ++ bc :: repeat bc k
  /\ length (commands (snd (compile_book cfg st))) = length (commands st) + (k + 1).
Proof.
  intros Hbib Hk Hwd Hdir _ Hbc Hshell.
  assert (Hb : run_bibtex cfg = true -> bibtex_line cfg d = Ok []).
  { rewrite Hbib; discriminate. }
  destruct (compile_book_reaches_check cfg st d bc [] Hwd Hdir Hbc Hb Hshell)
    as (st2 & Heq & Hcmd & _).
  rewrite Heq.
  destruct (finish_frame cfg d (cwd st) st2) as [_ Hc].
  rewrite Hc, Hcmd. unfold pass_commands. rewrite Hbib, Hk, Nat2Z.id. simpl.
  split; [reflexivity |].
  rewrite length_app. simpl. rewrite repeat_length. lia.
Qed.

Lemma hoare_bind_any {A B} (P : State -> Prop) (m : M A) (k : A -> M B)
    (Q : result B -> State -> Prop) :
  (forall a, hoare (fun _ => True) (k a) Q) ->
  (forall e st, Q (Raise e) st) ->
  hoare P (bind m k) Q.
Proof.
  intros Hk He. apply hoare_bind with (R := fun _ _ => True).
  - intros st _; exact I.
  - exact Hk.
  - intros e st _; apply He.
Qed.

Lemma hoare_bind_get {A B} (P : State -> Prop) (proj : State -> A) (k : A -> M B)
    (Q : result B -> State -> Prop) :
  (forall a, hoare (fun s => P s /\ proj s = a) (k a) Q) ->
  hoare P (bind (get proj) k) Q.
Proof.
  intros Hk st HP. unfold bind, get. apply (Hk (proj st) st). auto.
Qed.

Lemma compile_book_cwd st0 :
  hoare (fun s => s = st0) (compile_book cfg)
    (fun _ s => is_dir (fs s) (cwd st0) = true -> cwd s = cwd st0).
Proof.
  unfold compile_book.
  apply hoare_bind_get; intros w.
  destruct (truthy_dir w) as [d |].
  - apply hoare_bind_get; intros orig.
    apply (hoare_try_except _ _ _
             (fun r s => cwd st0 = orig
                         /\ match r with Ok _ => cwd s = orig | Raise _ => True end)).
    + intros s [[-> _] Ho]. split; [exact Ho |].
      match goal with
      | |- match fst (?m st0) with _ => _ end =>
          assert (Hbody : hoare (fun _ => True) m
                    (fun r s => match r with Ok _ => cwd s = orig | Raise _ => True end))
      end.
      { do 7 (apply hoare_bind_any; [intros ? | intros; exact I]).
        intros s _. unfold terminal_check, bind, get, logger, modify, chdir, ret; simpl.
        destruct (path_exists (fs s) (pdf_path cfg d)); simpl;
          destruct (is_dir (fs s) orig); simpl; auto. }
      exact (Hbody st0 I).
    + intros a s [<- H] _. exact H.
    + intros e s [<- _]. unfold compilation_failed, try_except, bind, logger, modify,
        chdir, ret; simpl.
      destruct (is_dir (fs s) (cwd st0)) eqn:E; simpl; [reflexivity |].
      rewrite E; discriminate.
  - intros s [-> _]. reflexivity.
Qed.

(** C9, as the code has it.  On every path on which [compile_book]
    returns (no working directory, PDF found, PDF missing, an exception of
    class [Exception] raised anywhere in the [try] block) the process is
    back in the directory it was in on entry, as long as that directory is
    still on disk when [compile_book] changes back; when it is gone the
    process stays where it is. *)
Theorem compile_book_restores_cwd st :
  is_dir (fs (snd (compile_book cfg st))) (cwd st) = true ->
  cwd (snd (compile_book cfg st)) = cwd st.
Proof. exact (compile_book_cwd st st eq_refl). Qed.

End BuildClaims.

(** *** Everything but the build leaves the shell alone *)

Section Quiet.

Variable cfg : Config.
Variable I : State -> Prop.
Hypothesis HL : ignores_log I.
Hypothesis HF : ignores_fs I.
Hypothesis HC : ignores_cwd I.
Hypothesis HW : ignores_work_dir I.
Hypothesis HR : ignores_requests I.

Lemma stable_modify_fs_work_dir (w : State -> option str) (f : State -> FS) :
  stable I (modify (fun st => set_work_dir (w st) (set_fs (f st) st))).
Proof.
  intros st HI; simpl. destruct HW as [Hw], HF as [Hf]. auto.
Qed.

Ltac stable_step :=
  first
    [ apply stable_ret | apply stable_raise | apply stable_lift | apply stable_get
    | apply stable_logger; assumption
    | apply stable_makedirs; assumption
    | apply stable_write_text; assumption
    | apply stable_read_text | apply stable_read_bytes
    | apply stable_listdir
    | apply stable_chdir; assumption
    | apply stable_make_request; assumption
    | apply stable_getitem | apply stable_decode_content | apply stable_iterate
    | apply stable_bind; [| intros ?]
    | apply stable_try_except; [| intros ?]
    | apply stable_for_each; intros ?
    | apply stable_map_m; intros ?
    | match goal with
      | |- stable _ (match ?x with _ => _ end) => destruct x
      end ].

Lemma stable_get_file_content p b : stable I (get_file_content cfg p b).
Proof. unfold get_file_content. repeat stable_step. Qed.

Lemma stable_list_branches : stable I (list_branches cfg).
Proof. unfold list_branches. repeat stable_step. Qed.

Lemma stable_create_branch n b : stable I (create_branch cfg n b).
Proof. unfold create_branch. repeat stable_step. Qed.

Lemma stable_setup : stable I setup_working_directory.
Proof.
  unfold setup_working_directory. repeat stable_step.
  apply (stable_modify_fs_work_dir (fun _ => Some a) (fun st => add_dir a (fs st))).
Qed.

Lemma stable_cleanup : stable I cleanup_working_directory.
Proof.
  unfold cleanup_working_directory. repeat stable_step.
  apply (stable_modify_fs_work_dir (fun _ => None) (fun st => remove_tree s (fs st))).
Qed.

Lemma stable_the_work_dir : stable I the_work_dir.
Proof. unfold the_work_dir. repeat stable_step. Qed.

Lemma stable_download_file b om p :
  (forall q, stable I (om q)) -> stable I (download_file cfg b om p).
Proof.
  intros Hom. unfold download_file.
  apply stable_bind; [apply stable_get_file_content | intros c].
  destruct (truthy_text c); [| apply Hom].
  apply stable_bind; [apply stable_the_work_dir | intros d].
  repeat stable_step.
Qed.

Lemma stable_download_all_chapters b : stable I (download_all_chapters cfg b).
Proof.
  unfold download_all_chapters. apply stable_for_each; intros n.
  apply stable_download_file. intros q. apply stable_ret.
Qed.

Lemma stable_download_figures b : stable I (download_figures b).
Proof.
  unfold download_figures.
  apply stable_bind; [apply stable_logger; assumption | intros _].
  apply stable_bind; [apply stable_the_work_dir | intros d].
  apply stable_makedirs; assumption.
Qed.

Lemma stable_download_repository_files b : stable I (download_repository_files cfg b).
Proof.
  unfold download_repository_files.
  apply stable_bind; [apply stable_get | intros w].
  apply stable_bind.
  { destruct (truthy_dir w); [apply stable_ret |].
    apply stable_bind; [apply stable_setup | intros d; apply stable_ret]. }
  intros _. apply stable_try_except.
  - apply stable_bind; [apply stable_get_file_content | intros c].
    destruct (truthy_text c).
    + apply stable_bind; [apply stable_the_work_dir | intros d].
      apply stable_bind; [apply stable_makedirs; assumption | intros _].
      apply stable_bind; [apply stable_write_text; assumption | intros _].
      apply stable_bind.
      { apply stable_for_each; intros p. apply stable_download_file.
        intros q. apply stable_logger; assumption. }
      intros _.
      apply stable_bind; [apply stable_download_all_chapters | intros _].
      apply stable_bind; [apply stable_download_figures | intros _].
      apply stable_ret.
    + repeat stable_step.
  - intros e. repeat stable_step.
Qed.

Lemma stable_update_main_file : stable I (update_main_file cfg).
Proof. unfold update_main_file. repeat stable_step. Qed.

Lemma stable_upload_compiled_book p : stable I (upload_compiled_book cfg p).
Proof.
  unfold upload_compiled_book. apply stable_try_except.
  - apply stable_bind; [apply stable_list_branches | intros bs].
    apply stable_bind.
    { destruct (existsb _ bs); [apply stable_ret |].
      apply stable_bind; [apply stable_logger; assumption | intros _].
      apply stable_bind; [apply stable_create_branch | intros r; apply stable_ret]. }
    intros _. repeat stable_step.
  - intros e. repeat stable_step.
Qed.

End Quiet.

Lemma ran_only_quiet cs :
  ignores_log (ran_only cs) /\ ignores_fs (ran_only cs) /\ ignores_cwd (ran_only cs)
  /\ ignores_work_dir (ran_only cs) /\ ignores_requests (ran_only cs).
Proof. repeat split; intros; assumption. Qed.

(** *** The pipeline up to the build *)

Section Pipeline.

Variable cfg : Config.
Variable branch : str.

Lemma pair_eq {A B} (x : A * B) a : fst x = a -> x = (a, snd x).
Proof. destruct x; simpl; intros ->; reflexivity. Qed.

Lemma cleanup_returns s : fst (cleanup_working_directory s) = Ok tt.
Proof.
  unfold cleanup_working_directory, bind, get.
  destruct (truthy_dir (work_dir s)) as [d |]; [| reflexivity].
  destruct (path_exists (fs s) d); reflexivity.
Qed.

(** Logging the failure, cleaning up and returning [False]. *)
Lemma abort_path msg (h : exn -> M bool) s :
  let r := try_except (logger ERROR msg ;;; cleanup_working_directory ;;; ret false) h s in
  fst r = Ok false /\ commands (snd r) = commands s.
Proof.
  unfold try_except, bind, logger, modify. simpl.
  pose proof (cleanup_returns (add_log ERROR msg s)) as Hc.
  destruct (ran_only_quiet (commands s)) as (HL & HF & _ & HW & _).
  pose proof (stable_cleanup (ran_only (commands s)) HL HF HW
                (add_log ERROR msg s) eq_refl) as Hs.
  destruct (cleanup_working_directory (add_log ERROR msg s)) as [r s'].
  simpl in Hc, Hs; subst r. simpl. auto.
Qed.

Lemma join_nonempty a b : b <> [] -> Path.join a b <> [].
Proof.
  intros Hb. unfold Path.join.
  destruct (startswith [Path.sep] b); [exact Hb |].
  destruct (match a with [] => true | _ :: _ => endswith [Path.sep] a end);
    intros H; apply app_eq_nil in H as [_ H]; [contradiction | discriminate].
Qed.

Lemma truthy_nonempty d : d <> [] -> truthy_dir (Some d) = Some d.
Proof. destruct d; [contradiction | reflexivity]. Qed.

(** [setup_working_directory] leaves a truthy [self.work_dir]. *)
Lemma setup_runs st :
  exists d st1,
    setup_working_directory st = (Ok d, st1)
    /\ work_dir st1 = Some d /\ truthy_dir (Some d) = Some d
    /\ commands st1 = commands st.
Proof.
  eexists; eexists. split; [reflexivity |]. split; [reflexivity |].
  split; [| reflexivity].
  apply truthy_nonempty, join_nonempty. discriminate.
Qed.

Lemma try_returns {A} (m : M A) (h : exn -> M A) :
  (forall e s, exists a, fst (h e s) = Ok a) ->
  forall s, exists a, fst (try_except m h s) = Ok a.
Proof.
  intros Hh s. unfold try_except. destruct (m s) as [[a | e] s']; simpl; eauto.
Qed.

Lemma download_returns st : exists b, fst (download_repository_files cfg branch st) = Ok b.
Proof.
  unfold download_repository_files.
  unfold bind at 1, get at 1. unfold bind at 1.
  destruct ((match truthy_dir (work_dir st) with
             | Some _ => ret tt
             | None => d <- setup_working_directory;; ret tt
             end) st) as [[[] | e] st1] eqn:E.
  - apply try_returns. intros e s. simpl. eauto.
  - exfalso. destruct (truthy_dir (work_dir st)); discriminate.
Qed.

Lemma update_returns st : exists b, fst (update_main_file cfg st) = Ok b.
Proof.
  unfold update_main_file. unfold bind at 1, get at 1.
  destruct (truthy_dir (work_dir st)) as [d |]; [| simpl; eauto].
  apply try_returns. intros e s. simpl. eauto.
Qed.

Lemma process_book_download_failed st :
  let st1 := snd (setup_working_directory st) in
  fst (download_repository_files cfg branch st1) = Ok false ->
  process_book cfg branch st
  = try_except (logger ERROR (lit "Failed to download repository files") ;;;
                cleanup_working_directory ;;; ret false)
      processing_failed (snd (download_repository_files cfg branch st1)).
Proof.
  intros st1 Hd. unfold process_book.
  destruct (setup_runs st) as (d & st1' & Hs & _).
  assert (st1' = st1) by (unfold st1; rewrite Hs; reflexivity). subst st1'.
  rewrite (try_bind_ok _ _ Hs).
  rewrite (try_bind_ok _ _ (pair_eq _ _ Hd)). reflexivity.
Qed.

Lemma process_book_update_failed st :
  let st1 := snd (setup_working_directory st) in
  let st2 := snd (download_repository_files cfg branch st1) in
  fst (download_repository_files cfg branch st1) = Ok true ->
  fst (update_main_file cfg st2) = Ok false ->
  process_book cfg branch st
  = try_except (logger ERROR (lit "Failed to update main file") ;;;
                cleanup_working_directory ;;; ret false)
      processing_failed (snd (update_main_file cfg st2)).
Proof.
  intros st1 st2 Hd Hu. unfold process_book.
  destruct (setup_runs st) as (d & st1' & Hs & _).
  assert (st1' = st1) by (unfold st1; rewrite Hs; reflexivity). subst st1'.
  rewrite (try_bind_ok _ _ Hs).
  rewrite (try_bind_ok _ _ (pair_eq _ _ Hd)). simpl negb. cbv iota.
  rewrite (try_bind_ok _ _ (pair_eq _ _ Hu)). reflexivity.
Qed.

(** Nothing before the build touches the shell. *)
Lemma commands_setup st : commands (snd (setup_working_directory st)) = commands st.
Proof. reflexivity. Qed.

Lemma commands_download st :
  commands (snd (download_repository_files cfg branch st)) = commands st.
Proof.
  destruct (ran_only_quiet (commands st)) as (HL & HF & _ & HW & HR).
  exact (stable_download_repository_files cfg (ran_only (commands st)) HL HF HW HR
           branch st eq_refl).
Qed.

Lemma commands_update st : commands (snd (update_main_file cfg st)) = commands st.
Proof.
  destruct (ran_only_quiet (commands st)) as (HL & HF & _ & _ & _).
  exact (stable_update_main_file cfg (ran_only (commands st)) HL HF st eq_refl).
Qed.

End Pipeline.

Section MasterDocument.

Variable cfg : Config.
Variable branch : str.

Lemma span_digits_head s c t r : span_digits s = (c :: t, r) -> is_digit c = true.
Proof.
  destruct s as [| a s]; simpl; [discriminate |].
  destruct (is_digit a) eqn:E; [| discriminate].
  destruct (span_digits s). intros H; inversion H; subst; assumption.
Qed.

Lemma match_include_digits s d rest :
  match_include s = Some (d, rest) -> exists c t, d = c :: t /\ is_digit c = true.
Proof.
  unfold match_include, match_digits_between.
  destruct (strip_prefix _ s) as [s1 |]; [| discriminate].
  destruct (span_digits s1) as [[| c t] s2] eqn:E; [discriminate |].
  destruct (strip_prefix _ s2); [| discriminate].
  intros H; inversion H; subst. exists c, t. split; [reflexivity |].
  exact (span_digits_head _ _ _ _ E).
Qed.

Lemma findall_include_digits s inc :
  In inc (findall_include s) -> exists c t, inc = c :: t /\ is_digit c = true.
Proof.
  unfold findall_include. generalize (length s) as fuel.
  intros fuel; revert s; induction fuel as [| f IH]; intros s; simpl; [tauto |].
  destruct s as [| x s]; [simpl; tauto |].
  destruct (match_include (x :: s)) as [[d rest] |] eqn:E.
  - intros [<- | H]; [exact (match_include_digits _ _ _ E) | exact (IH _ H)].
  - apply IH.
Qed.

Lemma aside_digit c t : is_digit c = true -> aside (c :: t).
Proof.
  intros Hc. split.
  - change (ascii_eqb Path.sep c && true = false).
    destruct (ascii_eqb Path.sep c) eqn:E; [| reflexivity].
    apply ascii_eqb_eq in E; subst c. discriminate.
  - intros H. inversion H; subst c. discriminate.
Qed.

Lemma aside_with_tex inc : (exists c t, inc = c :: t /\ is_digit c = true) ->
  aside (with_tex inc).
Proof.
  intros (c & t & -> & Hc). unfold with_tex.
  destruct (endswith _ _); [| simpl]; apply aside_digit; assumption.
Qed.

Lemma aside_standard p : In p standard_files -> aside p.
Proof.
  unfold standard_files.
  intros [<- | [<- | [<- | [<- | []]]]]; split; try reflexivity; discriminate.
Qed.

Lemma aside_chapter n : aside (lit "chapters/chapter" ++ str_of_Z n ++ lit ".tex").
Proof. split; [reflexivity | discriminate]. Qed.

Lemma holds_main_log d c : ignores_log (holds_main d c).
Proof. split; intros; assumption. Qed.

Lemma holds_main_requests d c : ignores_requests (holds_main d c).
Proof. split; intros; assumption. Qed.

Lemma stable_makedirs_main d c x : stable (holds_main d c) (makedirs x).
Proof.
  intros st [Hw Hl]. unfold makedirs.
  destruct x; [exact (conj Hw Hl) |].
  destruct (is_file _ _); simpl; [exact (conj Hw Hl) |].
  split; [exact Hw |]. simpl. rewrite files_add_dir. exact Hl.
Qed.

Lemma stable_write_text_aside d c p x :
  aside p -> stable (holds_main d c) (write_text (Path.join d p) x).
Proof.
  intros [Hrel Hne] st [Hw Hl]. unfold write_text.
  destruct (is_dir _ (Path.join d p)); [exact (conj Hw Hl) |].
  destruct (is_dir _ _); simpl; [| exact (conj Hw Hl)].
  split; [exact Hw |]. simpl. rewrite lookup_store_other; [exact Hl |].
  intros H. apply join_relative_inj in H; auto.
Qed.

Lemma stable_download_file_main d c om p :
  aside p ->
  (forall q, stable (holds_main d c) (om q)) ->
  stable (holds_main d c) (download_file cfg branch om p).
Proof.
  intros Hp Hom st HI. unfold download_file.
  pose proof (stable_get_file_content cfg (holds_main d c) (holds_main_log d c)
                (holds_main_requests d c) p branch st HI) as H1.
  unfold bind at 1.
  destruct (get_file_content cfg p branch st) as [[content | e] s1]; simpl in H1;
    [| exact H1].
  destruct (truthy_text content) as [x |]; [| apply Hom; exact H1].
  unfold bind at 1, the_work_dir, bind at 1, get.
  destruct H1 as [Hw Hl]. rewrite Hw. unfold ret at 1.
  apply stable_bind; [apply stable_makedirs_main | intros _ | exact (conj Hw Hl)].
  apply stable_bind; [apply stable_write_text_aside; assumption | intros _].
  apply stable_logger, holds_main_log.
Qed.

Lemma stable_for_each_in {A} I (l : list A) (body : A -> M unit) :
  (forall x, In x l -> stable I (body x)) -> stable I (for_each l body).
Proof.
  induction l as [| x t IH]; intros Hb; simpl.
  - apply stable_ret.
  - apply stable_bind; [apply Hb; left; reflexivity | intros _].
    apply IH. intros y Hy. apply Hb; right; exact Hy.
Qed.

Lemma rebuild_without_marker content chapters :
  find BEGIN_DOC content = (-1)%Z \/ find END_DOC content = (-1)%Z ->
  rebuild content chapters = None.
Proof.
  intros H. unfold rebuild.
  destruct H as [-> | ->]; simpl; [reflexivity |].
  rewrite orb_true_r. reflexivity.
Qed.

(** With a main file that lacks a marker, [update_main_file] logs the error
    and returns [False]; the file system stays as it was. *)
Lemma update_fails s d content :
  main_file cfg = lit "main.tex" ->
  holds_main d content s ->
  truthy_dir (Some d) = Some d ->
  find BEGIN_DOC content = (-1)%Z \/ find END_DOC content = (-1)%Z ->
  fst (update_main_file cfg s) = Ok false /\ fs (snd (update_main_file cfg s)) = fs s.
Proof.
  intros Hmain [Hw Hl] Ht Hmark.
  remember (update_main_file cfg s) as r eqn:Er.
  unfold update_main_file in Er.
  unfold bind at 1, get at 1 in Er. rewrite Hw, Ht, Hmain in Er.
  assert (Hr : read_text (Path.join d (lit "main.tex")) s
               = (Ok (universal_newlines content), s)).
  { unfold read_text. rewrite Hl. reflexivity. }
  assert (Hmark' : find BEGIN_DOC (universal_newlines content) = (-1)%Z
                   \/ find END_DOC (universal_newlines content) = (-1)%Z).
  { destruct Hmark as [H | H]; [left | right];
      apply find_universal_marker; auto. }
  rewrite (try_bind_ok _ _ Hr) in Er.
  unfold try_except, bind, get, listdir, ret in Er. cbv beta iota in Er.
  destruct (path_exists (fs s) (Path.join d (lit "chapters"))); cbv beta iota in Er.
  - destruct (is_dir (fs s) (Path.join d (lit "chapters"))); cbv beta iota in Er.
    + rewrite (rebuild_without_marker _ _ Hmark') in Er. subst r. split; reflexivity.
    + subst r. split; reflexivity.
  - rewrite (rebuild_without_marker _ _ Hmark') in Er. subst r. split; reflexivity.
Qed.

Lemma work_dir_get_file_content p st :
  work_dir (snd (get_file_content cfg p branch st)) = work_dir st.
Proof.
  apply (stable_get_file_content cfg (fun s => work_dir s = work_dir st)).
  - split; intros; assumption.
  - split; intros; assumption.
  - reflexivity.
Qed.

(** When the download succeeds, the working directory holds the fetched
    master document under [main.tex]: no later file is saved over it. *)
Lemma download_holds_main st1 d content :
  main_file cfg = lit "main.tex" ->
  work_dir st1 = Some d ->
  truthy_dir (Some d) = Some d ->
  fst (get_file_content cfg (main_file cfg) branch st1) = Ok (Some content) ->
  fst (download_repository_files cfg branch st1) = Ok true ->
  holds_main d content (snd (download_repository_files cfg branch st1)).
Proof.
  intros Hmain Hw Ht Hf.
  remember (download_repository_files cfg branch st1) as r eqn:Er.
  unfold download_repository_files in Er.
  unfold bind at 1, get at 1 in Er. rewrite Hw, Ht in Er.
  unfold bind at 1, ret at 1 in Er.
  rewrite (try_bind_ok _ _ (pair_eq _ _ Hf)) in Er.
  pose proof (work_dir_get_file_content (main_file cfg) st1) as Hw2.
  rewrite Hw in Hw2.
  set (s2 := snd (get_file_content cfg (main_file cfg) branch st1)) in *.
  destruct content as [| c t]; [subst r; simpl; discriminate |].
  change (truthy_text (Some (c :: t))) with (Some (c :: t)) in Er. cbv iota in Er.
  assert (Hd : the_work_dir s2 = (Ok d, s2)).
  { unfold the_work_dir, bind, get. rewrite Hw2. reflexivity. }
  rewrite (try_bind_ok _ _ Hd) in Er. rewrite Hmain in Er.
  destruct (makedirs (Path.dirname (Path.join d (lit "main.tex"))) s2)
    as [[[] | e] s3] eqn:Em;
    [| rewrite (try_bind_raise _ _ Em) in Er; subst r; simpl; discriminate].
  rewrite (try_bind_ok _ _ Em) in Er.
  assert (Hw3 : work_dir s3 = Some d).
  { replace s3 with (snd (makedirs (Path.dirname (Path.join d (lit "main.tex"))) s2))
      by (rewrite Em; reflexivity).
    apply (stable_makedirs (fun s => work_dir s = Some d)); [| exact Hw2].
    split; intros; assumption. }
  destruct (write_text (Path.join d (lit "main.tex")) (c :: t) s3)
    as [[[] | e] s4] eqn:Ew;
    [| rewrite (try_bind_raise _ _ Ew) in Er; subst r; simpl; discriminate].
  rewrite (try_bind_ok _ _ Ew) in Er.
  assert (H4 : holds_main d (c :: t) s4).
  { unfold write_text in Ew.
    destruct (is_dir (fs s3) (Path.join d (lit "main.tex"))); [discriminate |].
    destruct (is_dir (fs s3) _); [| discriminate].
    inversion Ew; subst s4. split; [exact Hw3 |].
    simpl. apply lookup_store_same. }
  match type of Er with
  | _ = try_except ?R ?h s4 =>
      assert (HR : stable (holds_main d (c :: t)) R)
  end.
  { apply stable_bind; [| intros _].
    - apply stable_for_each_in. intros p Hp.
      apply stable_download_file_main.
      + apply in_app_or in Hp as [Hp | Hp]; [exact (aside_standard _ Hp) |].
        apply in_map_iff in Hp as (inc & <- & Hinc).
        apply aside_with_tex, (findall_include_digits _ _ Hinc).
      + intros q. apply stable_logger, holds_main_log.
    - apply stable_bind; [| intros _].
      + unfold download_all_chapters. apply stable_for_each; intros n.
        apply stable_download_file_main; [apply aside_chapter |].
        intros q; apply stable_ret.
      + apply stable_bind; [| intros _; apply stable_ret].
        unfold download_figures.
        apply stable_bind; [apply stable_logger, holds_main_log | intros _].
        apply stable_bind; [apply stable_the_work_dir | intros x].
        apply stable_makedirs_main. }
  specialize (HR s4 H4). unfold try_except in Er.
  match type of Er with
  | context [match ?R s4 with _ => _ end] => destruct (R s4) as [[b | e] s5]
  end; subst r; simpl in *; [intros _; exact HR | discriminate].
Qed.

(** C3.  A master document in which the begin-document or the end-document
    marker is absent aborts the pipeline before any external command:
    [update_main_file] returns [False] on it, [process_book] returns
    [False], and the shell is never given a command. *)
Theorem missing_marker_aborts_before_build st content :
  main_file cfg = lit "main.tex" ->
  fst (get_file_content cfg (main_file cfg) branch (snd (setup_working_directory st)))
  = Ok (Some content) ->
  find BEGIN_DOC content = (-1)%Z \/ find END_DOC content = (-1)%Z ->
  (forall s d,
      truthy_dir (work_dir s) = Some d ->
      lookup (Path.join d (main_file cfg)) (files (fs s)) = Some content ->
      fst (update_main_file cfg s) = Ok false
      /\ commands (snd (update_main_file cfg s)) = commands s)
  /\ fst (process_book cfg branch st) = Ok false
  /\ commands (snd (process_book cfg branch st)) = commands st.
Proof.
  intros Hmain Hf Hmark. split.
  { intros s d Ht Hl. split; [| apply commands_update].
    assert (Hw : work_dir s = Some d).
    { destruct (work_dir s) as [[| c t] |]; simpl in Ht; congruence. }
    rewrite Hw in Ht. rewrite Hmain in Hl.
    exact (proj1 (update_fails s d content Hmain (conj Hw Hl) Ht Hmark)). }
  destruct (setup_runs st) as (d & st1 & Hs & Hw & Ht & Hc).
  assert (E1 : snd (setup_working_directory st) = st1) by (rewrite Hs; reflexivity).
  rewrite E1 in Hf.
  destruct (download_returns cfg branch st1) as [[|] Hd].
  - pose proof (download_holds_main st1 d content Hmain Hw Ht Hf Hd) as Hm.
    destruct (update_fails _ d content Hmain Hm Ht Hmark) as [Hu _].
    pose proof (process_book_update_failed cfg branch st) as Hp.
    cbv zeta in Hp. rewrite E1 in Hp. rewrite (Hp Hd Hu).
    match goal with
    | |- context [try_except (bind (logger ERROR ?msg) _) ?h ?s] =>
        destruct (abort_path msg h s) as [Hr Hk]
    end.
    split; [exact Hr |].
    rewrite Hk, commands_update, commands_download. exact Hc.
  - pose proof (process_book_download_failed cfg branch st) as Hp.
    cbv zeta in Hp. rewrite E1 in Hp. rewrite (Hp Hd).
    match goal with
    | |- context [try_except (bind (logger ERROR ?msg) _) ?h ?s] =>
        destruct (abort_path msg h s) as [Hr Hk]
    end.
    split; [exact Hr |].
    rewrite Hk, commands_download. exact Hc.
Qed.

Lemma fs_get_file_content p st : fs (snd (get_file_content cfg p branch st)) = fs st.
Proof.
  apply (stable_get_file_content cfg (fun s => fs s = fs st)).
  - split; intros; assumption.
  - split; intros; assumption.
  - reflexivity.
Qed.

(** C10.  A master document that is in the store with empty content is
    handled as a missing one: in both cases the fetched text is falsy,
    [download_repository_files] logs that the main file was not found and
    returns [False] without writing a file, and [process_book] returns
    [False] without assembling or running a pass. *)
Theorem empty_master_document_is_missing st content :
  let st1 := snd (setup_working_directory st) in
  let fetched := get_file_content cfg (main_file cfg) branch st1 in
  fst fetched = Ok content ->
  content = None \/ content = Some [] ->
  download_repository_files cfg branch st1
  = (Ok false,
     add_log ERROR (lit "Main file " ++ main_file cfg ++ lit " not found") (snd fetched))
  /\ fs (snd (download_repository_files cfg branch st1)) = fs st1
  /\ fst (process_book cfg branch st) = Ok false
  /\ commands (snd (process_book cfg branch st)) = commands st.
Proof.
  intros st1 fetched Hf Hc.
  destruct (setup_runs st) as (d & st1' & Hs & Hw & Ht & Hcmd).
  assert (E1 : st1' = st1) by (unfold st1; rewrite Hs; reflexivity). subst st1'.
  assert (Hd : download_repository_files cfg branch st1
               = (Ok false,
                  add_log ERROR (lit "Main file " ++ main_file cfg ++ lit " not found")
                    (snd fetched))).
  { unfold download_repository_files.
    unfold bind at 1, get at 1. rewrite Hw, Ht.
    unfold bind at 1, ret at 1.
    rewrite (try_bind_ok _ _ (pair_eq _ _ Hf)).
    destruct Hc as [-> | ->]; reflexivity. }
  split; [exact Hd |]. split.
  { rewrite Hd. simpl. apply fs_get_file_content. }
  pose proof (process_book_download_failed cfg branch st) as Hp.
  cbv zeta in Hp. fold st1 in Hp. rewrite (Hp (f_equal fst Hd)).
  match goal with
  | |- context [try_except (bind (logger ERROR ?msg) _) ?h ?s] =>
        destruct (abort_path msg h s) as [Hr Hk]
  end.
  split; [exact Hr |].
  rewrite Hk, commands_download. exact Hcmd.
Qed.

End MasterDocument.

(** *** Publishing *)

Section Publishing.

Variable cfg : Config.

Lemma create_branch_after_ref st name base kv object sha st1 :
  _make_request cfg (lit "GET") (lit "/git/ref/heads/" ++ base) None [] st
  = (Ok (Some (JObj kv)), st1) ->
  lookup_key (lit "object") kv = Some (JObj object) ->
  lookup_key (lit "sha") object = Some sha ->
  create_branch cfg name base st
  = let (response, s) := http (create_ref_request cfg name sha) (store st1) in
    let st2 :=
      if (status_code response =? 403)%Z
         && match rate_limit_remaining response with
            | Some r => (r =? 0)%Z
            | None => false
            end
      then add_log WARNING (lit "GitHub API rate limit reached!")
             (sent (create_ref_request cfg name sha) s st1)
      else sent (create_ref_request cfg name sha) s st1 in
    if (400 <=? status_code response)%Z && (status_code response <? 600)%Z
    then if (status_code response =? 422)%Z
         then (Ok None,
               add_log WARNING (lit "Branch " ++ name ++ lit " already exists") st2)
         else (Raise (HTTPError (status_code response) (error_text response)), st2)
    else (Ok (body response),
          add_log INFO (lit "Created branch " ++ name ++ lit " from " ++ base) st2).
Proof.
  intros Hget Hobj Hsha. unfold create_branch.
  rewrite (bind_ok _ Hget).
  unfold getitem at 1. rewrite Hobj. unfold bind at 1, ret at 1.
  unfold getitem at 1. rewrite Hsha. unfold bind at 1, ret at 1.
  unfold try_except, bind, _make_request.
  fold (create_ref_request cfg name sha).
  destruct (http (create_ref_request cfg name sha) (store st1)) as [response s].
  destruct ((400 <=? status_code response)%Z && (status_code response <? 600)%Z);
    [| reflexivity].
  destruct (status_code response =? 422)%Z; reflexivity.
Qed.

(** C8.  Creating the output branch is idempotent.  When the store answers
    the creation request with status 422 (the branch exists),
    [create_branch] returns [None] and raises nothing; any other error
    status is raised to the caller, and so is a failure to read the base
    ref.  When the output branch is among the listed branches,
    [upload_compiled_book] sends no request after the listing, so none that
    creates a branch, and raises nothing. *)
Theorem create_branch_idempotent st name base kv object sha st1 pdf branches st' :
  _make_request cfg (lit "GET") (lit "/git/ref/heads/" ++ base) None [] st
  = (Ok (Some (JObj kv)), st1) ->
  lookup_key (lit "object") kv = Some (JObj object) ->
  lookup_key (lit "sha") object = Some sha ->
  list_branches cfg st = (Ok branches, st') ->
  existsb (is_branch (output_branch cfg)) branches = true ->
  let response := fst (http (create_ref_request cfg name sha) (store st1)) in
  (status_code response = 422%Z -> fst (create_branch cfg name base st) = Ok None)
  /\ ((400 <= status_code response < 600)%Z -> status_code response <> 422%Z ->
      fst (create_branch cfg name base st)
      = Raise (HTTPError (status_code response) (error_text response)))
  /\ (forall st0 e s,
         _make_request cfg (lit "GET") (lit "/git/ref/heads/" ++ base) None [] st0
         = (Raise e, s) ->
         fst (create_branch cfg name base st0) = Raise e)
  /\ requests (snd (upload_compiled_book cfg pdf st)) = requests st'
  /\ exists b, fst (upload_compiled_book cfg pdf st) = Ok b.
Proof.
  intros Hget Hobj Hsha Hlist Hin response.
  pose proof (create_branch_after_ref st name base kv object sha st1 Hget Hobj Hsha)
    as Hcb.
  unfold response.
  destruct (http (create_ref_request cfg name sha) (store st1)) as [resp s]; simpl.
  split; [| split; [| split; [| split]]].
  - intros H422. rewrite Hcb, H422. reflexivity.
  - intros Hrange Hne. rewrite Hcb.
    replace ((400 <=? status_code resp)%Z && (status_code resp <? 600)%Z) with true
      by (symmetry; apply andb_true_iff; split; [apply Z.leb_le | apply Z.ltb_lt]; lia).
    replace (status_code resp =? 422)%Z with false
      by (symmetry; apply Z.eqb_neq; exact Hne).
    reflexivity.
  - intros st0 e s0 Hr. unfold create_branch. rewrite (bind_raise _ Hr). reflexivity.
  - unfold upload_compiled_book.
    rewrite (try_bind_ok _ _ Hlist), Hin.
    unfold try_except, bind, ret, read_bytes, logger, modify.
    destruct (lookup pdf (files (fs st'))); reflexivity.
  - apply try_returns. intros e s0. simpl. eauto.
Qed.

Lemma stable_no_write_request st0 method endpoint data params :
  str_eqb method (lit "PUT") = false ->
  stable (no_write_since st0) (_make_request cfg method endpoint data params).
Proof.
  intros Hm st (new & Hn & Hf). unfold _make_request.
  destruct (http _ (store st)) as [response s].
  assert (H : no_write_since st0
                (sent {| req_method := method; req_url := base_url cfg ++ endpoint;
                         req_json := data; req_params := params |} s st)).
  { exists (new ++ [{| req_method := method; req_url := base_url cfg ++ endpoint;
                       req_json := data; req_params := params |}]).
    simpl. rewrite Hn, app_assoc. split; [reflexivity |].
    rewrite forallb_app, Hf. simpl. unfold is_write. simpl. rewrite Hm. reflexivity. }
  destruct (_ && _); destruct (_ && _); simpl; exact H.
Qed.

(** [upload_compiled_book] never sends a request that writes a file,
    whatever it returns. *)
Lemma upload_sends_no_write pdf st :
  no_write_since st (snd (upload_compiled_book cfg pdf st)).
Proof.
  assert (HL : ignores_log (no_write_since st)) by (split; intros; assumption).
  assert (Hs : stable (no_write_since st) (upload_compiled_book cfg pdf)).
  { unfold upload_compiled_book. apply stable_try_except.
    - apply stable_bind; [| intros bs].
      { unfold list_branches.
        apply stable_bind; [apply stable_no_write_request; reflexivity | intros v].
        apply stable_bind; [apply stable_iterate | intros items].
        apply stable_map_m; intros b. apply stable_getitem. }
      apply stable_bind.
      { destruct (existsb _ bs); [apply stable_ret |].
        apply stable_bind; [apply stable_logger; assumption | intros _].
        apply stable_bind; [| intros r; apply stable_ret].
        unfold create_branch.
        apply stable_bind; [apply stable_no_write_request; reflexivity | intros v].
        apply stable_bind; [apply stable_getitem | intros o].
        apply stable_bind; [apply stable_getitem | intros sha].
        apply stable_try_except.
        - apply stable_bind; [apply stable_no_write_request; reflexivity | intros r].
          apply stable_bind; [apply stable_logger; assumption | intros _].
          apply stable_ret.
        - intros [status msg | kind msg]; [| apply stable_raise].
          destruct (status =? 422)%Z; [| apply stable_raise].
          apply stable_bind; [apply stable_logger; assumption | intros _].
          apply stable_ret. }
      intros _.
      apply stable_bind; [apply stable_read_bytes | intros c].
      apply stable_bind; [apply stable_logger; assumption | intros _].
      apply stable_bind; [apply stable_logger; assumption | intros _].
      apply stable_ret.
    - intros e.
      apply stable_bind; [apply stable_logger; assumption | intros _].
      apply stable_ret. }
  apply Hs. exists []. rewrite app_nil_r. split; reflexivity.
Qed.

(** C7.  What [upload_compiled_book] does with the artifact: with the output
    branch listed and the PDF readable it returns [True], and has sent no
    request after the listing of the branches; the PDF it read goes nowhere,
    and no request that writes a file is ever sent. *)
Theorem upload_reports_success_without_transfer pdf st branches st' content :
  list_branches cfg st = (Ok branches, st') ->
  existsb (is_branch (output_branch cfg)) branches = true ->
  lookup pdf (files (fs st')) = Some content ->
  fst (upload_compiled_book cfg pdf st) = Ok true
  /\ requests (snd (upload_compiled_book cfg pdf st)) = requests st'
  /\ store (snd (upload_compiled_book cfg pdf st)) = store st'
  /\ no_write_since st (snd (upload_compiled_book cfg pdf st)).
Proof.
  intros Hlist Hin Hpdf.
  split; [| split; [| split]]; try apply upload_sends_no_write;
    unfold upload_compiled_book; rewrite (try_bind_ok _ _ Hlist), Hin;
    unfold try_except, bind, ret, read_bytes, logger, modify;
    rewrite Hpdf; reflexivity.
Qed.

End Publishing.


(** ** Requests of the GitHub agent *)

Section Requests.

Variable cfg : Config.

(** One call of [_make_request]: the request is sent and recorded, the
    rate-limit warning is logged for a 403 with no requests remaining, and
    the call raises for the error statuses. *)
Lemma make_request_eq method endpoint data params st :
  let rq := api_request cfg method endpoint data params in
  let response := fst (http rq (store st)) in
  let st1 := sent rq (snd (http rq (store st))) st in
  let st2 := if (status_code response =? 403)%Z
                && match rate_limit_remaining response with
                   | Some r => (r =? 0)%Z
                   | None => false
                   end
             then add_log WARNING (lit "GitHub API rate limit reached!") st1
             else st1 in
  _make_request cfg method endpoint data params st
  = (if is_error (status_code response)
     then Raise (HTTPError (status_code response) (error_text response))
     else Ok (body response), st2).
Proof.
  unfold _make_request, api_request, is_error. cbv zeta.
  destruct (http _ (store st)) as [response s]. cbn [fst snd].
  destruct ((400 <=? status_code response)%Z && (status_code response <? 600)%Z);
    reflexivity.
Qed.

Lemma make_request_requests method endpoint data params st :
  requests (snd (_make_request cfg method endpoint data params st))
  = requests st ++ [api_request cfg method endpoint data params].
Proof.
  rewrite make_request_eq. cbn [snd].
  destruct (_ && _); reflexivity.
Qed.

(** What follows a request in [get_file_content] sends nothing. *)
Lemma get_file_content_requests file_path branch st :
  requests (snd (get_file_content cfg file_path branch st))
  = requests st ++ [content_request cfg file_path branch].
Proof.
  set (rq := content_request cfg file_path branch).
  set (I := fun s : State => requests s = requests st ++ [rq]).
  assert (HL : ignores_log I) by (split; intros; assumption).
  assert (Hh : forall e : exn,
             stable I (match e with
                       | HTTPError status _ =>
                           if (status =? 404)%Z
                           then logger WARNING (lit "File " ++ file_path
                                                ++ lit " not found on branch " ++ branch) ;;;
                                ret None
                           else raise e
                       | Error _ _ => raise e
                       end : M (option str))).
  { intros [status msg | kind msg]; [| apply stable_raise].
    destruct (status =? 404)%Z; [| apply stable_raise].
    apply stable_bind; [apply stable_logger; assumption | intros _; apply stable_ret]. }
  pose proof (make_request_requests (lit "GET") (lit "/contents/" ++ file_path) None
                [(lit "ref", branch)] st) as Hr.
  unfold get_file_content.
  destruct (_make_request cfg (lit "GET") (lit "/contents/" ++ file_path) None
              [(lit "ref", branch)] st) as [[v | e] s] eqn:E; cbn [snd] in Hr.
  - rewrite (try_bind_ok _ _ E).
    apply (stable_try_except I); [| exact Hh | exact Hr].
    apply stable_bind; [apply stable_getitem | intros c].
    apply stable_bind; [apply stable_decode_content | intros t].
    apply stable_bind; [apply stable_logger; assumption | intros _; apply stable_ret].
  - rewrite (try_bind_raise _ _ E). apply (Hh e). exact Hr.
Qed.

(** X4.  [get_file_content] sends one request, also when it raises.  A 404
    is answered with [None]; any other error status is raised; a reply
    without a [content] entry raises [KeyError], and an empty reply
    [TypeError]: neither is taken as a missing file. *)
Theorem get_file_content_outcomes file_path branch st :
  let response := fst (http (content_request cfg file_path branch) (store st)) in
  let r := get_file_content cfg file_path branch st in
  requests (snd r) = requests st ++ [content_request cfg file_path branch]
  /\ (status_code response = 404%Z -> fst r = Ok None)
  /\ (is_error (status_code response) = true -> status_code response <> 404%Z ->
      fst r = Raise (HTTPError (status_code response) (error_text response)))
  /\ (is_error (status_code response) = false ->
      (forall kv s c,
          body response = Some (JObj kv) ->
          lookup_key (lit "content") kv = Some (JStr s) ->
          b64decode_utf8 s = Ok c -> fst r = Ok (Some c))
      /\ (forall kv s kind msg,
             body response = Some (JObj kv) ->
             lookup_key (lit "content") kv = Some (JStr s) ->
             b64decode_utf8 s = Raise (Error kind msg) -> fst r = Raise (Error kind msg))
      /\ (forall kv,
             body response = Some (JObj kv) ->
             lookup_key (lit "content") kv = None ->
             fst r = Raise (Error (lit "KeyError") (lit "content")))
      /\ (body response = None ->
          fst r = Raise (Error (lit "TypeError")
                          (lit "object is not subscriptable by a string")))).
Proof.
  intros response r. split; [apply get_file_content_requests |].
  unfold r, get_file_content, try_except, bind.
  rewrite make_request_eq. fold (content_request cfg file_path branch). fold response.
  split; [| split].
  - intros H. rewrite H. reflexivity.
  - intros He Hn. rewrite He. cbn.
    replace (status_code response =? 404)%Z with false
      by (symmetry; apply Z.eqb_neq; exact Hn).
    reflexivity.
  - intros He. rewrite He. unfold getitem, decode_content, lift.
    split; [| split; [| split]].
    + intros kv s c Hb Hk Hd. rewrite Hb, Hk. cbn. rewrite Hd. reflexivity.
    + intros kv s kind msg Hb Hk Hd. rewrite Hb, Hk. cbn. rewrite Hd. reflexivity.
    + intros kv Hb Hk. rewrite Hb, Hk. reflexivity.
    + intros Hb. rewrite Hb. reflexivity.
Qed.

Lemma make_request_store method endpoint data params st :
  store (snd (_make_request cfg method endpoint data params st))
  = snd (http (api_request cfg method endpoint data params) (store st)).
Proof.
  rewrite make_request_eq. cbn [snd].
  destruct (_ && _); reflexivity.
Qed.

(** X5.  [create_or_update_file] encodes its content as text: a [bytes]
    content raises [AttributeError] before any request is sent.  Creating a
    file sends one PUT request with the encoded text and no [sha].  Updating
    a file whose lookup raises (a 404 for a file that does not exist is one
    such case) raises the same exception and sends no PUT; when the lookup
    gives a [sha], the PUT carries it. *)
Theorem create_or_update_file_requests file_path message branch st :
  let data (content : str) :=
    [(lit "message", JStr message);
     (lit "content", JStr (b64encode_utf8 content));
     (lit "branch", JStr branch);
     (lit "committer",
      JObj [(lit "name", JStr (agent_name cfg));
            (lit "email", JStr (lower (agent_name cfg) ++ lit "@example.com"))])] in
  let put d := api_request cfg (lit "PUT") (lit "/contents/" ++ file_path)
                 (Some (JObj d)) [] in
  (forall b update,
      create_or_update_file cfg file_path (Bytes b) message branch update st
      = (Raise (Error (lit "AttributeError")
                  (lit "'bytes' object has no attribute 'encode'")), st))
  /\ (forall content,
         requests (snd (create_or_update_file cfg file_path (Text content) message
                          branch false st))
         = requests st ++ [put (data content)])
  /\ (forall content e st1,
         _make_request cfg (lit "GET") (lit "/contents/" ++ file_path) None
           [(lit "ref", branch)] st = (Raise e, st1) ->
         create_or_update_file cfg file_path (Text content) message branch true st
         = (Raise e, st1)
         /\ requests st1 = requests st ++ [content_request cfg file_path branch])
  /\ (forall content k v kv sha st1,
         _make_request cfg (lit "GET") (lit "/contents/" ++ file_path) None
           [(lit "ref", branch)] st = (Ok (Some (JObj ((k, v) :: kv))), st1) ->
         lookup_key (lit "sha") ((k, v) :: kv) = Some sha ->
         requests (snd (create_or_update_file cfg file_path (Text content) message
                          branch true st))
         = requests st ++ [content_request cfg file_path branch;
                           put (data content ++ [(lit "sha", sha)])]).
Proof.
  intros data put. split; [| split; [| split]].
  - intros b update. reflexivity.
  - intros content. unfold create_or_update_file, bind, ret. cbv beta iota.
    pose proof (make_request_requests (lit "PUT") (lit "/contents/" ++ file_path)
                  (Some (JObj (data content))) [] st) as Hr.
    fold (data content).
    destruct (_make_request cfg (lit "PUT") (lit "/contents/" ++ file_path)
                (Some (JObj (data content))) [] st) as [[v | e] s]; exact Hr.
  - intros content e st1 Hget. split.
    + unfold create_or_update_file, bind, ret. cbv beta iota. rewrite Hget. reflexivity.
    + pose proof (make_request_requests (lit "GET") (lit "/contents/" ++ file_path) None
                    [(lit "ref", branch)] st) as Hr.
      rewrite Hget in Hr. exact Hr.
  - intros content k v kv sha st1 Hget Hsha.
    pose proof (make_request_requests (lit "GET") (lit "/contents/" ++ file_path) None
                  [(lit "ref", branch)] st) as Hr.
    rewrite Hget in Hr. cbn [snd] in Hr.
    unfold create_or_update_file, bind, ret. cbv beta iota. rewrite Hget.
    cbn [truthy_json]. unfold getitem. rewrite Hsha. unfold ret. cbv beta iota.
    fold (data content).
    pose proof (make_request_requests (lit "PUT") (lit "/contents/" ++ file_path)
                  (Some (JObj (data content ++ [(lit "sha", sha)]))) [] st1) as Hp.
    destruct (_make_request cfg (lit "PUT") (lit "/contents/" ++ file_path)
                (Some (JObj (data content ++ [(lit "sha", sha)]))) [] st1)
      as [[w | e] s]; cbn [snd] in Hp |- *;
      unfold logger, modify; cbn [snd requests add_log];
      rewrite Hp, Hr, <- app_assoc; reflexivity.
Qed.

(** The names of a list of branch objects. *)
Lemma map_m_names items names st :
  Forall2 (fun item n => exists kv, item = JObj kv /\ lookup_key (lit "name") kv = Some n)
    items names ->
  map_m (fun branch => getitem (Some branch) (lit "name")) items st = (Ok names, st).
Proof.
  induction 1 as [| item n items names (kv & -> & Hn) _ IH]; [reflexivity |].
  cbn [map_m]. unfold bind at 1. unfold getitem at 1. rewrite Hn. unfold ret at 1.
  unfold bind. rewrite IH. reflexivity.
Qed.

Lemma map_m_nameless before kv after names st :
  Forall2 (fun item n => exists kv, item = JObj kv /\ lookup_key (lit "name") kv = Some n)
    before names ->
  lookup_key (lit "name") kv = None ->
  map_m (fun branch => getitem (Some branch) (lit "name")) (before ++ JObj kv :: after) st
  = (Raise (Error (lit "KeyError") (lit "name")), st).
Proof.
  intros H Hk. induction H as [| item n items names (kv' & -> & Hn) _ IH].
  - cbn [app map_m]. unfold bind, getitem. rewrite Hk. reflexivity.
  - cbn [app map_m]. unfold bind at 1. unfold getitem at 1. rewrite Hn. unfold ret at 1.
    unfold bind. rewrite IH. reflexivity.
Qed.

(** X6.  [list_branches] returns the [name] of every entry of the reply, in
    the order of the reply; an entry without a name raises [KeyError], and
    the names before it are dropped. *)
Theorem list_branches_names st items :
  let response := fst (http (api_request cfg (lit "GET") (lit "/branches") None [])
                         (store st)) in
  is_error (status_code response) = false ->
  body response = Some (JArr items) ->
  (forall names,
      Forall2 (fun item n => exists kv, item = JObj kv
                                        /\ lookup_key (lit "name") kv = Some n)
        items names ->
      fst (list_branches cfg st) = Ok names)
  /\ (forall before kv after names,
         items = before ++ JObj kv :: after ->
         Forall2 (fun item n => exists kv, item = JObj kv
                                           /\ lookup_key (lit "name") kv = Some n)
           before names ->
         lookup_key (lit "name") kv = None ->
         fst (list_branches cfg st) = Raise (Error (lit "KeyError") (lit "name"))).
Proof.
  intros response He Hb. unfold list_branches, bind.
  rewrite make_request_eq. fold response. rewrite He, Hb. cbn [iterate].
  split.
  - intros names H. unfold ret. cbv beta iota.
    rewrite (map_m_names _ _ _ H). reflexivity.
  - intros before kv after names -> H Hk. unfold ret. cbv beta iota.
    rewrite (map_m_nameless _ _ _ _ _ H Hk). reflexivity.
Qed.

(** X7.  [create_pull_request] sends one POST request with the four fields,
    whatever comes of it.  When the store accepts it and the reply has no
    [number], the call raises [KeyError] although the request went through;
    an error status is raised as [HTTPError]. *)
Theorem create_pull_request_outcomes title body_text head_branch base_branch st :
  let rq := api_request cfg (lit "POST") (lit "/pulls")
              (Some (JObj [(lit "title", JStr title); (lit "body", JStr body_text);
                           (lit "head", JStr head_branch);
                           (lit "base", JStr base_branch)])) [] in
  let response := fst (http rq (store st)) in
  let r := create_pull_request cfg title body_text head_branch base_branch st in
  requests (snd r) = requests st ++ [rq]
  /\ store (snd r) = snd (http rq (store st))
  /\ (is_error (status_code response) = true ->
      fst r = Raise (HTTPError (status_code response) (error_text response)))
  /\ (is_error (status_code response) = false ->
      forall kv, body response = Some (JObj kv) ->
      (forall n, lookup_key (lit "number") kv = Some n -> fst r = Ok (Some (JObj kv)))
      /\ (lookup_key (lit "number") kv = None ->
          fst r = Raise (Error (lit "KeyError") (lit "number")))).
Proof.
  intros rq response r.
  pose proof (make_request_requests (lit "POST") (lit "/pulls") (req_json rq) [] st) as Hr.
  pose proof (make_request_store (lit "POST") (lit "/pulls") (req_json rq) [] st) as Hs.
  unfold r, create_pull_request, bind.
  change (JObj [(lit "title", JStr title); (lit "body", JStr body_text);
                (lit "head", JStr head_branch); (lit "base", JStr base_branch)])
    with (match req_json rq with Some j => j | None => JNull end).
  change (Some (match req_json rq with Some j => j | None => JNull end))
    with (req_json rq).
  rewrite (make_request_eq (lit "POST") (lit "/pulls") (req_json rq) [] st) in *.
  change (api_request cfg (lit "POST") (lit "/pulls") (req_json rq) []) with rq in *.
  fold response in Hr, Hs |- *. cbn [snd] in Hr, Hs.
  destruct (is_error (status_code response)).
  - repeat split; try assumption; try discriminate.
  - split; [| split; [| split; [discriminate |]]].
    + unfold getitem. destruct (body response) as [[| | | | | kv] |]; try exact Hr.
      destruct (lookup_key (lit "number") kv); exact Hr.
    + unfold getitem. destruct (body response) as [[| | | | | kv] |]; try exact Hs.
      destruct (lookup_key (lit "number") kv); exact Hs.
    + intros _ kv Hb. rewrite Hb. unfold getitem. split.
      * intros n Hn. rewrite Hn. reflexivity.
      * intros Hn. rewrite Hn. reflexivity.
Qed.

(** X8.  [create_file_comment] looks the pull request up before it comments:
    when the lookup raises, no comment is sent.  A line number [0] is not
    taken as a line: the call is the one without line number.  For another
    line number the comment request carries the commit of the head, the line
    and the side [RIGHT]. *)
Theorem create_file_comment_requests pr_number file_path comment st :
  let lookup_rq := api_request cfg (lit "GET") (lit "/pulls/" ++ str_of_Z pr_number)
                     None [] in
  let comment_rq d := api_request cfg (lit "POST")
                        (lit "/pulls/" ++ str_of_Z pr_number ++ lit "/comments")
                        (Some (JObj d)) [] in
  create_file_comment cfg pr_number file_path comment (Some 0%Z) st
  = create_file_comment cfg pr_number file_path comment None st
  /\ (forall line e st1,
         _make_request cfg (lit "GET") (lit "/pulls/" ++ str_of_Z pr_number) None [] st
         = (Raise e, st1) ->
         create_file_comment cfg pr_number file_path comment line st = (Raise e, st1)
         /\ requests st1 = requests st ++ [lookup_rq])
  /\ (forall l kv head sha st1,
         l <> 0%Z ->
         _make_request cfg (lit "GET") (lit "/pulls/" ++ str_of_Z pr_number) None [] st
         = (Ok (Some (JObj kv)), st1) ->
         lookup_key (lit "head") kv = Some (JObj head) ->
         lookup_key (lit "sha") head = Some sha ->
         requests (snd (create_file_comment cfg pr_number file_path comment (Some l) st))
         = requests st
             ++ [lookup_rq;
                 comment_rq [(lit "body", JStr comment); (lit "path", JStr file_path);
                             (lit "commit_id", sha); (lit "line", JNum l);
                             (lit "side", JStr (lit "RIGHT"))]]).
Proof.
  intros lookup_rq comment_rq. split; [reflexivity |]. split.
  - intros line e st1 Hget. split.
    + unfold create_file_comment, bind. rewrite Hget. reflexivity.
    + pose proof (make_request_requests (lit "GET") (lit "/pulls/" ++ str_of_Z pr_number)
                    None [] st) as Hr.
      rewrite Hget in Hr. exact Hr.
  - intros l kv head sha st1 Hl Hget Hhead Hsha.
    pose proof (make_request_requests (lit "GET") (lit "/pulls/" ++ str_of_Z pr_number)
                  None [] st) as Hr.
    rewrite Hget in Hr. cbn [snd] in Hr.
    unfold create_file_comment, bind. rewrite Hget.
    unfold getitem. rewrite Hhead. unfold ret at 1. cbv beta iota. rewrite Hsha.
    unfold ret at 1. cbv beta iota.
    replace (l =? 0)%Z with false by (symmetry; apply Z.eqb_neq; exact Hl).
    cbn [app].
    match goal with
    | |- context [_make_request cfg ?m ?e ?d ?p st1] =>
        pose proof (make_request_requests m e d p st1) as Hp;
        destruct (_make_request cfg m e d p st1) as [[w | err] s]
    end; cbn [snd] in Hp |- *; unfold logger, modify, ret; cbn [snd requests add_log];
      rewrite Hp, Hr, <- app_assoc; reflexivity.
Qed.

End Requests.

(** ** Steps of the compiler agent *)

Section BuildFrame.

Variable cfg : Config.
Variable I : State -> Prop.
Hypothesis HL : ignores_log I.
Hypothesis HF : ignores_fs I.
Hypothesis HC : ignores_cwd I.
Hypothesis HR : ignores_commands I.

(** What does not depend on the log, the files, the current directory and
    the commands run is kept by [compile_book]. *)
Lemma stable_compile_book : stable I (compile_book cfg).
Proof.
  unfold compile_book, terminal_check, compilation_failed.
  repeat first
    [ apply stable_ret | apply stable_raise | apply stable_lift | apply stable_get
    | apply stable_logger; assumption
    | apply stable_chdir; assumption
    | apply stable_subprocess_run; assumption
    | apply stable_bind; [| intros ?]
    | apply stable_try_except; [| intros ?]
    | apply stable_for_each; intros ?; unfold resolution_pass
    | match goal with
      | |- stable _ (match ?x with _ => _ end) => destruct x
      end ].
Qed.

End BuildFrame.

Section Steps.

Variable cfg : Config.
Variable branch : str.

(** X9.  Of the steps of the pipeline only the build gives commands to the
    shell: setting up, downloading, assembling, uploading and cleaning up
    run none. *)
Theorem only_the_build_runs_commands pdf st :
  commands (snd (setup_working_directory st)) = commands st
  /\ commands (snd (download_repository_files cfg branch st)) = commands st
  /\ commands (snd (update_main_file cfg st)) = commands st
  /\ commands (snd (upload_compiled_book cfg pdf st)) = commands st
  /\ commands (snd (cleanup_working_directory st)) = commands st.
Proof.
  destruct (ran_only_quiet (commands st)) as (HL & HF & HC & HW & HR).
  split; [reflexivity |].
  split; [apply commands_download |].
  split; [apply commands_update |].
  split.
  - pose proof (stable_upload_compiled_book cfg (ran_only (commands st))) as H.
    apply H; try assumption. reflexivity.
  - pose proof (stable_cleanup (ran_only (commands st))) as H.
    apply H; try assumption. reflexivity.
Qed.

(** X10.  The build talks to the shell and the local files only: it sends no
    request, leaves the store as it is, and keeps [self.work_dir]. *)
Theorem compile_book_sends_no_request st :
  requests (snd (compile_book cfg st)) = requests st
  /\ store (snd (compile_book cfg st)) = store st
  /\ work_dir (snd (compile_book cfg st)) = work_dir st.
Proof.
  set (I := fun s : State =>
              requests s = requests st /\ store s = store st /\ work_dir s = work_dir st).
  assert (H : I (snd (compile_book cfg st))).
  { apply (stable_compile_book cfg I); try (split; intros; assumption).
    repeat split. }
  exact H.
Qed.






(** The files and directories that [shutil.rmtree] leaves. *)
Lemma lookup_remove_tree d p l :
  lookup p (filter (fun e : str * str => negb (below d (fst e))) l)
  = if below d p then None else lookup p l.
Proof.
  induction l as [| [q c] t IH]; [destruct (below d p); reflexivity |].
  cbn [filter fst lookup].
  destruct (str_eqb p q) eqn:E.
  - apply str_eqb_eq in E. subst q.
    destruct (below d p) eqn:B; cbn [negb].
    + exact IH.
    + cbn [lookup]. rewrite str_eqb_refl. reflexivity.
  - destruct (below d q); cbn [negb]; [exact IH |].
    cbn [lookup]. rewrite E. exact IH.
Qed.

Lemma is_dir_remove_tree d p l :
  existsb (str_eqb p) (filter (fun q => negb (below d q)) l)
  = if below d p then false else existsb (str_eqb p) l.
Proof.
  induction l as [| q t IH]; [destruct (below d p); reflexivity |].
  cbn [filter existsb].
  destruct (str_eqb p q) eqn:E.
  - apply str_eqb_eq in E. subst q.
    destruct (below d p) eqn:B; cbn [negb].
    + exact IH.
    + cbn [existsb]. rewrite str_eqb_refl. reflexivity.
  - destruct (below d q); cbn [negb]; [exact IH |].
    cbn [existsb]. rewrite E. exact IH.
Qed.

Lemma path_exists_remove_tree d p f :
  path_exists (remove_tree d f) p = if below d p then false else path_exists f p.
Proof.
  unfold path_exists, is_file, is_dir, remove_tree. cbn [files dirs].
  rewrite lookup_remove_tree, is_dir_remove_tree.
  destruct (below d p); reflexivity.
Qed.

Lemma below_self d : below d d = true.
Proof. unfold below. rewrite str_eqb_refl. reflexivity. Qed.

(** X14.  [cleanup_working_directory] does nothing when [self.work_dir] is
    unset or names nothing on disk (it then stays set).  When it names a
    directory, the call unsets it and removes the directory with all that
    is below it; every other file and directory is kept, and a second call
    changes nothing. *)
Theorem cleanup_removes_the_working_tree st :
  let st' := snd (cleanup_working_directory st) in
  (truthy_dir (work_dir st) = None
   \/ (exists d, truthy_dir (work_dir st) = Some d /\ path_exists (fs st) d = false) ->
   cleanup_working_directory st = (Ok tt, st))
  /\ (forall d,
         truthy_dir (work_dir st) = Some d -> is_dir (fs st) d = true ->
         work_dir st' = None
         /\ (forall p, below d p = true -> path_exists (fs st') p = false)
         /\ (forall p, below d p = false ->
                lookup p (files (fs st')) = lookup p (files (fs st))
                /\ is_dir (fs st') p = is_dir (fs st) p)
         /\ cleanup_working_directory st' = (Ok tt, st')).
Proof.
  intros st'. split.
  - unfold cleanup_working_directory, bind, get.
    intros [H | (d & H & P)]; rewrite H; [reflexivity |].
    rewrite P. reflexivity.
  - intros d H D.
    assert (P : path_exists (fs st) d = true).
    { unfold path_exists. rewrite D. apply orb_true_r. }
    assert (E : st' = add_log INFO (lit "Cleaned up working directory")
                        (set_work_dir None (set_fs (remove_tree d (fs st)) st))).
    { unfold st', cleanup_working_directory, bind, get. rewrite H, P. reflexivity. }
    rewrite E. cbn [work_dir fs add_log set_work_dir set_fs].
    split; [reflexivity |]. split; [| split].
    + intros p B. rewrite path_exists_remove_tree, B. reflexivity.
    + intros p B. unfold remove_tree at 1. cbn [files].
      rewrite lookup_remove_tree, B. split; [reflexivity |].
      unfold is_dir, remove_tree. cbn [dirs]. rewrite is_dir_remove_tree, B. reflexivity.
    + reflexivity.
Qed.

Lemma filter_all {A} (f : A -> bool) l :
  (forall x, In x l -> f x = true) -> filter f l = l.
Proof.
  induction l as [| x t IH]; intros H; [reflexivity |].
  cbn [filter]. rewrite (H x (or_introl eq_refl)). f_equal.
  apply IH. intros y Hy. apply H. right. exact Hy.
Qed.

(** X15.  Setting up and cleaning up is a round trip on the local files:
    when nothing was at or below the name [mkdtemp] picks, the file system
    is afterwards what it was, and [self.work_dir] is unset. *)
Theorem setup_then_cleanup_restores_files st :
  let d := Path.join tmpdir (lit "mathbook_compiler_" ++ tmp_suffix (fs st)) in
  (forall p, In p (map fst (files (fs st)) ++ dirs (fs st)) -> below d p = false) ->
  let st2 := snd (cleanup_working_directory (snd (setup_working_directory st))) in
  fs st2 = fs st /\ work_dir st2 = None /\ cwd st2 = cwd st.
Proof.
  intros d Hfresh st2.
  assert (Hne : truthy_dir (Some d) = Some d).
  { apply truthy_nonempty, join_nonempty. discriminate. }
  assert (Hnot : is_dir (fs st) d = false).
  { unfold is_dir. destruct (existsb (str_eqb d) (dirs (fs st))) eqn:E; [| reflexivity].
    apply existsb_exists in E as (q & Hq & E). apply str_eqb_eq in E. subst q.
    rewrite <- (Hfresh d), below_self; [reflexivity |].
    apply in_or_app. right. exact Hq. }
  assert (Hadd : add_dir d (fs st)
                 = {| files := files (fs st); dirs := dirs (fs st) ++ [d] |}).
  { unfold add_dir. rewrite Hnot. reflexivity. }
  assert (Hex : path_exists (add_dir d (fs st)) d = true).
  { rewrite Hadd. unfold path_exists, is_dir. cbn [dirs].
    rewrite existsb_app. cbn [existsb]. rewrite str_eqb_refl.
    rewrite !orb_true_r. reflexivity. }
  assert (E : cleanup_working_directory (snd (setup_working_directory st))
              = (Ok tt,
                 add_log INFO (lit "Cleaned up working directory")
                   (set_work_dir None
                      (set_fs (remove_tree d (add_dir d (fs st)))
                         (snd (setup_working_directory st)))))).
  { unfold cleanup_working_directory, bind, get.
    change (work_dir (snd (setup_working_directory st))) with (Some d).
    rewrite Hne.
    change (fs (snd (setup_working_directory st))) with (add_dir d (fs st)).
    rewrite Hex. reflexivity. }
  unfold st2. rewrite E. cbn [snd fs work_dir cwd add_log set_work_dir set_fs].
  split; [| split; reflexivity].
  rewrite Hadd. unfold remove_tree. cbn [files dirs].
  rewrite filter_app. cbn [filter]. rewrite below_self. cbn [negb].
  rewrite app_nil_r, !filter_all.
  - destruct (fs st); reflexivity.
  - intros q Hq. rewrite Hfresh; [reflexivity |]. apply in_or_app. right. exact Hq.
  - intros [q c] Hq. cbn [fst]. rewrite Hfresh; [reflexivity |].
    apply in_or_app. left. apply in_map_iff. exists (q, c). split; [reflexivity | exact Hq].
Qed.

(** X16.  [update_main_file] writes all or nothing: either it returns
    [False] and the local files are untouched, or it returns [True] and the
    one change is that the main file holds the text reconstructed from what
    was read of it (in text mode, so with [\r\n] and [\r] read as [\n]) and
    from the chapters listed in [chapters]. *)
Theorem update_main_file_all_or_nothing st :
  let r := update_main_file cfg st in
  (fst r = Ok false /\ fs (snd r) = fs st)
  \/ (exists d content new_content,
         truthy_dir (work_dir st) = Some d
         /\ lookup (Path.join d (main_file cfg)) (files (fs st)) = Some content
         /\ assemble (universal_newlines content)
              (if path_exists (fs st) (Path.join d (lit "chapters"))
               then entries (fs st) (Path.join d (lit "chapters")) else [])
            = Some new_content
         /\ fst r = Ok true
         /\ fs (snd r) = put_file (Path.join d (main_file cfg)) new_content (fs st)).
Proof.
  intros r. unfold r. clear r.
  destruct (update_main_file cfg st) as [res s] eqn:E. cbn [fst snd].
  unfold update_main_file, bind, get in E.
  assert (Hleft : forall msg,
             (logger ERROR msg ;;; ret false) st = (res, s) ->
             res = Ok false /\ fs s = fs st).
  { intros msg H. unfold logger, modify, ret, bind in H. cbn in H.
    injection H as <- <-. split; reflexivity. }
  destruct (truthy_dir (work_dir st)) as [d |] eqn:Hd; [| left; exact (Hleft _ E)].
  unfold try_except, read_text in E.
  destruct (lookup (Path.join d (main_file cfg)) (files (fs st))) as [content |] eqn:Hc;
    [| left; exact (Hleft _ E)].
  assert (Hwrite : forall listing,
             match rebuild (universal_newlines content) (available_chapters listing) with
             | Some new_content =>
                 try_except
                   (write_text (Path.join d (main_file cfg)) new_content ;;;
                    logger INFO (lit "Updated main file to include "
                                 ++ str_of_Z (Z.of_nat (length (available_chapters listing)))
                                 ++ lit " chapters") ;;;
                    ret true)
                   (fun e => logger ERROR (lit "Error updating main file: " ++ exn_str e) ;;;
                             ret false) st
             | None =>
                 (logger ERROR (lit "Could not find document environment in main file") ;;;
                  ret false) st
             end = (res, s) ->
             (res = Ok false /\ fs s = fs st)
             \/ exists new_content,
                  rebuild (universal_newlines content) (available_chapters listing) = Some new_content
                  /\ res = Ok true
                  /\ fs s = put_file (Path.join d (main_file cfg)) new_content (fs st)).
  { intros listing H.
    destruct (rebuild (universal_newlines content) (available_chapters listing)) as [new_content |];
      [| left; exact (Hleft _ H)].
    unfold try_except, bind, write_text in H.
    destruct (is_dir (fs st) (Path.join d (main_file cfg))); [left; exact (Hleft _ H) |].
    destruct (is_dir (fs st) (Path.dirname (Path.join d (main_file cfg))));
      [| left; exact (Hleft _ H)].
    unfold logger, modify, ret in H. cbn in H. injection H as <- <-.
    right. exists new_content. repeat split. }
  unfold assemble.
  destruct (path_exists (fs st) (Path.join d (lit "chapters"))) eqn:Hp.
  - unfold listdir in E.
    destruct (is_dir (fs st) (Path.join d (lit "chapters")));
      [| left; exact (Hleft _ E)].
    destruct (Hwrite (entries (fs st) (Path.join d (lit "chapters")))) as [H | (n & H1 & H2)].
    + cbv beta iota in E.
      destruct (rebuild (universal_newlines content)
                  (available_chapters (entries (fs st) (Path.join d (lit "chapters")))));
        exact E.
    + left; exact H.
    + right. exists d, content, n. rewrite Hp. tauto.
  - destruct (Hwrite []) as [H | (n & H1 & H2)].
    + unfold ret at 1 in E. cbv beta iota in E.
      destruct (rebuild (universal_newlines content) (available_chapters [])); exact E.
    + left; exact H.
    + right. exists d, content, n. rewrite Hp. tauto.
Qed.

End Steps.

(** ** What the download asks the store for *)

Section Probes.

Variable cfg : Config.
Variable branch : str.

(** [download_file] sends the one request for its file, whatever happens
    to the answer. *)
Lemma download_file_requests (on_missing : str -> M unit) file_path st :
  (forall q s, requests (snd (on_missing q s)) = requests s) ->
  requests (snd (download_file cfg branch on_missing file_path st))
  = requests st ++ [content_request cfg file_path branch].
Proof.
  intros Hom.
  set (I := fun s : State =>
              requests s = requests st ++ [content_request cfg file_path branch]).
  assert (HL : ignores_log I) by (split; intros; assumption).
  assert (HF : ignores_fs I) by (split; intros; assumption).
  pose proof (get_file_content_requests cfg file_path branch st) as Hr.
  unfold download_file, bind.
  destruct (get_file_content cfg file_path branch st) as [[c | e] s]; cbn [snd] in Hr;
    [| exact Hr].
  destruct (truthy_text c) as [t |].
  - assert (Hs : stable I
                   (d <- the_work_dir ;;
                    makedirs (Path.dirname (Path.join d file_path)) ;;;
                    write_text (Path.join d file_path) t ;;;
                    logger INFO (lit "Downloaded " ++ file_path))).
    { apply stable_bind; [| intros d].
      { unfold the_work_dir. apply stable_bind; [apply stable_get | intros w].
        destruct w; [apply stable_ret | apply stable_raise]. }
      apply stable_bind; [apply stable_makedirs; assumption | intros _].
      apply stable_bind; [apply stable_write_text; assumption | intros _].
      apply stable_logger; assumption. }
    exact (Hs s Hr).
  - unfold I in Hr. rewrite Hom. exact Hr.
Qed.

(** A loop whose body sends one request each time sends the requests of a
    prefix of its list: all of them when it returns. *)
Lemma for_each_requests {A} (rq : A -> Request) (body : A -> M unit) l st :
  (forall x s, requests (snd (body x s)) = requests s ++ [rq x]) ->
  exists k,
    k <= length l
    /\ requests (snd (for_each l body st)) = requests st ++ map rq (firstn k l)
    /\ (fst (for_each l body st) = Ok tt -> k = length l).
Proof.
  intros Hbody. revert st. induction l as [| x t IH]; intros st.
  - exists 0. cbn. rewrite app_nil_r. auto.
  - cbn [for_each]. unfold bind. specialize (Hbody x st).
    destruct (body x st) as [[u | e] s]; cbn [snd] in Hbody.
    + destruct (IH s) as (k & Hk & Hr & Hok).
      exists (S k). cbn [length firstn map]. split; [lia |]. split.
      * rewrite Hr, Hbody, <- app_assoc. reflexivity.
      * intros H. rewrite (Hok H). reflexivity.
    + exists 1. cbn [length firstn map fst snd]. split; [lia |]. split.
      * destruct t; exact Hbody.
      * discriminate.
Qed.

Lemma firstn_seq_min k start len :
  firstn k (seq start len) = seq start (Nat.min k len).
Proof.
  revert start len; induction k as [| k IH]; intros start [| len]; try reflexivity.
  cbn [seq firstn Nat.min]. rewrite IH. reflexivity.
Qed.

(** X17.  [download_all_chapters] asks for the chapters 1 to 20 in this
    order, one request each, and stops at the first request that raises: the
    requests it sends are those for the chapters 1 to [k] for some [k] up
    to 20, and for all 20 when it returns.  No chapter above 20 is asked
    for. *)
Theorem download_all_chapters_probes st :
  let probe (n : nat) :=
    content_request cfg (lit "chapters/chapter" ++ str_of_Z (Z.of_nat n) ++ lit ".tex")
      branch in
  exists k,
    k <= 20
    /\ requests (snd (download_all_chapters cfg branch st))
       = requests st ++ map probe (seq 1 k)
    /\ (fst (download_all_chapters cfg branch st) = Ok tt -> k = 20).
Proof.
  intros probe. unfold download_all_chapters.
  destruct (for_each_requests
              (fun n => content_request cfg
                          (lit "chapters/chapter" ++ str_of_Z n ++ lit ".tex") branch)
              (fun chapter_num =>
                 download_file cfg branch (fun _ => ret tt)
                   (lit "chapters/chapter" ++ str_of_Z chapter_num ++ lit ".tex"))
              (map (fun n => Z.of_nat n) (seq 1 20)) st) as (k & Hk & Hr & Hok).
  { intros n s. apply download_file_requests. reflexivity. }
  rewrite length_map, length_seq in Hk, Hok.
  exists k. split; [exact Hk |]. split; [| exact Hok].
  rewrite Hr, firstn_map, firstn_seq_min, map_map.
  replace (Nat.min k 20) with k by lia. reflexivity.
Qed.

Lemma findall_include_fuel_digits f s n :
  In n (findall_include_fuel f s) -> n <> [] /\ forallb is_digit n = true.
Proof.
  revert s; induction f as [| f IH]; intros s; cbn [findall_include_fuel];
    [intros [] |].
  destruct s as [| c t]; [intros [] |].
  destruct (match_include (c :: t)) as [[d rest] |] eqn:E; [| apply IH].
  intros [<- | H]; [| exact (IH _ H)].
  unfold match_include, match_digits_between in E.
  destruct (strip_prefix _ (c :: t)) as [s1 |]; [| discriminate].
  destruct (span_digits s1) as [d' s2] eqn:Sp.
  destruct d' as [| x d'']; [discriminate |].
  destruct (strip_prefix (lit "}") s2); [| discriminate].
  injection E as <- <-. apply span_digits_sound in Sp as [_ Hd].
  split; [discriminate | exact Hd].
Qed.

Lemma endswith_tex_digits n : forallb is_digit n = true -> endswith (lit ".tex") n = false.
Proof.
  intros H. rewrite <- forallb_rev in H. unfold endswith.
  destruct (rev n) as [| c t]; [reflexivity |].
  change (startswith (rev (lit ".tex")) (c :: t))
    with (ascii_eqb "x"%char c && startswith (lit "et.") t).
  destruct (ascii_eqb "x"%char c) eqn:E; [| reflexivity].
  apply ascii_eqb_eq in E. subst c.
  cbn [forallb] in H. apply andb_true_iff in H as [H _].
  vm_compute in H. discriminate.
Qed.

(** One step of a [try] block that goes on to return [True]. *)
Lemma try_step {A} (m : M A) (k : A -> M bool) (h : exn -> M bool) st :
  (forall e s, fst (h e s) = Ok false) ->
  fst (try_except (bind m k) h st) = Ok true ->
  exists a st1,
    m st = (Ok a, st1)
    /\ fst (try_except (k a) h st1) = Ok true
    /\ snd (try_except (bind m k) h st) = snd (try_except (k a) h st1).
Proof.
  intros Hh H. destruct (m st) as [[a | e] s] eqn:E.
  - rewrite (try_bind_ok _ _ E) in H |- *. exists a, s. auto.
  - rewrite (try_bind_raise _ _ E) in H. rewrite Hh in H. discriminate.
Qed.

(** X18.  The include pattern captures the chapter number only, and this
    capture is what [download_repository_files] takes for the path of the
    file: for a directive [\include{chapters/chapterN}] of the main file a
    download that returns [True] has asked the store for [N.tex] at the top
    of the repository. *)
Theorem directives_are_fetched_by_number st d content number :
  truthy_dir (work_dir st) = Some d ->
  fst (get_file_content cfg (main_file cfg) branch st) = Ok (Some content) ->
  In number (findall_include content) ->
  fst (download_repository_files cfg branch st) = Ok true ->
  number <> [] /\ forallb is_digit number = true
  /\ In (content_request cfg (number ++ lit ".tex") branch)
        (requests (snd (download_repository_files cfg branch st))).
Proof.
  intros Hwd Hget Hin Htrue.
  destruct (findall_include_fuel_digits _ _ _ Hin) as [Hne Hdig].
  split; [exact Hne |]. split; [exact Hdig |].
  set (rq := content_request cfg (number ++ lit ".tex") branch).
  set (I := fun s : State => In rq (requests s)).
  assert (HL : ignores_log I) by (split; intros; assumption).
  assert (HF : ignores_fs I) by (split; intros; assumption).
  assert (HW : ignores_work_dir I) by (split; intros; assumption).
  assert (HC : ignores_cwd I) by (split; intros; assumption).
  assert (HR : ignores_requests I).
  { split. intros r s s0 H. unfold I. cbn. apply in_or_app. left. exact H. }
  remember (download_repository_files cfg branch st) as r eqn:Er.
  unfold download_repository_files in Er. unfold bind at 1 2 in Er.
  unfold get in Er. rewrite Hwd in Er. unfold ret at 1 in Er.
  subst r.
  match type of Htrue with
  | fst (try_except _ ?h _) = _ =>
      assert (Hh : forall e s, fst (h e s) = Ok false) by reflexivity
  end.
  destruct (try_step _ _ _ _ Hh Htrue) as (c & st1 & E1 & Htrue1 & ->). clear Htrue.
  rewrite E1 in Hget. cbn [fst] in Hget. injection Hget as ->.
  destruct content as [| c0 ct]; [destruct Hin |].
  cbn [truthy_text truthy_dir] in Htrue1 |- *.
  destruct (try_step _ _ _ _ Hh Htrue1) as (d1 & st2 & _ & Htrue2 & ->). clear Htrue1.
  destruct (try_step _ _ _ _ Hh Htrue2) as (u3 & st3 & _ & Htrue3 & ->). clear Htrue2.
  destruct (try_step _ _ _ _ Hh Htrue3) as (u4 & st4 & _ & Htrue4 & ->). clear Htrue3.
  destruct (try_step _ _ _ _ Hh Htrue4) as (u5 & st5 & E5 & Htrue5 & ->). clear Htrue4.
  assert (Hsent : I st5).
  { destruct (for_each_requests
                (fun p => content_request cfg p branch)
                (download_file cfg branch
                   (fun file_path =>
                      logger WARNING (lit "File " ++ file_path ++ lit " not found, skipping")))
                (standard_files ++ map with_tex (findall_include (c0 :: ct))) st4)
      as (k & _ & Hr & Hok).
    { intros p s. apply download_file_requests. reflexivity. }
    rewrite E5 in Hr, Hok. cbn [fst snd] in Hr, Hok.
    destruct u5. rewrite (Hok eq_refl), firstn_all in Hr.
    unfold I. rewrite Hr. apply in_or_app. right.
    apply in_map_iff. exists (with_tex number). split.
    - unfold rq, with_tex. rewrite (endswith_tex_digits _ Hdig). reflexivity.
    - apply in_or_app. right. apply in_map. exact Hin. }
  assert (Hs : stable I
                 (try_except
                    (download_all_chapters cfg branch ;;;
                     download_figures branch ;;; ret true)
                    (fun e => logger ERROR (lit "Error downloading files: " ++ exn_str e) ;;;
                              ret false))).
  { apply stable_try_except.
    - apply stable_bind; [apply stable_download_all_chapters; assumption | intros _].
      apply stable_bind; [apply stable_download_figures; assumption | intros _].
      apply stable_ret.
    - intros e. apply stable_bind; [apply stable_logger; assumption | intros _].
      apply stable_ret. }
  exact (Hs st5 Hsent).
Qed.

End Probes.

(** ** The pipeline and the files of the repository *)

Section NoWrite.

Variable cfg : Config.
Variable branch : str.
Variable st0 : State.

Let I : State -> Prop := no_write_since st0.

Lemma no_write_ignores :
  ignores_log I /\ ignores_fs I /\ ignores_cwd I /\ ignores_work_dir I
  /\ ignores_commands I.
Proof. repeat split; intros; assumption. Qed.

Ltac quiet_step :=
  first
    [ apply stable_ret | apply stable_raise | apply stable_lift | apply stable_get
    | apply stable_logger; apply no_write_ignores
    | apply stable_makedirs; apply no_write_ignores
    | apply stable_write_text; apply no_write_ignores
    | apply stable_read_text | apply stable_read_bytes
    | apply stable_listdir
    | apply stable_getitem | apply stable_decode_content | apply stable_iterate
    | apply stable_modify_fs_work_dir; apply no_write_ignores
    | apply stable_no_write_request; reflexivity
    | apply stable_bind; [| intros ?]
    | apply stable_try_except; [| intros ?]
    | apply stable_for_each; intros ?
    | apply stable_map_m; intros ?
    | match goal with
      | |- stable _ (match ?x with _ => _ end) => destruct x
      end ].

Lemma no_write_download : stable I (download_repository_files cfg branch).
Proof.
  unfold download_repository_files, setup_working_directory, download_all_chapters,
    download_figures, download_file, the_work_dir, get_file_content.
  repeat quiet_step.
Qed.

Lemma no_write_upload pdf : stable I (upload_compiled_book cfg pdf).
Proof.
  unfold upload_compiled_book, list_branches, create_branch.
  repeat quiet_step.
Qed.

Lemma no_write_process_book : stable I (process_book cfg branch).
Proof.
  destruct no_write_ignores as (HL & HF & HC & HW & HR).
  unfold process_book, processing_failed.
  repeat first
    [ apply no_write_download
    | apply no_write_upload
    | apply (stable_update_main_file cfg I); assumption
    | apply (stable_compile_book cfg I); assumption
    | apply (stable_cleanup I); assumption
    | apply (stable_setup I); assumption
    | apply stable_ret
    | apply stable_logger; assumption
    | apply stable_bind; [| intros ?]
    | apply stable_try_except; [| intros ?]
    | match goal with
      | |- stable _ (match ?x with _ => _ end) => destruct x
      | |- stable _ (let (_, _) := ?x in _) => destruct x
      end ].
Qed.

End NoWrite.

Section Pipeline_writes.

Variable cfg : Config.
Variable branch : str.

(** X19.  The whole pipeline writes no file to the repository: whatever
    [process_book] returns, [True] included, none of the requests it has
    sent is a PUT. *)
Theorem process_book_writes_nothing st :
  no_write_since st (snd (process_book cfg branch st)).
Proof.
  apply (no_write_process_book cfg branch st).
  exists []. rewrite app_nil_r. split; reflexivity.
Qed.

End Pipeline_writes.

End Reasoning.


(** * The statements on a concrete platform *)

Section Examples.

Let cfg : Config := Mock.config true 2.
Let build : str := lit "pdflatex -interaction=nonstopmode main.tex".
Let chapter1 : Z * str := (1%Z, lit "chapters/chapter1.tex").

(** C1 does not hold as stated.  The master document has one begin and one
    end marker and one directive, [chapters] holds [chapter1.tex]; both runs
    succeed, and the second run writes a text that differs from the first:
    the comment line of the generated block is now also in the body. *)
Lemma second_update_changes_main_file :
  let content := unlines [lit "\begin{document}"; lit "\include{chapters/chapter1}";
                          lit "\end{document}"] in
  let st0 := Mock.drafted content [lit "chapter1.tex"] in
  let st1 := snd (update_main_file cfg st0) in
  let st2 := snd (update_main_file cfg st1) in
  occurrences BEGIN_DOC content = 1
  /\ occurrences END_DOC content = 1
  /\ fst (update_main_file cfg st0) = Ok true
  /\ fst (update_main_file cfg st1) = Ok true
  /\ lookup (lit "/tmp/w/main.tex") (files (fs st1))
     = Some (unlines [lit "\begin{document}"; []; []; [];
                      lit "% Generated chapter includes";
                      lit "\include{chapters/chapter1}"; []; [];
                      lit "\end{document}"])
  /\ lookup (lit "/tmp/w/main.tex") (files (fs st2))
     = Some (unlines [lit "\begin{document}"; []; []; [];
                      lit "% Generated chapter includes";
                      lit "\include{chapters/chapter1}"; [];
                      lit "% Generated chapter includes";
                      lit "\end{document}"])
  /\ lookup (lit "/tmp/w/main.tex") (files (fs st2))
     <> lookup (lit "/tmp/w/main.tex") (files (fs st1)).
Proof.
  vm_compute. repeat split; try reflexivity. discriminate.
Qed.

(** C5 does not hold as stated.  The text after the end-document marker is
    not in the output. *)
Lemma closing_matter_is_dropped :
  let closing := lit "% closing notes" in
  let content := unlines [lit "\begin{document}"; lit "\tableofcontents";
                          lit "\end{document}"; closing] in
  let st1 := snd (update_main_file cfg (Mock.drafted content [])) in
  occurrences BEGIN_DOC content = 1
  /\ occurrences END_DOC content = 1
  /\ find closing content = 49%Z
  /\ fst (update_main_file cfg (Mock.drafted content [])) = Ok true
  /\ exists out,
       lookup (lit "/tmp/w/main.tex") (files (fs st1)) = Some out
       /\ find closing out = (-1)%Z.
Proof.
  vm_compute. repeat split; try reflexivity. eexists. split; reflexivity.
Qed.


(** C6 does not hold as stated.  No bibliography pass and one resolution
    pass are configured, and the shell raises when it is to start the
    first pass: the build command is given to the shell once, not twice. *)
Lemma exception_halts_the_pass_sequence :
  let st := Mock.staged Mock.broken_shell (lit "\begin{document}\end{document}") in
  let r := compile_book (Mock.config false 1) st in
  run_bibtex (Mock.config false 1) = false
  /\ latex_runs (Mock.config false 1) = 1%Z
  /\ commands (snd r) = [build]
  /\ length (commands (snd r)) <> 1 + 1
  /\ fst r = Ok (false, None).
Proof. vm_compute. repeat split. discriminate. Qed.

(** C9 does not hold as stated.  The compiler removes the directory the
    process came from: [compile_book] returns with the process still in the
    working directory. *)
Lemma compile_book_stays_in_working_directory :
  let st := Mock.staged Mock.uprooting_pdflatex (lit "\begin{document}\end{document}") in
  let r := compile_book cfg st in
  cwd st = lit "/home/u"
  /\ fst r = Ok (false, None)
  /\ cwd (snd r) = lit "/tmp/w"
  /\ cwd (snd r) <> cwd st.
Proof. vm_compute. repeat split. discriminate. Qed.

(** The second run on a document with a table of contents, one directive and
    one line of text. *)
Lemma second_run_keeps_one_block_witness :
  let pre := unlines [lit "\documentclass{book}"] in
  let body := unlines [[]; lit "\tableofcontents"; lit "\include{chapters/chapter1}";
                       lit "Text"] in
  let front := fst (split_frontmatter body) in
  let kept := strip (sub_include (snd (split_frontmatter body))) in
  let block := chapter_includes [chapter1] in
  let first := document (pre ++ BEGIN_DOC) front block kept in
  let second := document (pre ++ BEGIN_DOC) (second_front front) block
                  (second_body 1 kept) in
  rebuild (pre ++ BEGIN_DOC ++ body ++ END_DOC ++ [nl]) [chapter1] = Some first
  /\ rebuild first [chapter1] = Some second
  /\ length first < length second.
Proof.
  intros pre body.
  apply (second_run_keeps_one_block pre body [nl] [chapter1]); vm_compute; reflexivity.
Defined.


(** A master document without end marker in the repository. *)
Lemma missing_marker_aborts_before_build_witness :
  let st := Mock.fresh {| Mock.repo_files := [(lit "main.tex", lit "\begin{document}")];
                          Mock.repo_branches := [lit "main"] |} in
  fst (process_book cfg (lit "main") st) = Ok false
  /\ commands (snd (process_book cfg (lit "main") st)) = commands st.
Proof.
  intros st.
  apply (missing_marker_aborts_before_build cfg (lit "main") st (lit "\begin{document}")).
  - vm_compute; reflexivity.
  - vm_compute; reflexivity.
  - right. vm_compute; reflexivity.
Defined.


(** A document with a table of contents and text after the end marker. *)
Lemma rebuild_keeps_preamble_and_front_matter_witness :
  let pre := unlines [lit "\documentclass{book}"] in
  let body := unlines [[]; lit "\maketitle"; lit "\tableofcontents"; lit "Text"] in
  let content := pre ++ BEGIN_DOC ++ body ++ END_DOC ++ lit "% closing notes" in
  rebuild content [chapter1]
  = Some (pre ++ BEGIN_DOC ++ [nl] ++ fst (split_frontmatter body) ++ [nl]
            ++ chapter_includes [chapter1] ++ [nl]
            ++ strip (sub_include (snd (split_frontmatter body))) ++ [nl]
            ++ END_DOC ++ [nl])
  /\ fst (split_frontmatter body) = unlines [[]; lit "\maketitle"; lit "\tableofcontents"]
  /\ rebuild (pre ++ BEGIN_DOC ++ body ++ END_DOC ++ []) [chapter1]
     = rebuild content [chapter1].
Proof.
  intros pre body content.
  destruct (rebuild_keeps_preamble_and_front_matter pre body (lit "% closing notes")
              [chapter1]) as (Hout & _ & _ & _ & Hclosing).
  - vm_compute; reflexivity.
  - vm_compute; reflexivity.
  - split; [exact Hout | split; [vm_compute; reflexivity | exact (Hclosing [])]].
Defined.

(** No bibliography pass and one resolution pass: two passes, each exiting
    with status 1. *)
Lemma compile_book_pass_sequence_witness :
  let st := Mock.staged Mock.noisy_pdflatex (lit "\begin{document}\end{document}") in
  commands (snd (compile_book (Mock.config false 1) st))
  = commands st ++ build :: repeat build 1
  /\ length (commands (snd (compile_book (Mock.config false 1) st)))
     = length (commands st) + (1 + 1).
Proof.
  intros st.
  apply (compile_book_pass_sequence (Mock.config false 1) st (lit "/tmp/w") build 1).
  - vm_compute; reflexivity.
  - vm_compute; reflexivity.
  - vm_compute; reflexivity.
  - vm_compute; reflexivity.
  - vm_compute; reflexivity.
  - vm_compute; reflexivity.
  - intros cmd dir f. eexists. reflexivity.
Defined.

(** The output branch is in the repository and the PDF in the working
    directory: the upload returns [True], the repository is as it was. *)
Lemma upload_reports_success_without_transfer_witness :
  let st := Mock.built [lit "main"; lit "compiled-output"] in
  let st' := snd (list_branches cfg st) in
  let pdf := lit "/tmp/w/main.pdf" in
  fst (upload_compiled_book cfg pdf st) = Ok true
  /\ requests (snd (upload_compiled_book cfg pdf st)) = requests st'
  /\ store (snd (upload_compiled_book cfg pdf st)) = store st'
  /\ no_write_since st (snd (upload_compiled_book cfg pdf st)).
Proof.
  intros st st' pdf.
  apply (upload_reports_success_without_transfer cfg pdf st
           [JStr (lit "main"); JStr (lit "compiled-output")] st' (lit "%PDF-1.5")).
  - vm_compute; reflexivity.
  - vm_compute; reflexivity.
  - vm_compute; reflexivity.
Defined.

(** The output branch is in the repository: creating it again is answered
    with status 422 and returns [None]; the upload sends nothing after the
    listing. *)
Lemma create_branch_idempotent_witness :
  let st := Mock.built [lit "main"; lit "compiled-output"] in
  fst (create_branch cfg (lit "compiled-output") (lit "main") st) = Ok None
  /\ requests (snd (upload_compiled_book cfg (lit "/tmp/w/main.pdf") st))
     = requests (snd (list_branches cfg st)).
Proof.
  intros st.
  destruct (create_branch_idempotent cfg st (lit "compiled-output") (lit "main")
              [(lit "object", JObj [(lit "sha", JStr (lit "5ha"))])]
              [(lit "sha", JStr (lit "5ha"))] (JStr (lit "5ha"))
              (snd (_make_request cfg (lit "GET") (lit "/git/ref/heads/" ++ lit "main")
                      None [] st))
              (lit "/tmp/w/main.pdf")
              [JStr (lit "main"); JStr (lit "compiled-output")]
              (snd (list_branches cfg st)))
    as (H422 & _ & _ & Hreq & _).
  - vm_compute; reflexivity.
  - vm_compute; reflexivity.
  - vm_compute; reflexivity.
  - vm_compute; reflexivity.
  - vm_compute; reflexivity.
  - split; [apply H422; vm_compute; reflexivity | exact Hreq].
Defined.

(** The shell raises on the first pass: the process is back in [/home/u]. *)
Lemma compile_book_restores_cwd_witness :
  let st := Mock.staged Mock.broken_shell (lit "\begin{document}\end{document}") in
  cwd (snd (compile_book cfg st)) = cwd st.
Proof.
  intros st. apply (compile_book_restores_cwd cfg st). vm_compute; reflexivity.
Defined.

(** A master document of zero bytes in the repository. *)
Lemma empty_master_document_is_missing_witness :
  let st := Mock.fresh {| Mock.repo_files := [(lit "main.tex", [])];
                          Mock.repo_branches := [lit "main"] |} in
  let st1 := snd (setup_working_directory st) in
  let fetched := get_file_content cfg (main_file cfg) (lit "main") st1 in
  download_repository_files cfg (lit "main") st1
  = (Ok false,
     add_log ERROR (lit "Main file " ++ main_file cfg ++ lit " not found") (snd fetched))
  /\ fs (snd (download_repository_files cfg (lit "main") st1)) = fs st1
  /\ fst (process_book cfg (lit "main") st) = Ok false
  /\ commands (snd (process_book cfg (lit "main") st)) = commands st.
Proof.
  intros st.
  apply (empty_master_document_is_missing cfg (lit "main") st (Some [])).
  - vm_compute; reflexivity.
  - right. reflexivity.
Defined.

(** A backup copy of a chapter is taken as a chapter. *)
Lemma chapter_file_names_witness :
  is_chapter_file (lit "chapter12.tex.bak") = true
  /\ scan_chapters [lit "chapter12.tex.bak"] = [(12%Z, lit "chapters/chapter12.tex.bak")].
Proof.
  destruct (chapter_file_names (lit "chapter12.tex.bak")) as [Hiff Hscan].
  split.
  - apply Hiff. exists (lit "12"), (lit ".bak").
    split; [reflexivity | split; [discriminate | reflexivity]].
  - apply (Hscan (lit "12") (lit ".bak")); [reflexivity | discriminate | reflexivity].
Defined.

(** A comment of the preamble that names the end marker: the text of the
    body is lost. *)
Lemma rebuild_with_end_marker_first_witness :
  rebuild (lit "% " ++ END_DOC ++ [nl] ++ BEGIN_DOC ++ lit "Text") [chapter1]
  = Some (document (lit "% " ++ END_DOC ++ [nl] ++ BEGIN_DOC) []
            (chapter_includes [chapter1]) []).
Proof.
  apply (rebuild_with_end_marker_first (lit "% ") [nl] (lit "Text") [chapter1]);
    vm_compute; reflexivity.
Defined.

(** A file that is not in the repository. *)
Lemma get_file_content_outcomes_witness :
  let st := Mock.fresh {| Mock.repo_files := []; Mock.repo_branches := [lit "main"] |} in
  fst (get_file_content cfg (lit "preamble.tex") (lit "main") st) = Ok None
  /\ requests (snd (get_file_content cfg (lit "preamble.tex") (lit "main") st))
     = requests st ++ [content_request cfg (lit "preamble.tex") (lit "main")].
Proof.
  intros st.
  destruct (get_file_content_outcomes cfg (lit "preamble.tex") (lit "main") st)
    as (Hreq & H404 & _).
  split; [apply H404; vm_compute; reflexivity | exact Hreq].
Defined.

(** Updating a file that is not in the repository. *)
Lemma create_or_update_file_requests_witness :
  let st := Mock.fresh {| Mock.repo_files := []; Mock.repo_branches := [lit "main"] |} in
  fst (create_or_update_file cfg (lit "notes.tex") (Text (lit "x")) (lit "Add notes")
         (lit "main") true st)
  = Raise (HTTPError 404 (lit "404 error"))
  /\ create_or_update_file cfg (lit "main.pdf") (Bytes (lit "%PDF")) (lit "Add PDF")
       (lit "main") false st
     = (Raise (Error (lit "AttributeError")
                 (lit "'bytes' object has no attribute 'encode'")), st).
Proof.
  intros st.
  destruct (create_or_update_file_requests cfg (lit "notes.tex") (lit "Add notes")
              (lit "main") st) as (_ & _ & Hget & _).
  destruct (Hget (lit "x") (HTTPError 404 (lit "404 error"))
              (snd (_make_request cfg (lit "GET") (lit "/contents/" ++ lit "notes.tex") None
                      [(lit "ref", lit "main")] st)))
    as [Heq _]; [vm_compute; reflexivity |].
  split; [rewrite Heq; reflexivity |].
  destruct (create_or_update_file_requests cfg (lit "main.pdf") (lit "Add PDF")
              (lit "main") st) as (Hbytes & _).
  apply Hbytes.
Defined.

(** The two branches of the repository. *)
Lemma list_branches_names_witness :
  fst (list_branches cfg (Mock.built [lit "main"; lit "compiled-output"]))
  = Ok [JStr (lit "main"); JStr (lit "compiled-output")].
Proof.
  destruct (list_branches_names cfg (Mock.built [lit "main"; lit "compiled-output"])
              [JObj [(lit "name", JStr (lit "main"))];
               JObj [(lit "name", JStr (lit "compiled-output"))]])
    as [Hnames _].
  - vm_compute; reflexivity.
  - vm_compute; reflexivity.
  - apply Hnames.
    repeat (constructor; [eexists; split; reflexivity |]). constructor.
Defined.

(** A store without pull requests answers 404. *)
Lemma create_pull_request_outcomes_witness :
  let st := Mock.built [lit "main"] in
  fst (create_pull_request cfg (lit "Chapter 1") (lit "First draft") (lit "chapter-1")
         (lit "main") st)
  = Raise (HTTPError 404 (lit "404 error"))
  /\ length (requests (snd (create_pull_request cfg (lit "Chapter 1") (lit "First draft")
                              (lit "chapter-1") (lit "main") st))) = 1.
Proof.
  intros st.
  destruct (create_pull_request_outcomes cfg (lit "Chapter 1") (lit "First draft")
              (lit "chapter-1") (lit "main") st) as (Hreq & _ & Herr & _).
  split.
  - rewrite Herr; vm_compute; reflexivity.
  - rewrite Hreq. reflexivity.
Defined.

(** The pull request is not there: nothing is posted. *)
Lemma create_file_comment_requests_witness :
  let st := Mock.built [lit "main"] in
  create_file_comment cfg 7 (lit "chapters/chapter1.tex") (lit "typo") (Some 3%Z) st
  = (Raise (HTTPError 404 (lit "404 error")),
     snd (_make_request cfg (lit "GET") (lit "/pulls/" ++ str_of_Z 7) None [] st)).
Proof.
  intros st.
  destruct (create_file_comment_requests cfg 7 (lit "chapters/chapter1.tex") (lit "typo") st)
    as (_ & Hget & _).
  apply Hget. vm_compute; reflexivity.
Defined.


(** A main file with [\r\n] and [\r] line ends is read with newlines, and
    written back with them. *)
Lemma main_file_is_read_in_text_mode :
  let content := lit "\begin{document}" ++ [cr; nl] ++ lit "Text" ++ [cr]
                   ++ lit "\end{document}" in
  let st1 := snd (update_main_file cfg (Mock.drafted content [])) in
  lookup (lit "/tmp/w/main.tex") (files (fs st1))
  = Some (unlines [lit "\begin{document}"; []; []; [];
                   lit "% Generated chapter includes"; [];
                   lit "Text"; lit "\end{document}"]).
Proof. vm_compute. reflexivity. Qed.

(** The working directory with the PDF is removed. *)
Lemma cleanup_removes_the_working_tree_witness :
  let st' := snd (cleanup_working_directory (Mock.built [lit "main"])) in
  work_dir st' = None
  /\ path_exists (fs st') (lit "/tmp/w/main.pdf") = false
  /\ is_dir (fs st') (lit "/home/u") = true.
Proof.
  intros st'.
  destruct (cleanup_removes_the_working_tree (Mock.built [lit "main"]))
    as (_ & Hrm).
  destruct (Hrm (lit "/tmp/w")) as (Hw & Hgone & Hkept & _);
    [vm_compute; reflexivity | vm_compute; reflexivity |].
  split; [exact Hw |]. split.
  - apply Hgone. vm_compute; reflexivity.
  - destruct (Hkept (lit "/home/u")) as [_ Hd]; [vm_compute; reflexivity |].
    fold st' in Hd. rewrite Hd. vm_compute; reflexivity.
Defined.

(** A process that has nothing below [/tmp]. *)
Lemma setup_then_cleanup_restores_files_witness :
  let st := Mock.fresh {| Mock.repo_files := []; Mock.repo_branches := [lit "main"] |} in
  let st2 := snd (cleanup_working_directory (snd (setup_working_directory st))) in
  fs st2 = fs st /\ work_dir st2 = None /\ cwd st2 = cwd st.
Proof.
  intros st.
  apply (setup_then_cleanup_restores_files st).
  intros p [<- | []]. vm_compute; reflexivity.
Defined.

(** A main file with the directive of chapter 1: the download asks for
    [1.tex]. *)
Lemma directives_are_fetched_by_number_witness :
  let repo := {| Mock.repo_files :=
                   [(lit "main.tex",
                     lit "\begin{document}\include{chapters/chapter1}\end{document}");
                    (lit "chapters/chapter1.tex", lit "\chapter{One}")];
                 Mock.repo_branches := [lit "main"] |} in
  let st := snd (setup_working_directory (Mock.fresh repo)) in
  In (content_request cfg (lit "1" ++ lit ".tex") (lit "main"))
     (requests (snd (download_repository_files cfg (lit "main") st))).
Proof.
  intros repo st.
  apply (directives_are_fetched_by_number cfg (lit "main") st
           (lit "/tmp/mathbook_compiler_k3x9")
           (lit "\begin{document}\include{chapters/chapter1}\end{document}") (lit "1")).
  - vm_compute; reflexivity.
  - vm_compute; reflexivity.
  - vm_compute. left. reflexivity.
  - vm_compute; reflexivity.
Defined.

End Examples.
